(** * AI-Web-Builder: the requirements-to-repository pipeline

    A shallow embedding of the pipeline stages of the web builder workflow
    (parse requirements, create repository, initialise framework, generate
    structure, generate content, finalise) and of the string helpers they
    are built from, together with the properties stated about them.

    Strings are sequences of code units.  The development covers code units
    below 256 (ISO-8859-1), which is what [ascii] holds; on that range
    [toLowerCase], [trim], the class [\s] and the atom [.] below are the
    ECMAScript ones.  Of the four line terminators that [.] refuses, two
    (LF, CR) lie in this range and two (U+2028, U+2029) above it; a
    statement that speaks of the code units [.] matches speaks of all
    four. *)

From Stdlib Require Import Ascii String List Bool Arith Lia NArith.
From Stdlib Require Import DecimalString.
Import ListNotations.
Open Scope string_scope.
Open Scope bool_scope.

(* ================================================================== *)
(** ** Code units and character classes *)

Module Char.

Definition code (c : ascii) : nat := nat_of_ascii c.

Definition between (lo hi : nat) (c : ascii) : bool :=
  (lo <=? code c)%nat && (code c <=? hi)%nat.

Definition isCode (n : nat) (c : ascii) : bool := (code c =? n)%nat.

(** [a-z] and [0-9] *)
Definition az (c : ascii) : bool := between 97 122 c.
Definition digit (c : ascii) : bool := between 48 57 c.
Definition alnum (c : ascii) : bool := az c || digit c.
Definition hyphen (c : ascii) : bool := isCode 45 c.

(** [\s]: TAB, LF, VT, FF, CR, SP and NBSP are the white space and line
    terminator code units below 256. *)
Definition space (c : ascii) : bool := between 9 13 c || isCode 32 c || isCode 160 c.

(** The code units [.] refuses are the line terminators: LF, CR, U+2028
    and U+2029.  LF and CR are the two below 256. *)
Definition line_terminator (c : ascii) : bool :=
  let unit := N_of_ascii c in
  ((unit =? 0x0a) || (unit =? 0x0d) || (unit =? 0x2028) || (unit =? 0x2029))%N.
Definition dot (c : ascii) : bool := negb (line_terminator c).

(** Upper-case code units: A-Z, and U+00C0..U+00DE without U+00D7. *)
Definition upper (c : ascii) : bool :=
  between 65 90 c || (between 192 222 c && negb (isCode 215 c)).

Definition toLower (c : ascii) : ascii :=
  if upper c then ascii_of_nat (code c + 32) else c.

(** Canonicalisation used by the [i] flag (no [u] flag): a code unit is
    compared through its upper-case form.  The two lower-case letters
    whose upper-case form lies above 255 (U+00B5, U+00FF) and U+00DF are
    fixed; no pattern below mentions them. *)
Definition canonical (c : ascii) : ascii :=
  if az c || (between 224 254 c && negb (isCode 247 c))
  then ascii_of_nat (code c - 32) else c.

End Char.

(* ================================================================== *)
(** ** String primitives of the host language *)

Module Str.

Fixpoint map (f : ascii -> ascii) (s : string) : string :=
  match s with
  | EmptyString => EmptyString
  | String c s' => String (f c) (map f s')
  end.

Fixpoint all (p : ascii -> bool) (s : string) : bool :=
  match s with
  | EmptyString => true
  | String c s' => p c && all p s'
  end.

(** [s.toLowerCase()] *)
Definition toLowerCase (s : string) : string := map Char.toLower s.

(** [s.startsWith(t)] *)
Fixpoint startsWith (t s : string) : bool :=
  match t, s with
  | EmptyString, _ => true
  | String a t', String b s' => Ascii.eqb a b && startsWith t' s'
  | String _ _, EmptyString => false
  end.

(** [s.includes(t)] *)
Fixpoint includes (t s : string) : bool :=
  startsWith t s ||
  match s with
  | EmptyString => false
  | String _ s' => includes t s'
  end.

(** The string without its longest prefix of code units in [p]. *)
Fixpoint dropWhile (p : ascii -> bool) (s : string) : string :=
  match s with
  | EmptyString => EmptyString
  | String c s' => if p c then dropWhile p s' else s
  end.

(** The string without its longest suffix of code units in [p]. *)
Fixpoint dropEnd (p : ascii -> bool) (s : string) : string :=
  match s with
  | EmptyString => EmptyString
  | String c s' =>
      match dropEnd p s' with
      | EmptyString => if p c then EmptyString else String c EmptyString
      | t => String c t
      end
  end.

Definition trimStart (s : string) : string := dropWhile Char.space s.
Definition trimEnd (s : string) : string := dropEnd Char.space s.

(** [s.trim()] *)
Definition trim (s : string) : string := trimEnd (trimStart s).

(** [s.split(c)] for a separator of one code unit: the empty string
    splits into one empty piece. *)
Fixpoint split (sep : ascii) (s : string) : list string :=
  match s with
  | EmptyString => [EmptyString]
  | String c s' =>
      if Ascii.eqb c sep then EmptyString :: split sep s'
      else match split sep s' with
           | h :: t => String c h :: t
           | [] => [String c EmptyString]
           end
  end.

(** [s.substring(0, n)] *)
Definition substring0 (n : nat) (s : string) : string := String.substring 0 n s.

(** [s.slice(-n)]: the last [n] code units (all of them when fewer). *)
Definition sliceLast (n : nat) (s : string) : string :=
  String.substring (String.length s - n) n s.

(** [l.join(sep)] *)
Definition join (sep : string) (l : list string) : string := String.concat sep l.

(** [l.includes(w)] on an array of strings *)
Definition mem (w : string) (l : list string) : bool := existsb (String.eqb w) l.

(** A JavaScript string is truthy when it is not empty. *)
Definition truthy (s : string) : bool := negb (String.eqb s EmptyString).

End Str.

(* ================================================================== *)
(** ** Regular expressions

    The patterns of the program use literals, classes, [.], [^], [$],
    alternation and greedy [*]/[+] on one-character atoms.  Matching is the
    backtracking, continuation-passing matcher of the language definition:
    a matcher takes the rest of the input and a continuation and returns
    the input left after the whole match. *)

Module RegExp.

Inductive regex : Type :=
| Eps : regex
| Bos : regex                          (* ^ *)
| Eos : regex                          (* $ *)
| Cls : (ascii -> bool) -> regex       (* a class, or one literal *)
| Seq : regex -> regex -> regex
| Alt : regex -> regex -> regex
| Star : (ascii -> bool) -> regex.     (* greedy closure of a class *)

Definition Plus (p : ascii -> bool) : regex := Seq (Cls p) (Star p).

Fixpoint Lit (s : string) : regex :=
  match s with
  | EmptyString => Eps
  | String c s' => Seq (Cls (Ascii.eqb c)) (Lit s')
  end.

(** A literal under the [i] flag. *)
Fixpoint LitI (s : string) : regex :=
  match s with
  | EmptyString => Eps
  | String c s' =>
      Seq (Cls (fun x => Ascii.eqb (Char.canonical x) (Char.canonical c))) (LitI s')
  end.

(** The continuation receives whether the position is still the start of
    the input, and the input left. *)
Definition cont : Type := bool -> string -> option string.

Fixpoint star (p : ascii -> bool) (bos : bool) (s : string) (k : cont)
  : option string :=
  match s with
  | String c s' =>
      if p c then
        match star p false s' k with
        | Some r => Some r
        | None => k bos s
        end
      else k bos s
  | EmptyString => k bos s
  end.

Fixpoint run (r : regex) (bos : bool) (s : string) (k : cont) : option string :=
  match r with
  | Eps => k bos s
  | Bos => if bos then k bos s else None
  | Eos => match s with EmptyString => k bos s | _ => None end
  | Cls p =>
      match s with
      | String c s' => if p c then k false s' else None
      | EmptyString => None
      end
  | Seq r1 r2 => run r1 bos s (fun b s' => run r2 b s' k)
  | Alt r1 r2 =>
      match run r1 bos s k with
      | Some x => Some x
      | None => run r2 bos s k
      end
  | Star p => star p bos s k
  end.

(** A match anchored at the current position. *)
Definition matchAt (r : regex) (bos : bool) (s : string) : option string :=
  run r bos s (fun _ rest => Some rest).

(** The outcome of a search: the input skipped before the match, whether
    the match is empty, and the input after it. *)
Record found : Type := Found { skipped : string; isEmpty : bool; after : string }.

(** [exec]: the leftmost position at which the pattern matches. *)
Fixpoint exec (r : regex) (bos : bool) (s : string) : option found :=
  match matchAt r bos s with
  | Some rest => Some (Found EmptyString (String.length rest =? String.length s)%nat rest)
  | None =>
      match s with
      | EmptyString => None
      | String c s' =>
          match exec r false s' with
          | Some (Found pre e rest) => Some (Found (String c pre) e rest)
          | None => None
          end
      end
  end.

(** [r.test(s)] *)
Definition test (r : regex) (s : string) : bool :=
  match exec r true s with Some _ => true | None => false end.

(** [s.replace(r, rep)] without the [g] flag; [rep] has no [$]. *)
Definition replace (r : regex) (rep : string) (s : string) : string :=
  match exec r true s with
  | Some (Found pre _ rest) => pre ++ rep ++ rest
  | None => s
  end.

(** [s.replace(r, rep)] with the [g] flag.  After an empty match the
    search resumes one code unit further.  Every round consumes input,
    so [S (length s)] rounds are enough. *)
Fixpoint replaceAllFrom (fuel : nat) (r : regex) (rep : string) (bos : bool)
         (s : string) : string :=
  match fuel with
  | O => s
  | S fuel' =>
      match exec r bos s with
      | None => s
      | Some (Found pre false rest) =>
          pre ++ rep ++ replaceAllFrom fuel' r rep false rest
      | Some (Found pre true rest) =>
          pre ++ rep ++
            match rest with
            | EmptyString => EmptyString
            | String c rest' => String c (replaceAllFrom fuel' r rep false rest')
            end
      end
  end.

Definition replaceAll (r : regex) (rep : string) (s : string) : string :=
  replaceAllFrom (S (String.length s)) r rep true s.

(** [s.split(r)] for a pattern that matches no empty string. *)
Fixpoint splitFrom (fuel : nat) (r : regex) (bos : bool) (s : string) : list string :=
  match fuel with
  | O => [s]
  | S fuel' =>
      match exec r bos s with
      | Some (Found pre false rest) => pre :: splitFrom fuel' r false rest
      | _ => [s]
      end
  end.

Definition split (r : regex) (s : string) : list string :=
  splitFrom (S (String.length s)) r true s.

End RegExp.

(* ================================================================== *)
(** ** The clock

    The parse stage reads the clock twice: [new Date().toISOString()] for
    the dated fallback name and [Date.now()] for the timestamp fallback of
    the sanitizer.  A reading is passed in explicitly. *)

Record Clock : Type := {
  now : N;            (* Date.now(): milliseconds since the epoch *)
  year : N;           (* the UTC fields of [new Date()] *)
  month : N;
  day : N;
  hours : N;
  minutes : N;
  seconds : N;
  milliseconds : N
}.

(** [n.toString()] for a non-negative integer *)
Definition toString (n : N) : string := NilZero.string_of_uint (N.to_uint n).

(** [padStart(w, '0')] of the decimal digits of [n] *)
Fixpoint zeros (k : nat) : string :=
  match k with
  | O => EmptyString
  | S k' => String "0" (zeros k')
  end.

Definition pad (w : nat) (n : N) : string :=
  let d := toString n in zeros (w - String.length d) ++ d.

(** [new Date().toISOString()]: [YYYY-MM-DDTHH:mm:ss.sssZ], the year on
    six digits after a [+] once it is above 9999. *)
Definition toISOString (t : Clock) : string :=
  (if (year t <=? 9999)%N then pad 4 (year t) else "+" ++ pad 6 (year t))
    ++ "-" ++ pad 2 (month t) ++ "-" ++ pad 2 (day t)
    ++ "T" ++ pad 2 (hours t) ++ ":" ++ pad 2 (minutes t) ++ ":" ++ pad 2 (seconds t)
    ++ "." ++ pad 3 (milliseconds t) ++ "Z".

(* ================================================================== *)
(** ** Results of a stage *)

Inductive result (A : Type) : Type :=
| Return : A -> result A
| Throw : string -> result A.
Arguments Return {A} _.
Arguments Throw {A} _.

(** [x || undefined] on a string: the empty string becomes absent. *)
Definition orUndefined (s : string) : option string :=
  if Str.truthy s then Some s else None.

(* ================================================================== *)
(** ** The parse stage (parse-requirements) *)

Import RegExp.

(** [/[^a-z0-9\s]/g] *)
Definition reSpecial : regex :=
  Cls (fun c => negb (Char.az c || Char.digit c || Char.space c)).
(** [/\s+/] *)
Definition reSpaces : regex := Plus Char.space.
(** [/[^a-z0-9\s-]/g] *)
Definition reInvalid : regex :=
  Cls (fun c => negb (Char.az c || Char.digit c || Char.space c || Char.hyphen c)).
(** [/-+/g] *)
Definition reHyphens : regex := Plus Char.hyphen.
(** [/^-+|-+$/g] *)
Definition reEdgeHyphens : regex :=
  Alt (Seq Bos (Plus Char.hyphen)) (Seq (Plus Char.hyphen) Eos).
(** [/-+$/] *)
Definition reTrailingHyphens : regex := Seq (Plus Char.hyphen) Eos.
(** [/-/g] *)
Definition reHyphen : regex := Cls Char.hyphen.

(** [/.*LABEL\s*/] for a literal label *)
Definition reLabel (label : string) : regex :=
  Seq (Star Char.dot) (Seq (Lit label) (Star Char.space)).
(** [/.*(?:project|website)\s+name:\s*/i] *)
Definition reName : regex :=
  Seq (Star Char.dot)
      (Seq (Alt (LitI "project") (LitI "website"))
           (Seq (Plus Char.space) (Seq (LitI "name:") (Star Char.space)))).

Definition stopWords : list string :=
  [ "a"; "an"; "the"; "and"; "or"; "but"; "in"; "on"; "at"; "to"; "for"; "of"; "with";
    "by"; "is"; "are"; "was"; "were"; "be"; "been"; "being"; "have"; "has"; "had";
    "create"; "build"; "make"; "develop"; "design"; "website"; "site"; "web"; "page" ].

Definition businessTerms : list string :=
  [ "portfolio"; "business"; "shop"; "store"; "blog"; "agency"; "studio"; "company" ].

Definition extractKeyTerms (text : string) : list string :=
  let words :=
    filter (fun word => (String.length word <=? 12)%nat)
      (filter (fun word => (2 <? String.length word)%nat && negb (Str.mem word stopWords))
         (RegExp.split reSpaces
            (replaceAll reSpecial " " (Str.toLowerCase text)))) in
  let priorityWords := filter (fun word => Str.mem word businessTerms) words in
  (priorityWords ++ filter (fun word => negb (Str.mem word priorityWords)) words)%list.

Definition generateConciseProjectName (purpose targetAudience : string) : string :=
  let keyTerms := extractKeyTerms purpose in
  if (0 <? List.length keyTerms)%nat then
    let relevantTerms := firstn 3 keyTerms in
    Str.toLowerCase (Str.join "-" relevantTerms)
  else "".

(** The chain of replacements of [sanitizeProjectName], before the [||]. *)
Definition sanitizeChain (name : string) : string :=
  replace reTrailingHyphens ""
    (Str.substring0 25
       (replaceAll reEdgeHyphens ""
          (replaceAll reHyphens "-"
             (replaceAll reSpaces "-"
                (replaceAll reInvalid "" (Str.toLowerCase name)))))).

Definition timestampFallback (t : Clock) : string :=
  "project-" ++ Str.sliceLast 6 (toString (now t)).

Definition sanitizeProjectName (t : Clock) (name : string) : string :=
  let s := sanitizeChain name in
  if Str.truthy s then s else timestampFallback t.

Record ExtractedInfo : Type := {
  purpose : option string;
  targetAudience : option string;
  businessObjectives : option string
}.

Record Parsed : Type := {
  parsed_projectName : string;
  parsed_requirements : string;
  parsed_extractedInfo : ExtractedInfo;
  parsed_success : option bool
}.

(** The four variables the scanning loop assigns. *)
Record Scan : Type := {
  v_projectName : string;
  v_purpose : string;
  v_targetAudience : string;
  v_businessObjectives : string
}.

Definition scanStart : Scan := Build_Scan "" "" "" "".

(** The value a labelled line gives: [line.replace(/.*LABEL\s*/, '').trim()] *)
Definition fieldValue (label line : string) : string :=
  Str.trim (replace (reLabel label) "" line).

Definition explicitName (line : string) : string :=
  Str.trim (replace reName "" line).

(** One round of the loop over [lines]. *)
Definition scanLine (v : Scan) (raw : string) : Scan :=
  let line := Str.trim raw in
  let v :=
    if Str.includes "Main purpose/goal:" line || Str.includes "- Main purpose/goal:" line
    then Build_Scan (v_projectName v) (fieldValue "Main purpose/goal:" line)
                    (v_targetAudience v) (v_businessObjectives v)
    else v in
  let v :=
    if Str.includes "Target audience:" line || Str.includes "- Target audience:" line
    then Build_Scan (v_projectName v) (v_purpose v)
                    (fieldValue "Target audience:" line) (v_businessObjectives v)
    else v in
  let v :=
    if Str.includes "Business objectives:" line || Str.includes "- Business objectives:" line
    then Build_Scan (v_projectName v) (v_purpose v) (v_targetAudience v)
                    (fieldValue "Business objectives:" line)
    else v in
  if Str.includes "project name:" (Str.toLowerCase line)
     || Str.includes "website name:" (Str.toLowerCase line)
  then
    let extractedName := explicitName line in
    if Str.truthy extractedName
    then Build_Scan extractedName (v_purpose v) (v_targetAudience v) (v_businessObjectives v)
    else v
  else v.

Definition scan (report : string) : Scan :=
  fold_left scanLine (Str.split "010" report) scanStart.

(** [new Date().toISOString().split('T')[0].replace(/-/g, '')] *)
Definition dateStamp (t : Clock) : string :=
  replaceAll reHyphen "" (hd "" (Str.split "T" (toISOString t))).

(** The name the stage settles on before sanitizing it. *)
Definition chooseName (t : Clock) (v : Scan) : string :=
  let projectName := v_projectName v in
  let projectName :=
    if negb (Str.truthy projectName) && Str.truthy (v_purpose v)
    then generateConciseProjectName (v_purpose v) (v_targetAudience v)
    else projectName in
  if negb (Str.truthy projectName)
  then "website-" ++ dateStamp t
  else projectName.

Definition parseRequirements (t : Clock) (requirementsReport : string) : result Parsed :=
  if negb (Str.truthy requirementsReport)
     || String.eqb (Str.trim requirementsReport) ""
  then Throw "Requirements report is required but was not provided or is empty"
  else
    let v := scan requirementsReport in
    Return {|
      parsed_projectName := sanitizeProjectName t (chooseName t v);
      parsed_requirements := requirementsReport;
      parsed_extractedInfo := {|
        purpose := orUndefined (v_purpose v);
        targetAudience := orUndefined (v_targetAudience v);
        businessObjectives := orUndefined (v_businessObjectives v) |};
      parsed_success := Some true |}.

Definition sampleClock : Clock :=
  {| now := 1793561234567; year := 2026; month := 11; day := 1;
     hours := 9; minutes := 5; seconds := 7; milliseconds := 42 |}.



(* ================================================================== *)
(** ** The business-type classifier *)

Definition inferBusinessType (requirements : string) : string :=
  let lowerReq := Str.toLowerCase requirements in
  if Str.includes "software" lowerReq || Str.includes "technology" lowerReq
     || Str.includes "development" lowerReq then "technology"
  else if Str.includes "consulting" lowerReq || Str.includes "advisory" lowerReq
     || Str.includes "strategy" lowerReq then "consulting"
  else if Str.includes "design" lowerReq || Str.includes "creative" lowerReq
     || Str.includes "art" lowerReq then "creative"
  else if Str.includes "health" lowerReq || Str.includes "medical" lowerReq
     || Str.includes "clinic" lowerReq then "healthcare"
  else if Str.includes "education" lowerReq || Str.includes "learning" lowerReq
     || Str.includes "school" lowerReq then "education"
  else if Str.includes "restaurant" lowerReq || Str.includes "food" lowerReq
     || Str.includes "dining" lowerReq then "restaurant"
  else if Str.includes "retail" lowerReq || Str.includes "shop" lowerReq
     || Str.includes "store" lowerReq then "retail"
  else "general".

(** The classifier as the specification words it: an ordered table of
    categories with their keyword sets, the first category with a keyword
    occurring in the lower-cased text wins, [general] otherwise. *)
Definition categoryTable : list (string * list string) :=
  [ ("technology", ["software"; "technology"; "development"]);
    ("consulting", ["consulting"; "advisory"; "strategy"]);
    ("creative",   ["design"; "creative"; "art"]);
    ("healthcare", ["health"; "medical"; "clinic"]);
    ("education",  ["education"; "learning"; "school"]);
    ("restaurant", ["restaurant"; "food"; "dining"]);
    ("retail",     ["retail"; "shop"; "store"]) ].

Definition categories : list string := (List.map fst categoryTable ++ ["general"])%list.

Definition firstMatch (table : list (string * list string)) (text : string) : string :=
  match find (fun row => existsb (fun kw => Str.includes kw text) (snd row)) table with
  | Some row => fst row
  | None => "general"
  end.

Definition classifyByTable (text : string) : string :=
  firstMatch categoryTable (Str.toLowerCase text).

(* ================================================================== *)
(** ** The outside world of a stage

    A stage talks to the hosting API ([fetch]), to the language-model agent
    and to the console, and reads the hosting credential from the process
    environment.  The world fixes what these answer; the stage's trace
    records what it did, in order. *)

Record Json : Type := {
  json_sha : option string;
  json_message : option string;
  json_html_url : string;
  json_name : string
}.

Record Response : Type := {
  ok : bool;
  statusText : string;
  body : option Json        (* [None]: [response.json()] rejects *)
}.

Inductive fetched : Type :=
| Rejected : fetched        (* [fetch] itself throws *)
| Responded : Response -> fetched.

Record World : Type := {
  GITHUB_TOKEN : option string;         (* process.env.GITHUB_TOKEN *)
  http : nat -> fetched;                (* the answer to the n-th request of the run *)
  agentLoads : bool;                    (* whether [await import(...)] of the agent resolves *)
  generate : string -> option string;   (* the agent's text for a prompt; [None]: it throws *)
  clock : Clock
}.

(** The bodies of the generated files and of the two prompts are template
    literals; [render name args] stands for the literal called [name]
    filled in with [args]. *)
Record Templates : Type := { render : string -> list string -> string }.

Inductive method : Type := GET | PUT | POST.

Inductive event : Type :=
| Request : method -> string -> option string -> option string -> event
    (* method, url, file content sent, sha sent *)
| Log : string -> event            (* console.log *)
| LogError : string -> event.      (* console.error *)

Definition isRequest (e : event) : bool :=
  match e with Request _ _ _ _ => true | _ => false end.

(** A remote write: a request that creates or changes something. *)
Definition isWrite (e : event) : bool :=
  match e with Request PUT _ _ _ | Request POST _ _ _ => true | _ => false end.

Definition requestCount (tr : list event) : nat := List.length (filter isRequest tr).

(** Computations of a stage: they extend the trace and return or throw. *)
Definition M (A : Type) : Type := list event -> list event * result A.

Definition ret {A : Type} (a : A) : M A := fun tr => (tr, Return a).
Definition throw {A : Type} (msg : string) : M A := fun tr => (tr, Throw msg).
Definition bind {A B : Type} (m : M A) (k : A -> M B) : M B :=
  fun tr =>
    match m tr with
    | (tr', Return a) => k a tr'
    | (tr', Throw e) => (tr', Throw e)
    end.
Definition tryCatch {A : Type} (m : M A) (handler : string -> M A) : M A :=
  fun tr =>
    match m tr with
    | (tr', Throw e) => handler e tr'
    | r => r
    end.
Definition emit (e : event) : M unit := fun tr => ((tr ++ [e])%list, Return tt).

Notation "x <- m ;; k" := (bind m (fun x => k))
  (at level 61, m at next level, right associativity).
Notation "m ;;; k" := (bind m (fun _ => k))
  (at level 61, right associativity).

(** [!x] on a flag that may be absent *)
Definition falsy (flag : option bool) : bool :=
  match flag with Some true => false | _ => true end.

(** [!x] on an environment variable *)
Definition unset (v : option string) : bool :=
  match v with Some s => negb (Str.truthy s) | None => true end.

(** [a || b] on strings that may be undefined *)
Definition orElse (a : option string) (b : string) : string :=
  match a with Some s => if Str.truthy s then s else b | None => b end.

Record RemoteFile : Type := { path : string; content : string }.

(** The records the stages pass on; a flag may be absent. *)
Record Repo : Type := {
  repo_repositoryUrl : string;
  repo_repositoryName : string;
  repo_projectName : string;
  repo_requirements : string;
  repo_extractedInfo : ExtractedInfo;
  repo_success : option bool
}.

Record Framework : Type := {
  fw_repositoryUrl : string;
  fw_repositoryName : string;
  fw_projectName : string;
  fw_requirements : string;
  fw_frameworkInitialized : option bool;
  fw_success : option bool
}.

Record Structure : Type := {
  st_repositoryUrl : string;
  st_repositoryName : string;
  st_projectName : string;
  st_requirements : string;
  st_websiteGenerated : option bool;
  st_componentsCreated : list string;
  st_success : option bool
}.

Record Content : Type := {
  ct_repositoryUrl : string;
  ct_repositoryName : string;
  ct_projectName : string;
  ct_requirements : string;
  ct_contentGenerated : option bool;
  ct_stylingCompleted : option bool;
  ct_success : option bool
}.

Record Final : Type := {
  fin_repositoryUrl : string;
  fin_repositoryName : string;
  fin_projectName : string;
  fin_requirements : string;
  fin_frameworkInitialized : option bool;
  fin_websiteCompleted : option bool;
  fin_deploymentReady : option bool;
  fin_success : option bool
}.

(* ================================================================== *)
(** ** The stages *)

Section Pipeline.

Variable w : World.
Variable tpl : Templates.

(** [await fetch(url, {method, body})] *)
Definition fetch (m : method) (url : string) (sent sha : option string) : M Response :=
  fun tr =>
    ((tr ++ [Request m url sent sha])%list,
     match http w (requestCount tr) with
     | Rejected => Throw "fetch failed"
     | Responded r => Return r
     end).

(** [await response.json()] *)
Definition json (r : Response) : M Json :=
  match body r with
  | Some j => ret j
  | None => throw "Unexpected end of JSON input"
  end.

(** [try { ... } catch (error) { console.error(label, error); throw error; }] *)
Definition rethrowing {A : Type} (label : string) (m : M A) : M A :=
  tryCatch m (fun error => emit (LogError (label ++ " " ++ error)) ;;; throw error).

(** The parse stage with its console output. *)
Definition parseStage (requirementsReport : string) : M Parsed :=
  rethrowing "Error parsing requirements:"
    (match parseRequirements (clock w) requirementsReport with
     | Throw e => throw e
     | Return out =>
         emit (Log "Parsing website requirements report...") ;;;
         emit (Log ("Generated concise project name: " ++ parsed_projectName out)) ;;;
         emit (Log ("Extracted purpose: "
                      ++ orElse (purpose (parsed_extractedInfo out)) "Not specified")) ;;;
         emit (Log ("Extracted target audience: "
                      ++ orElse (targetAudience (parsed_extractedInfo out)) "Not specified")) ;;;
         ret out
     end).

Definition createRepository (input : Parsed) : M Repo :=
  rethrowing "Error creating repository:"
    (let projectName := parsed_projectName input in
     if negb (Str.truthy projectName) || String.eqb (Str.trim projectName) ""
     then throw "Project name is required but was not provided or is empty"
     else if falsy (parsed_success input)
     then throw "Requirements parsing failed, cannot create repository"
     else
       let repoName := Str.trim projectName in
       emit (Log ("Creating GitHub repository: " ++ repoName)) ;;;
       response <- fetch POST "https://api.github.com/user/repos" None None ;;
       (if negb (ok response)
        then errorData <- json response ;;
             throw ("Failed to create repository: "
                      ++ orElse (json_message errorData) (statusText response))
        else ret tt) ;;;
       repoData <- json response ;;
       emit (Log ("Repository created successfully: " ++ json_html_url repoData)) ;;;
       ret {| repo_repositoryUrl := json_html_url repoData;
              repo_repositoryName := json_name repoData;
              repo_projectName := projectName;
              repo_requirements := parsed_requirements input;
              repo_extractedInfo := parsed_extractedInfo input;
              repo_success := Some true |}).

Definition frameworkPaths : list string :=
  [ "package.json"; "index.html"; "vite.config.ts"; "tsconfig.json"; "tsconfig.node.json";
    "src/main.tsx"; "src/App.tsx"; "src/App.css"; "src/index.css"; "README.md" ].

Definition frameworkFiles (repositoryName : string) : list RemoteFile :=
  List.map (fun p => {| path := p; content := render tpl p [repositoryName] |}) frameworkPaths.

(** The scaffolding loop: the first write that is not [ok] throws. *)
Fixpoint putEach (repositoryName : string) (files : list RemoteFile) : M unit :=
  match files with
  | [] => ret tt
  | file :: rest =>
      fileResponse <-
        fetch PUT ("https://api.github.com/repos/Eima-M/" ++ repositoryName
                     ++ "/contents/" ++ path file) (Some (content file)) None ;;
      (if negb (ok fileResponse)
       then errorData <- json fileResponse ;;
            throw ("Failed to create file " ++ path file ++ ": "
                     ++ orElse (json_message errorData) (statusText fileResponse))
       else ret tt) ;;;
      putEach repositoryName rest
  end.

Definition initializeFramework (input : Repo) : M Framework :=
  rethrowing "Error initializing framework:"
    (if falsy (repo_success input)
     then throw "Repository creation failed, cannot initialize framework"
     else
       let repositoryName := repo_repositoryName input in
       emit (Log ("Initializing React framework in repository: " ++ repositoryName)) ;;;
       putEach repositoryName (frameworkFiles repositoryName) ;;;
       emit (Log ("React framework initialized successfully in repository: "
                    ++ repositoryName)) ;;;
       ret {| fw_repositoryUrl := repo_repositoryUrl input;
              fw_repositoryName := repositoryName;
              fw_projectName := repo_projectName input;
              fw_requirements := repo_requirements input;
              fw_frameworkInitialized := Some true;
              fw_success := Some true |}).

(** [await import(...)] followed by [await webBuilderAgent.generate(...)],
    with the console line in between. *)
Definition askAgent (announce prompt done : string) : M string :=
  if agentLoads w then
    emit (Log announce) ;;;
    match generate w prompt with
    | Some text => emit (Log done) ;;; ret text
    | None => throw "agent call failed"
    end
  else throw "agent module failed to load".

(** [urlParts[urlParts.length - 2]] of [repositoryUrl.split('/')] *)
Definition ownerOf (repositoryUrl : string) : string :=
  let urlParts := Str.split "/" repositoryUrl in
  if (List.length urlParts <? 2)%nat then "undefined"
  else nth (List.length urlParts - 2) urlParts "undefined".

Definition baseApiUrl (repositoryUrl repositoryName : string) : string :=
  "https://api.github.com/repos/" ++ ownerOf repositoryUrl ++ "/" ++ repositoryName
    ++ "/contents".

Definition structurePaths : list string :=
  [ "src/App.tsx"; "src/App.css"; "src/index.css";
    "src/components/Header.tsx"; "src/components/Hero.tsx"; "src/components/About.tsx";
    "src/components/Services.tsx"; "src/components/Contact.tsx";
    "src/components/Footer.tsx";
    "public/images/hero-bg.svg"; "public/images/logo.svg"; "public/images/service-1.svg";
    "public/images/service-2.svg"; "public/images/service-3.svg";
    "public/images/about-image.svg" ].

(** The analysis text is a parameter of [generateWebsiteFiles] that its body
    never reads. *)
Definition generateWebsiteFiles (structureAnalysis requirements projectName : string)
  : list RemoteFile :=
  List.map (fun p => {| path := p; content := render tpl p [requirements; projectName] |})
    structurePaths.

Definition fallbackAnalysis (projectName requirements : string) : string :=
  "Fallback analysis for " ++ projectName ++ " based on requirements: " ++ requirements.

(** The writing loop of the structure stage: each file in its own [try]. *)
Fixpoint createEach (base : string) (files : list RemoteFile)
         (componentsCreated : list string) : M (list string) :=
  match files with
  | [] => ret componentsCreated
  | file :: rest =>
      created <-
        tryCatch
          (response <- fetch PUT (base ++ "/" ++ path file) (Some (content file)) None ;;
           if ok response
           then emit (Log ("Created file: " ++ path file)) ;;;
                ret (if Str.includes "components/" (path file)
                     then (componentsCreated ++ [path file])%list
                     else componentsCreated)
           else errorData <- json response ;;
                emit (LogError ("Failed to create " ++ path file ++ ":")) ;;;
                ret componentsCreated)
          (fun error =>
             emit (LogError ("Error creating file " ++ path file ++ ": " ++ error)) ;;;
             ret componentsCreated) ;;
      createEach base rest created
  end.

(** The structure stage from the point where the analysis text is known. *)
Definition structureWith (input : Framework) (structureAnalysis : string) : M Structure :=
  if unset (GITHUB_TOKEN w)
  then throw "GITHUB_TOKEN environment variable is required"
  else
    let filesToCreate :=
      generateWebsiteFiles structureAnalysis (fw_requirements input) (fw_projectName input) in
    componentsCreated <-
      createEach (baseApiUrl (fw_repositoryUrl input) (fw_repositoryName input))
                 filesToCreate [] ;;
    ret {| st_repositoryUrl := fw_repositoryUrl input;
           st_repositoryName := fw_repositoryName input;
           st_projectName := fw_projectName input;
           st_requirements := fw_requirements input;
           st_websiteGenerated := Some true;
           st_componentsCreated := componentsCreated;
           st_success := Some true |}.

Definition structureAnalysisOf (input : Framework) : M string :=
  tryCatch
    (askAgent "Using AI agent to analyze requirements and generate website structure..."
              (render tpl "analysisPrompt" [fw_requirements input])
              "AI Analysis completed for website structure")
    (fun error =>
       emit (Log ("AI agent not available, using fallback analysis: " ++ error)) ;;;
       ret (fallbackAnalysis (fw_projectName input) (fw_requirements input))).

Definition generateWebsiteStructure (input : Framework) : M Structure :=
  rethrowing "Error generating website structure:"
    (if falsy (fw_success input) || falsy (fw_frameworkInitialized input)
     then throw "Framework initialization failed, cannot generate website"
     else
       emit (Log ("Generating website structure for: " ++ fw_projectName input)) ;;;
       structureAnalysis <- structureAnalysisOf input ;;
       structureWith input structureAnalysis).

Definition enhancedPaths : list string :=
  [ "src/components/Hero.tsx"; "src/components/About.tsx";
    "src/components/Services.tsx"; "src/App.css" ].

(** [generateEnhancedComponents(parseGeneratedContent(analysis, requirements), projectName)] *)
Definition generateEnhancedComponents (contentAnalysis requirements projectName : string)
  : list RemoteFile :=
  List.map (fun p => {| path := p;
                        content := render tpl p [contentAnalysis; requirements;
                                                 inferBusinessType requirements;
                                                 projectName] |})
    enhancedPaths.

Definition fallbackContent (projectName requirements : string) : string :=
  "Fallback content enhancement for " ++ projectName ++ " based on requirements: "
    ++ requirements.

(** The loop of the content stage: read the sha, then write. *)
Fixpoint updateEach (base : string) (files : list RemoteFile) : M unit :=
  match files with
  | [] => ret tt
  | file :: rest =>
      tryCatch
        (getResponse <- fetch GET (base ++ "/" ++ path file) None None ;;
         sha <- (if ok getResponse
                 then fileData <- json getResponse ;; ret (json_sha fileData)
                 else ret None) ;;
         updateResponse <- fetch PUT (base ++ "/" ++ path file) (Some (content file)) sha ;;
         if ok updateResponse
         then emit (Log ("Updated file: " ++ path file))
         else errorData <- json updateResponse ;;
              emit (LogError ("Failed to update " ++ path file ++ ":")))
        (fun error =>
           emit (LogError ("Error updating file " ++ path file ++ ": " ++ error))) ;;;
      updateEach base rest
  end.

Definition contentWith (input : Structure) (contentAnalysis : string) : M Content :=
  if unset (GITHUB_TOKEN w)
  then throw "GITHUB_TOKEN environment variable is required"
  else
    let enhancedFiles :=
      generateEnhancedComponents contentAnalysis (st_requirements input)
                                 (st_projectName input) in
    updateEach (baseApiUrl (st_repositoryUrl input) (st_repositoryName input))
               enhancedFiles ;;;
    ret {| ct_repositoryUrl := st_repositoryUrl input;
           ct_repositoryName := st_repositoryName input;
           ct_projectName := st_projectName input;
           ct_requirements := st_requirements input;
           ct_contentGenerated := Some true;
           ct_stylingCompleted := Some true;
           ct_success := Some true |}.

Definition contentAnalysisOf (input : Structure) : M string :=
  tryCatch
    (askAgent "Using AI agent to analyze content and create enhanced components..."
              (render tpl "contentPrompt"
                 [st_requirements input;
                  let listed := Str.join ", " (st_componentsCreated input) in
                  if Str.truthy listed then listed else "basic components"])
              "AI Content Analysis completed")
    (fun error =>
       emit (Log ("AI agent not available, using fallback content enhancement: "
                    ++ error)) ;;;
       ret (fallbackContent (st_projectName input) (st_requirements input))).

Definition generateWebsiteContent (input : Structure) : M Content :=
  rethrowing "Error generating website content:"
    (if falsy (st_success input) || falsy (st_websiteGenerated input)
     then throw "Website generation failed, cannot generate content"
     else
       emit (Log ("Generating custom content for: " ++ st_projectName input)) ;;;
       contentAnalysis <- contentAnalysisOf input ;;
       contentWith input contentAnalysis).

Definition finalPaths : list string :=
  [ "README.md"; ".gitignore"; "public/robots.txt"; "public/manifest.json"; ".env.example" ].

Definition generateFinalFiles (projectName requirements repositoryName : string)
  : list RemoteFile :=
  List.map (fun p => {| path := p;
                        content := render tpl p [projectName; requirements; repositoryName] |})
    finalPaths.

(** The loop of the finalize stage: the sha is sent only when it is truthy. *)
Fixpoint finishEach (base : string) (files : list RemoteFile) : M unit :=
  match files with
  | [] => ret tt
  | file :: rest =>
      tryCatch
        (getResponse <- fetch GET (base ++ "/" ++ path file) None None ;;
         sha <- (if ok getResponse
                 then fileData <- json getResponse ;; ret (json_sha fileData)
                 else ret None) ;;
         response <- fetch PUT (base ++ "/" ++ path file) (Some (content file))
                       (if unset sha then None else sha) ;;
         if ok response
         then emit (Log ("Created/Updated file: " ++ path file))
         else errorData <- json response ;;
              emit (LogError ("Failed to create/update " ++ path file ++ ":")))
        (fun error =>
           emit (LogError ("Error creating file " ++ path file ++ ": " ++ error))) ;;;
      finishEach base rest
  end.

Definition finalizeWebsite (input : Content) : M Final :=
  rethrowing "Error finalizing website:"
    (if falsy (ct_success input) || falsy (ct_contentGenerated input)
        || falsy (ct_stylingCompleted input)
     then throw "Previous steps failed, cannot finalize website"
     else
       emit (Log ("Finalizing website: " ++ ct_projectName input)) ;;;
       if unset (GITHUB_TOKEN w)
       then throw "GITHUB_TOKEN environment variable is required"
       else
         let finalFiles :=
           generateFinalFiles (ct_projectName input) (ct_requirements input)
                              (ct_repositoryName input) in
         finishEach (baseApiUrl (ct_repositoryUrl input) (ct_repositoryName input))
                    finalFiles ;;;
         ret {| fin_repositoryUrl := ct_repositoryUrl input;
                fin_repositoryName := ct_repositoryName input;
                fin_projectName := ct_projectName input;
                fin_requirements := ct_requirements input;
                fin_frameworkInitialized := Some true;
                fin_websiteCompleted := Some true;
                fin_deploymentReady := Some true;
                fin_success := Some true |}).

(** The workflow: the six stages chained with [.then]; a stage that throws
    ends the run. *)
Definition webBuilderWorkflow (requirementsReport : string) : M Final :=
  parsed <- parseStage requirementsReport ;;
  repo <- createRepository parsed ;;
  framework <- initializeFramework repo ;;
  structure <- generateWebsiteStructure framework ;;
  content <- generateWebsiteContent structure ;;
  finalizeWebsite content.

(** The rest of the chain from each stage on. *)
Definition fromFinalize (input : Content) : M Final := finalizeWebsite input.
Definition fromContent (input : Structure) : M Final :=
  content <- generateWebsiteContent input ;; fromFinalize content.
Definition fromStructure (input : Framework) : M Final :=
  structure <- generateWebsiteStructure input ;; fromContent structure.
Definition fromFramework (input : Repo) : M Final :=
  framework <- initializeFramework input ;; fromStructure framework.
Definition fromRepository (input : Parsed) : M Final :=
  repo <- createRepository input ;; fromFramework repo.

End Pipeline.

(* ================================================================== *)
(** ** Vocabulary of the statements *)

(** What the global replacements compute, written as plain recursions:
    [subst] rewrites every code unit of a class, [squeeze] every maximal run
    of a class. *)
Fixpoint subst (p : ascii -> bool) (rep : string) (s : string) : string :=
  match s with
  | EmptyString => EmptyString
  | String c s' => if p c then rep ++ subst p rep s' else String c (subst p rep s')
  end.

Definition headIn (p : ascii -> bool) (s : string) : bool :=
  match s with
  | EmptyString => false
  | String c _ => p c
  end.

Fixpoint squeeze (p : ascii -> bool) (rep : string) (s : string) : string :=
  match s with
  | EmptyString => EmptyString
  | String c s' =>
      if p c then (if headIn p s' then squeeze p rep s' else rep ++ squeeze p rep s')
      else String c (squeeze p rep s')
  end.

(** [s.endsWith(t)] for a one-unit [t]: the last code unit is in [p]. *)
Fixpoint lastIn (p : ascii -> bool) (s : string) : bool :=
  match s with
  | EmptyString => false
  | String c EmptyString => p c
  | String _ s' => lastIn p s'
  end.

(** The language of [^[a-z0-9]+(-[a-z0-9]+)*$]: words of lower-case letters
    and digits, separated by single hyphens. *)
Definition Word (v : string) : Prop := v <> "" /\ Str.all Char.alnum v = true.

Inductive Slug : string -> Prop :=
| Slug_word : forall v, Word v -> Slug v
| Slug_more : forall v s, Word v -> Slug s -> Slug (v ++ "-" ++ s).

(** The same language, decided by a scan that remembers whether the
    previous code unit was a letter or digit. *)
Fixpoint slugScan (afterWord : bool) (s : string) : bool :=
  match s with
  | EmptyString => afterWord
  | String c s' =>
      if Char.alnum c then slugScan true s'
      else if Char.hyphen c then afterWord && slugScan false s'
      else false
  end.

Definition isSlug (s : string) : bool := slugScan false s.

Definition hasNameLabel (line : string) : bool :=
  Str.includes "project name:" (Str.toLowerCase line)
  || Str.includes "website name:" (Str.toLowerCase line).

(** The lines of a report as the loop sees them. *)
Definition linesOf (report : string) : list string :=
  List.map Str.trim (Str.split "010" report).

(** The last line that satisfies [f]. *)
Definition lastLine (f : string -> bool) (lines : list string) : option string :=
  find f (rev lines).

(** The value of the last line that contains [label]; empty when none does. *)
Definition lastValue (label : string) (lines : list string) : string :=
  match lastLine (Str.includes label) lines with
  | Some line => fieldValue label line
  | None => ""
  end.

(** The last explicit name that is not empty. *)
Definition lastExplicitName (lines : list string) : string :=
  match lastLine (fun line => hasNameLabel line && Str.truthy (explicitName line)) lines with
  | Some line => explicitName line
  | None => ""
  end.

(** [/(?:project|website)\s+name:/i], the label of an explicit name. *)
Definition reNameLabel : regex :=
  Seq (Alt (LitI "project") (LitI "website")) (Seq (Plus Char.space) (LitI "name:")).

(** The requests of a trace, and the paths its requests of one method went to. *)
Definition writes (tr : list event) : list event := filter isWrite tr.

Definition urlsOf (m : method) (tr : list event) : list string :=
  flat_map (fun e =>
              match e, m with
              | Request GET u _ _, GET => [u]
              | Request PUT u _ _, PUT => [u]
              | Request POST u _ _, POST => [u]
              | _, _ => []
              end) tr.

(** The shape of a global replacement.  A search that found nothing leaves [F] with nothing to do; one that
    found a match leaves [F] the rest.  Such a search makes the global
    replacement compute [F]. *)
Definition searchComputes (r : regex) (rep : string) (F : string -> string) : Prop :=
  forall s b,
    match exec r b s with
    | None => F s = s
    | Some (Found pre e rest) =>
        e = false /\ String.length rest < String.length s /\ F s = pre ++ rep ++ F rest
    end.

(** [/^p+|p+$/] for a class [p] *)
Definition reEdges (p : ascii -> bool) : regex :=
  Alt (Seq Bos (Plus p)) (Seq (Plus p) Eos).

(** The class of [/[^a-z0-9\s-]/]. *)
Definition invalid (c : ascii) : bool :=
  negb (Char.az c || Char.digit c || Char.space c || Char.hyphen c).

(** Letters, digits and the hyphen: the code units of a slug. *)
Definition slugUnit (c : ascii) : bool := Char.alnum c || Char.hyphen c.

(** No two neighbouring code units are both in [p]. *)
Fixpoint noRun (p : ascii -> bool) (s : string) : bool :=
  match s with
  | EmptyString => true
  | String c s' => negb (p c && headIn p s') && noRun p s'
  end.

(** The stage throws exactly on a blank report. *)
Definition blank (report : string) : bool := String.eqb (Str.trim report) "".

(** The fields of a report as the statements name them. *)
Definition fieldsOf (report : string) : Scan :=
  Build_Scan (lastExplicitName (linesOf report))
             (lastValue "Main purpose/goal:" (linesOf report))
             (lastValue "Target audience:" (linesOf report))
             (lastValue "Business objectives:" (linesOf report)).

(** The string after its first code unit. *)
Definition tail (s : string) : string :=
  match s with
  | EmptyString => EmptyString
  | String _ s' => s'
  end.

(** A continuation that does not look at the start-of-input flag. *)
Definition flagFree (k : cont) : Prop := forall b1 b2 s, k b1 s = k b2 s.

(** A continuation that fails on every suffix of [s]. *)
Definition failsWithin (k : cont) (s : string) : Prop :=
  forall pre rest b, s = pre ++ rest -> k b rest = None.

(** Line feed and carriage return. *)
Definition LF : string := String "010" "".
Definition CR : string := String "013" "".

(** Today's date as [YYYYMMDD]. *)
Definition yyyymmdd (t : Clock) : string :=
  pad 4 (year t) ++ pad 2 (month t) ++ pad 2 (day t).

(** The three labelled fields with the place each is returned in. *)
Definition labelledFields : list (string * (ExtractedInfo -> option string)) :=
  [ ("Main purpose/goal:", purpose);
    ("Target audience:", targetAudience);
    ("Business objectives:", businessObjectives) ].

Definition noInfo : ExtractedInfo :=
  {| purpose := None; targetAudience := None; businessObjectives := None |}.

Definition requirementsMissing : string :=
  "Requirements report is required but was not provided or is empty".

(** A line that carries none of the labels the loop looks for. *)
Definition unlabelled (line : string) : bool :=
  negb (Str.includes "Main purpose/goal:" line
        || Str.includes "Target audience:" line
        || Str.includes "Business objectives:" line
        || hasNameLabel line).

(** The synthesizer of the parse stage: the name it derives from a purpose
    when no line names the project. *)
Definition projectNameSynthesizer (t : Clock) (purpose targetAudience : string) : string :=
  sanitizeProjectName t (chooseName t (Build_Scan "" purpose targetAudience "")).

Definition purposeSentence : string :=
  "Create a modern portfolio website for a freelance graphic designer".

Definition otherClock : Clock :=
  {| now := 12345; year := 1970; month := 1; day := 1;
     hours := 0; minutes := 0; seconds := 12; milliseconds := 345 |}.


(** A pattern without [^]. *)
Fixpoint bosFree (r : regex) : bool :=
  match r with
  | Bos => false
  | Seq r1 r2 | Alt r1 r2 => bosFree r1 && bosFree r2
  | _ => true
  end.

(** Code units below 128. *)
Definition ascii7 (c : ascii) : bool := (Char.code c <? 128)%nat.

(** What follows the label in [reName]: [\s*] and the end of the match. *)
Definition afterNameLabel : cont :=
  fun b s => star Char.space b s (fun _ rest => Some rest).

(** The two labels of an explicit name, in lower case. *)
Definition nameLabels : list string := [ "project name:"; "website name:" ].

(** Whether the n-th request of the run is answered with a success status. *)
Definition okAt (w : World) (n : nat) : bool :=
  match http w n with
  | Responded r => ok r
  | Rejected => false
  end.

(** A world in which every request gets an HTTP answer with a JSON body,
    whatever its status. *)
Definition answered (w : World) : Prop :=
  forall n, exists r j, http w n = Responded r /\ body r = Some j.

(** The address a file is written to. *)
Definition fileUrl (base : string) (file : RemoteFile) : string :=
  base ++ "/" ++ path file.

Definition frameworkUrl (repositoryName : string) (file : RemoteFile) : string :=
  "https://api.github.com/repos/Eima-M/" ++ repositoryName ++ "/contents/" ++ path file.

(** The component files among [files] whose write, the n-th request
    onwards, is answered with a success status. *)
Fixpoint createdFrom (w : World) (n : nat) (files : list RemoteFile) : list string :=
  match files with
  | [] => []
  | file :: rest =>
      ((if okAt w n && Str.includes "components/" (path file) then [path file] else [])
         ++ createdFrom w (S n) rest)%list
  end.

(** The agent fails on a prompt: its module does not load or the call throws. *)
Definition agentFails (w : World) (prompt : string) : bool :=
  negb (agentLoads w) || match generate w prompt with None => true | Some _ => false end.

(** Sample answers and worlds. *)
Definition okResponse : Response :=
  {| ok := true; statusText := "OK";
     body := Some {| json_sha := Some "3b18e512"; json_message := None;
                     json_html_url := "https://github.com/Eima-M/demo";
                     json_name := "demo" |} |}.

Definition failedResponse : Response :=
  {| ok := false; statusText := "Unprocessable Entity";
     body := Some {| json_sha := None; json_message := Some "Validation Failed";
                     json_html_url := ""; json_name := "" |} |}.

(** The agent is down and the second request of the run fails. *)
Definition sampleWorld : World :=
  {| GITHUB_TOKEN := Some "ghp_token";
     http := fun n => Responded (if (n =? 1)%nat then failedResponse else okResponse);
     agentLoads := false;
     generate := fun _ => None;
     clock := sampleClock |}.

(** The same world without the hosting credential. *)
Definition worldWithoutToken : World :=
  {| GITHUB_TOKEN := None;
     http := http sampleWorld;
     agentLoads := false;
     generate := fun _ => None;
     clock := sampleClock |}.

(** A world in which the agent answers every prompt but the analysis
    prompt of the structure stage, on which it throws. *)
Definition structureAgentDown : World :=
  {| GITHUB_TOKEN := Some "ghp_token";
     http := fun _ => Responded okResponse;
     agentLoads := true;
     generate := fun prompt =>
                   if String.eqb prompt "analysisPrompt" then None
                   else Some "Hero headline";
     clock := sampleClock |}.

Definition sampleTemplates : Templates := {| render := fun name _ => name |}.

Definition sampleParsed (flag : option bool) : Parsed :=
  {| parsed_projectName := "demo"; parsed_requirements := "A shop";
     parsed_extractedInfo := noInfo; parsed_success := flag |}.

Definition sampleRepo (flag : option bool) : Repo :=
  {| repo_repositoryUrl := "https://github.com/Eima-M/demo"; repo_repositoryName := "demo";
     repo_projectName := "demo"; repo_requirements := "A shop";
     repo_extractedInfo := noInfo; repo_success := flag |}.

Definition sampleFramework (initialized flag : option bool) : Framework :=
  {| fw_repositoryUrl := "https://github.com/Eima-M/demo"; fw_repositoryName := "demo";
     fw_projectName := "demo"; fw_requirements := "A shop";
     fw_frameworkInitialized := initialized; fw_success := flag |}.

Definition sampleStructure (generated flag : option bool) : Structure :=
  {| st_repositoryUrl := "https://github.com/Eima-M/demo"; st_repositoryName := "demo";
     st_projectName := "demo"; st_requirements := "A shop";
     st_websiteGenerated := generated; st_componentsCreated := [];
     st_success := flag |}.

Definition sampleContent (generated styled flag : option bool) : Content :=
  {| ct_repositoryUrl := "https://github.com/Eima-M/demo"; ct_repositoryName := "demo";
     ct_projectName := "demo"; ct_requirements := "A shop";
     ct_contentGenerated := generated; ct_stylingCompleted := styled;
     ct_success := flag |}.

(** The body of each writing loop for one file: the [try] block with its
    [catch]. *)
Definition createOne (w : World) (base : string) (file : RemoteFile)
           (componentsCreated : list string) : M (list string) :=
  tryCatch
    (response <- fetch w PUT (base ++ "/" ++ path file) (Some (content file)) None ;;
     if ok response
     then emit (Log ("Created file: " ++ path file)) ;;;
          ret (if Str.includes "components/" (path file)
               then (componentsCreated ++ [path file])%list
               else componentsCreated)
     else errorData <- json response ;;
          emit (LogError ("Failed to create " ++ path file ++ ":")) ;;;
          ret componentsCreated)
    (fun error =>
       emit (LogError ("Error creating file " ++ path file ++ ": " ++ error)) ;;;
       ret componentsCreated).

Definition updateOne (w : World) (base : string) (file : RemoteFile) : M unit :=
  tryCatch
    (getResponse <- fetch w GET (base ++ "/" ++ path file) None None ;;
     sha <- (if ok getResponse
             then fileData <- json getResponse ;; ret (json_sha fileData)
             else ret None) ;;
     updateResponse <- fetch w PUT (base ++ "/" ++ path file) (Some (content file)) sha ;;
     if ok updateResponse
     then emit (Log ("Updated file: " ++ path file))
     else errorData <- json updateResponse ;;
          emit (LogError ("Failed to update " ++ path file ++ ":")))
    (fun error =>
       emit (LogError ("Error updating file " ++ path file ++ ": " ++ error))).

Definition finishOne (w : World) (base : string) (file : RemoteFile) : M unit :=
  tryCatch
    (getResponse <- fetch w GET (base ++ "/" ++ path file) None None ;;
     sha <- (if ok getResponse
             then fileData <- json getResponse ;; ret (json_sha fileData)
             else ret None) ;;
     response <- fetch w PUT (base ++ "/" ++ path file) (Some (content file))
                   (if unset sha then None else sha) ;;
     if ok response
     then emit (Log ("Created/Updated file: " ++ path file))
     else errorData <- json response ;;
          emit (LogError ("Failed to create/update " ++ path file ++ ":")))
    (fun error =>
       emit (LogError ("Error creating file " ++ path file ++ ": " ++ error))).

(** In the read-then-write loops the reading request of a file, the n-th
    of the run, ends the round when [fetch] throws or the body of a success
    answer does not parse. *)
Definition readFails (w : World) (n : nat) : bool :=
  match http w n with
  | Rejected => true
  | Responded r => ok r && match body r with None => true | Some _ => false end
  end.

(** The files whose write is attempted, reading from the n-th request on. *)
Fixpoint writtenFrom (w : World) (n : nat) (files : list RemoteFile) : list RemoteFile :=
  match files with
  | [] => []
  | file :: rest =>
      if readFails w n then writtenFrom w (S n) rest
      else file :: writtenFrom w (S (S n)) rest
  end.

(** The prompts of the two stages that ask the agent. *)
Definition analysisPrompt (tpl : Templates) (input : Framework) : string :=
  render tpl "analysisPrompt" [fw_requirements input].

Definition contentPrompt (tpl : Templates) (input : Structure) : string :=
  render tpl "contentPrompt"
    [st_requirements input;
     let listed := Str.join ", " (st_componentsCreated input) in
     if Str.truthy listed then listed else "basic components"].

Definition credentialMissing : string := "GITHUB_TOKEN environment variable is required".

Definition TAB : string := String "009" "".

(* ================================================================== *)
(** ** The repository description

    The [description] field of the request that creates the repository:
    the name, then the first hundred code units of the purpose when there
    is one. *)

Definition repositoryDescription (repoName : string) (extractedInfo : ExtractedInfo)
  : string :=
  "Website project: " ++ repoName
    ++ match purpose extractedInfo with
       | Some p => if Str.truthy p then " - " ++ Str.substring0 100 p else ""
       | None => ""
       end.

(* ================================================================== *)
(** ** The requirements as the structure stage reads them *)

(** [s.split(sep)] for a separator string: the pieces between the
    occurrences of [sep], found from left to right without overlap.  While
    [skip] is positive the code units read belong to a separator already
    found. *)
Fixpoint splitOnFrom (sep : string) (skip : nat) (piece s : string) : list string :=
  match s with
  | EmptyString => [piece]
  | String c s' =>
      match skip with
      | S k => splitOnFrom sep k piece s'
      | O =>
          if Str.startsWith sep s
          then piece :: splitOnFrom sep (String.length sep - 1) EmptyString s'
          else splitOnFrom sep 0 (piece ++ String c EmptyString) s'
      end
  end.

(** With the empty separator the pieces are the code units. *)
Definition splitOn (sep s : string) : list string :=
  match sep with
  | EmptyString => List.map (fun c => String c EmptyString) (list_ascii_of_string s)
  | _ => splitOnFrom sep 0 EmptyString s
  end.

(** [keywords.some(keyword => text.includes(keyword))] *)
Definition mentions (keywords : list string) (text : string) : bool :=
  existsb (fun keyword => Str.includes keyword text) keywords.

(** The colour table of [extractColorFromText], in the order its entries
    are visited. *)
Definition colorKeywords : list (string * list string) :=
  [ ("blue",   ["blue"; "navy"; "azure"]);
    ("green",  ["green"; "emerald"; "forest"]);
    ("purple", ["purple"; "violet"; "indigo"]);
    ("red",    ["red"; "crimson"; "rose"]);
    ("orange", ["orange"; "amber"; "peach"]);
    ("gray",   ["gray"; "grey"; "neutral"]) ].

Definition extractColorFromText (text : string) : string :=
  match find (fun entry => mentions (snd entry) (Str.toLowerCase text)) colorKeywords with
  | Some entry => fst entry
  | None => "blue"
  end.

Definition extractStyleFromText (text : string) : string :=
  let lowerText := Str.toLowerCase text in
  if Str.includes "minimal" lowerText || Str.includes "clean" lowerText then "minimal"
  else if Str.includes "modern" lowerText || Str.includes "contemporary" lowerText
  then "modern"
  else if Str.includes "corporate" lowerText || Str.includes "professional" lowerText
  then "corporate"
  else if Str.includes "creative" lowerText || Str.includes "artistic" lowerText
  then "creative"
  else if Str.includes "bold" lowerText || Str.includes "vibrant" lowerText then "bold"
  else "modern".

Record WebsiteInfo : Type := {
  wi_purpose : string;
  wi_targetAudience : string;
  wi_colorScheme : string;
  wi_style : string;
  wi_businessObjectives : string;
  wi_features : list string;
  wi_contentSections : list string
}.

Definition websiteInfoStart : WebsiteInfo :=
  {| wi_purpose := ""; wi_targetAudience := ""; wi_colorScheme := "blue";
     wi_style := "modern"; wi_businessObjectives := ""; wi_features := [];
     wi_contentSections := [] |}.

(** One round of the loop of [parseRequirementsForWebsite]; [raw] is
    [lines[i]]. *)
Definition websiteInfoLine (extractedInfo : WebsiteInfo) (raw : string) : WebsiteInfo :=
  let line := Str.toLowerCase (Str.trim raw) in
  let extractedInfo :=
    if Str.includes "main purpose" line || Str.includes "goal" line
    then {| wi_purpose := Str.trim raw;
            wi_targetAudience := wi_targetAudience extractedInfo;
            wi_colorScheme := wi_colorScheme extractedInfo;
            wi_style := wi_style extractedInfo;
            wi_businessObjectives := wi_businessObjectives extractedInfo;
            wi_features := wi_features extractedInfo;
            wi_contentSections := wi_contentSections extractedInfo |}
    else extractedInfo in
  let extractedInfo :=
    if Str.includes "target audience" line
    then {| wi_purpose := wi_purpose extractedInfo;
            wi_targetAudience := Str.trim raw;
            wi_colorScheme := wi_colorScheme extractedInfo;
            wi_style := wi_style extractedInfo;
            wi_businessObjectives := wi_businessObjectives extractedInfo;
            wi_features := wi_features extractedInfo;
            wi_contentSections := wi_contentSections extractedInfo |}
    else extractedInfo in
  let extractedInfo :=
    if Str.includes "color" line
       && (Str.includes "scheme" line || Str.includes "palette" line)
    then {| wi_purpose := wi_purpose extractedInfo;
            wi_targetAudience := wi_targetAudience extractedInfo;
            wi_colorScheme := extractColorFromText raw;
            wi_style := wi_style extractedInfo;
            wi_businessObjectives := wi_businessObjectives extractedInfo;
            wi_features := wi_features extractedInfo;
            wi_contentSections := wi_contentSections extractedInfo |}
    else extractedInfo in
  let extractedInfo :=
    if Str.includes "style" line || Str.includes "aesthetic" line
    then {| wi_purpose := wi_purpose extractedInfo;
            wi_targetAudience := wi_targetAudience extractedInfo;
            wi_colorScheme := wi_colorScheme extractedInfo;
            wi_style := extractStyleFromText raw;
            wi_businessObjectives := wi_businessObjectives extractedInfo;
            wi_features := wi_features extractedInfo;
            wi_contentSections := wi_contentSections extractedInfo |}
    else extractedInfo in
  if Str.includes "feature" line || Str.includes "functionality" line
  then {| wi_purpose := wi_purpose extractedInfo;
          wi_targetAudience := wi_targetAudience extractedInfo;
          wi_colorScheme := wi_colorScheme extractedInfo;
          wi_style := wi_style extractedInfo;
          wi_businessObjectives := wi_businessObjectives extractedInfo;
          wi_features := (wi_features extractedInfo ++ [Str.trim raw])%list;
          wi_contentSections := wi_contentSections extractedInfo |}
  else extractedInfo.

Definition parseRequirementsForWebsite (requirements : string) : WebsiteInfo :=
  fold_left websiteInfoLine (Str.split "010" requirements) websiteInfoStart.

(** The palette of a colour scheme in [generateAppCSS]. *)
Record Palette : Type := {
  primary : string; secondary : string; accent : string; light : string
}.

Definition colorSchemes : list (string * Palette) :=
  [ ("blue",   {| primary := "#3b82f6"; secondary := "#1e40af"; accent := "#60a5fa";
                  light := "#dbeafe" |});
    ("green",  {| primary := "#10b981"; secondary := "#047857"; accent := "#34d399";
                  light := "#d1fae5" |});
    ("purple", {| primary := "#8b5cf6"; secondary := "#6d28d9"; accent := "#a78bfa";
                  light := "#e9d5ff" |});
    ("red",    {| primary := "#ef4444"; secondary := "#dc2626"; accent := "#f87171";
                  light := "#fee2e2" |});
    ("orange", {| primary := "#f59e0b"; secondary := "#d97706"; accent := "#fbbf24";
                  light := "#fef3c7" |});
    ("gray",   {| primary := "#6b7280"; secondary := "#374151"; accent := "#9ca3af";
                  light := "#f3f4f6" |}) ].

(** [table[key]] on an object literal with the given own keys *)
Definition lookup {A : Type} (key : string) (table : list (string * A)) : option A :=
  option_map snd (find (fun entry => String.eqb (fst entry) key) table).

(** [colorSchemes[extractedInfo.colorScheme] || colorSchemes.blue] *)
Definition colorsOf (extractedInfo : WebsiteInfo) : Palette :=
  match lookup (wi_colorScheme extractedInfo) colorSchemes with
  | Some colors => colors
  | None => {| primary := "#3b82f6"; secondary := "#1e40af"; accent := "#60a5fa";
               light := "#dbeafe" |}
  end.

(* ================================================================== *)
(** ** The analysis text as the content stage reads it *)

(** The inner loop of [extractSection] over [lines[i .. i+4]]. *)
Fixpoint firstContentLine (window : list string) : option string :=
  match window with
  | [] => None
  | l :: rest =>
      let contentLine := Str.trim l in
      if Str.truthy contentLine && negb (Str.includes ":" contentLine)
         && (20 <? String.length contentLine)%nat
      then Some contentLine
      else firstContentLine rest
  end.

(** The outer loop, from [lines[i]] on. *)
Fixpoint extractSectionFrom (keywords : list string) (lines : list string)
  : option string :=
  match lines with
  | [] => None
  | l :: rest =>
      if mentions keywords (Str.toLowerCase l)
      then match firstContentLine (firstn 5 lines) with
           | Some contentLine => Some contentLine
           | None => extractSectionFrom keywords rest
           end
      else extractSectionFrom keywords rest
  end.

(** The source splits on the two code units backslash and [n], as its
    string literal is written, not on a line feed. *)
Definition extractSection (content : string) (keywords : list string) : option string :=
  extractSectionFrom keywords (splitOn "\n" content).

Record Service : Type := { title : string; description : string }.

Definition defaultServices : list Service :=
  [ {| title := "Consultation";
       description := "Expert guidance tailored to your specific needs." |};
    {| title := "Implementation";
       description := "Professional execution of your project requirements." |};
    {| title := "Support";
       description := "Ongoing assistance to ensure your continued success." |} ].

Definition extractServices (content requirements : string) : list Service :=
  let businessType := inferBusinessType requirements in
  if String.eqb businessType "technology" then
    [ {| title := "Software Development";
         description := "Custom software solutions built to your specifications." |};
      {| title := "Technical Consulting";
         description := "Expert advice on technology strategy and implementation." |};
      {| title := "System Integration";
         description :=
           "Seamless integration of your existing systems and new solutions." |} ]
  else if String.eqb businessType "consulting" then
    [ {| title := "Strategic Planning";
         description := "Comprehensive planning to achieve your business objectives." |};
      {| title := "Process Optimization";
         description := "Streamline your operations for maximum efficiency." |};
      {| title := "Change Management";
         description := "Guide your organization through successful transformations." |} ]
  else if String.eqb businessType "creative" then
    [ {| title := "Creative Design";
         description := "Innovative designs that capture your brand essence." |};
      {| title := "Brand Development";
         description := "Build a strong, memorable brand identity." |};
      {| title := "Marketing Materials";
         description := "Professional materials that drive engagement." |} ]
  else if String.eqb businessType "healthcare" then
    [ {| title := "Patient Care";
         description :=
           "Comprehensive healthcare services focused on patient wellbeing." |};
      {| title := "Medical Consultation";
         description := "Expert medical advice and treatment planning." |};
      {| title := "Health Education";
         description := "Educational resources to promote healthy living." |} ]
  else if String.eqb businessType "education" then
    [ {| title := "Learning Programs";
         description := "Comprehensive educational programs designed for success." |};
      {| title := "Skills Development";
         description := "Build essential skills for personal and professional growth." |};
      {| title := "Educational Consulting";
         description :=
           "Expert guidance on educational strategies and implementation." |} ]
  else defaultServices.

Definition industryMap : list (string * string) :=
  [ ("technology", "Technology & Software");
    ("consulting", "Professional Services");
    ("creative",   "Design & Marketing");
    ("healthcare", "Healthcare & Medical");
    ("education",  "Education & Training");
    ("restaurant", "Food & Beverage");
    ("retail",     "Retail & E-commerce");
    ("general",    "Business Services") ].

Definition inferIndustry (requirements : string) : string :=
  let businessType := inferBusinessType requirements in
  orElse (lookup businessType industryMap) "Business Services".

Record GeneratedContent : Type := {
  heroTitle : string;
  heroDescription : string;
  aboutContent : string;
  services : list Service;
  callToAction : string;
  businessType : string;
  industry : string
}.

Definition parseGeneratedContent (content requirements : string) : GeneratedContent :=
  {| heroTitle :=
       orElse (extractSection content ["hero"; "headline"; "title"])
              "Welcome to Our Business";
     heroDescription :=
       orElse (extractSection content ["hero"; "description"; "subtitle"])
              "We provide exceptional solutions for your needs.";
     aboutContent :=
       orElse (extractSection content ["about"; "company"; "business"])
              "We are committed to excellence and customer satisfaction.";
     services := extractServices content requirements;
     callToAction :=
       orElse (extractSection content ["cta"; "call to action"; "action"])
              "Get Started Today";
     businessType := inferBusinessType requirements;
     industry := inferIndustry requirements |}.

(* ================================================================== *)
(** ** Vocabulary of the further statements *)

(** What [extractSection] accepts as content: a line that is not empty,
    has no colon and is longer than twenty code units. *)
Definition contentful (contentLine : string) : bool :=
  Str.truthy contentLine && negb (Str.includes ":" contentLine)
  && (20 <? String.length contentLine)%nat.

(** The separator [extractSection] splits on: a backslash and an [n]. *)
Definition backslash_n : string := "\n".

(** The styles [extractStyleFromText] tells apart. *)
Definition styleNames : list string := [ "minimal"; "modern"; "corporate"; "creative"; "bold" ].

(** The lines [parseRequirementsForWebsite] takes as the purpose, the
    target audience and a feature: the tests of its loop, on a trimmed
    line. *)
Definition mentionsPurpose (line : string) : bool :=
  Str.includes "main purpose" (Str.toLowerCase line)
  || Str.includes "goal" (Str.toLowerCase line).

Definition mentionsAudience (line : string) : bool :=
  Str.includes "target audience" (Str.toLowerCase line).

Definition mentionsFeature (line : string) : bool :=
  Str.includes "feature" (Str.toLowerCase line)
  || Str.includes "functionality" (Str.toLowerCase line).

(** The last line that satisfies [f], whole; empty when there is none. *)
Definition lastWhole (f : string -> bool) (lines : list string) : string :=
  match lastLine f lines with
  | Some line => line
  | None => ""
  end.

(** The [words] of [extractKeyTerms]: the pieces of the normalised text
    that pass its two filters, in the order of the text. *)
Definition keyWords (text : string) : list string :=
  filter (fun word => (String.length word <=? 12)%nat)
    (filter (fun word => (2 <? String.length word)%nat && negb (Str.mem word stopWords))
       (RegExp.split reSpaces
          (replaceAll reSpecial " " (Str.toLowerCase text)))).

(** A world in which the hosting service answers every request with a
    success status and a JSON body. *)
Definition allOk (w : World) : Prop :=
  forall n, exists r j, http w n = Responded r /\ ok r = true /\ body r = Some j.

(** The answer to the n-th request is a success with the body [j]. *)
Definition okWith (w : World) (n : nat) (j : Json) : Prop :=
  exists r, http w n = Responded r /\ ok r = true /\ body r = Some j.

(** The address of the request that creates a repository. *)
Definition createUrl : string := "https://api.github.com/user/repos".

(** A world that answers every request with the same success. *)
Definition obligingWorld : World :=
  {| GITHUB_TOKEN := Some "ghp_token";
     http := fun _ => Responded okResponse;
     agentLoads := false;
     generate := fun _ => None;
     clock := sampleClock |}.

(** The same world without the hosting credential. *)
Definition obligingWorldWithoutToken : World :=
  {| GITHUB_TOKEN := None;
     http := fun _ => Responded okResponse;
     agentLoads := false;
     generate := fun _ => None;
     clock := sampleClock |}.

(** The component files of the structure stage, in the order they are
    written. *)
Definition componentPaths : list string :=
  [ "src/components/Header.tsx"; "src/components/Hero.tsx"; "src/components/About.tsx";
    "src/components/Services.tsx"; "src/components/Contact.tsx";
    "src/components/Footer.tsx" ].

(** The paths among [paths] whose write, the n-th request onwards, is
    answered with a success status. *)
Fixpoint writtenOk (w : World) (n : nat) (paths : list string) : list string :=
  match paths with
  | [] => []
  | p :: rest => ((if okAt w n then [p] else []) ++ writtenOk w (S n) rest)%list
  end.

(** A world in which the hosting service refuses the fifth request and
    accepts every other. *)
Definition fifthRefused : World :=
  {| GITHUB_TOKEN := Some "ghp_token";
     http := fun n => Responded (if (n =? 4)%nat then failedResponse else okResponse);
     agentLoads := false;
     generate := fun _ => None;
     clock := sampleClock |}.

(** The request that writes a file that is not known to exist. *)
Definition creation (base : string) (file : RemoteFile) : event :=
  Request PUT (fileUrl base file) (Some (content file)) None.

(* ================================================================== *)
(** ** The e-mail tool (emailSender)

    The tool sends the requirements report by e-mail through the mail
    service.  An error on the way is caught; the [catch] block writes the
    caught value to the error console twice, the second time serialised
    with [JSON.stringify], and then returns a result with [success] false.
    The serialisation stands outside any [try], so when it throws, the tool
    throws.  Of the console output this is what is kept; the lines
    themselves are left out. *)


















(* ================================================================== *)
(** * Properties *)

(** ** Strings *)

Lemma append_nil_r : forall s : string, s ++ "" = s.
Proof. induction s as [|c s IH]; simpl; [reflexivity | now rewrite IH]. Qed.

Lemma append_assoc : forall a b c : string, (a ++ b) ++ c = a ++ (b ++ c).
Proof. induction a as [|x a IH]; intros; simpl; [reflexivity | now rewrite IH]. Qed.

Lemma length_append : forall a b : string,
  String.length (a ++ b) = String.length a + String.length b.
Proof. induction a as [|x a IH]; intros; simpl; [reflexivity | now rewrite IH]. Qed.

Lemma all_append : forall p a b,
  Str.all p (a ++ b) = Str.all p a && Str.all p b.
Proof.
  induction a as [|x a IH]; intros; simpl; [reflexivity|].
  now rewrite IH, andb_assoc.
Qed.

Lemma all_weaken : forall (p q : ascii -> bool) s,
  (forall c, p c = true -> q c = true) -> Str.all p s = true -> Str.all q s = true.
Proof.
  induction s as [|c s IH]; simpl; intros Hpq H; [reflexivity|].
  apply andb_true_iff in H as [Hc Hs]. now rewrite (Hpq _ Hc), IH.
Qed.

Lemma truthy_true : forall s, Str.truthy s = true <-> s <> "".
Proof.
  intros s. unfold Str.truthy. rewrite negb_true_iff. apply String.eqb_neq.
Qed.

Lemma truthy_false : forall s, Str.truthy s = false <-> s = "".
Proof.
  intros s. unfold Str.truthy. rewrite negb_false_iff. apply String.eqb_eq.
Qed.

Lemma dropWhile_length : forall p s,
  String.length (Str.dropWhile p s) <= String.length s.
Proof.
  induction s as [|c s IH]; simpl; [lia|]. destruct (p c); simpl; lia.
Qed.

Lemma dropWhile_head : forall p s, headIn p (Str.dropWhile p s) = false.
Proof.
  induction s as [|c s IH]; simpl; [reflexivity|].
  destruct (p c) eqn:E; [assumption | simpl; assumption].
Qed.

Lemma dropWhile_fixed : forall p s, headIn p s = false -> Str.dropWhile p s = s.
Proof. destruct s as [|c s]; simpl; intros H; [reflexivity | now rewrite H]. Qed.

Lemma dropWhile_all : forall p q s,
  Str.all q s = true -> Str.all q (Str.dropWhile p s) = true.
Proof.
  induction s as [|c s IH]; simpl; intros H; [reflexivity|].
  apply andb_true_iff in H as [Hc Hs].
  destruct (p c); [now apply IH | simpl; now rewrite Hc, Hs].
Qed.

(** [dropEnd] keeps a prefix: what it removes is a run of the class. *)
Lemma dropEnd_split : forall p s,
  exists run, s = Str.dropEnd p s ++ run /\ Str.all p run = true.
Proof.
  induction s as [|c s [run [Hs Hrun]]]; simpl.
  - exists "". split; reflexivity.
  - destruct (Str.dropEnd p s) as [|d t] eqn:E.
    + destruct (p c) eqn:Hc.
      * exists (String c s). split; [reflexivity|]. simpl. rewrite Hc. simpl.
        simpl in Hs. now rewrite Hs.
      * exists run. split; [|assumption]. simpl in *. now f_equal.
    + exists run. split; [|assumption]. simpl in *. now f_equal.
Qed.

Lemma dropEnd_length : forall p s,
  String.length (Str.dropEnd p s) <= String.length s.
Proof.
  intros p s. destruct (dropEnd_split p s) as [run [Hs _]].
  rewrite Hs at 2. rewrite length_append. lia.
Qed.

Lemma dropEnd_empty : forall p s,
  Str.dropEnd p s = "" <-> Str.all p s = true.
Proof.
  induction s as [|c s IH]; simpl; [tauto|].
  destruct (Str.dropEnd p s) as [|d t] eqn:E.
  - destruct (p c); simpl; split; intros H; try discriminate; try reflexivity.
    apply IH. reflexivity.
  - split; [discriminate|]. intros H. apply andb_true_iff in H as [_ H].
    apply IH in H. discriminate.
Qed.

Lemma dropEnd_last : forall p s, lastIn p (Str.dropEnd p s) = false.
Proof.
  induction s as [|c s IH]; simpl; [reflexivity|].
  destruct (Str.dropEnd p s) as [|d t] eqn:E.
  - destruct (p c) eqn:Hc; simpl; [reflexivity | assumption].
  - simpl in *. assumption.
Qed.

Lemma dropEnd_fixed : forall p s, lastIn p s = false -> Str.dropEnd p s = s.
Proof.
  induction s as [|c s IH]; simpl; intros H; [reflexivity|].
  destruct s as [|d s'].
  - simpl. now rewrite H.
  - rewrite (IH H). reflexivity.
Qed.

Lemma dropEnd_all : forall p q s,
  Str.all q s = true -> Str.all q (Str.dropEnd p s) = true.
Proof.
  intros p q s H. destruct (dropEnd_split p s) as [run [Hs _]].
  rewrite Hs, all_append in H. now apply andb_true_iff in H as [H _].
Qed.

Lemma dropEnd_head : forall p q s,
  headIn q s = false -> headIn q (Str.dropEnd p s) = false.
Proof.
  intros p q [|c s]; simpl; intros H; [reflexivity|].
  destruct (Str.dropEnd p s); [destruct (p c)|]; simpl; auto.
Qed.

(** ** The matcher on the patterns of the program *)

Lemma star_final : forall p s b,
  star p b s (fun _ rest => Some rest) = Some (Str.dropWhile p s).
Proof.
  induction s as [|c s IH]; intros b; simpl; [reflexivity|].
  destruct (p c); [now rewrite IH | reflexivity].
Qed.

Lemma replaceAllFrom_computes : forall r rep F,
  searchComputes r rep F ->
  forall fuel s b, String.length s < fuel -> replaceAllFrom fuel r rep b s = F s.
Proof.
  intros r rep F HF. induction fuel as [|fuel IH]; intros s b Hlen; [lia|].
  simpl. specialize (HF s b). destruct (exec r b s) as [[pre e rest]|].
  - destruct HF as [He [Hrest HFs]]. subst e.
    rewrite IH by lia. now rewrite HFs.
  - now rewrite HF.
Qed.

Lemma replaceAll_computes : forall r rep F,
  searchComputes r rep F -> forall s, replaceAll r rep s = F s.
Proof.
  intros r rep F HF s. unfold replaceAll.
  apply replaceAllFrom_computes; [assumption | lia].
Qed.

(** More fuel than the input is long never changes the result. *)
Lemma length_eqb_shorter : forall a b : string,
  String.length a < String.length b -> (String.length a =? String.length b)%nat = false.
Proof. intros a b H. apply Nat.eqb_neq. lia. Qed.

Lemma search_Cls : forall p rep, searchComputes (Cls p) rep (subst p rep).
Proof.
  intros p rep s. induction s as [|c s IH]; intros b.
  - reflexivity.
  - simpl. unfold matchAt. simpl. destruct (p c) eqn:Hc.
    + repeat split; [apply Nat.eqb_neq; lia | lia].
    + specialize (IH false). destruct (exec (Cls p) false s) as [[pre e rest]|].
      * destruct IH as [He [Hlen HF]]. repeat split; [assumption | simpl; lia |].
        simpl. now rewrite HF.
      * now rewrite IH.
Qed.

Lemma squeeze_run : forall p rep s c,
  p c = true -> squeeze p rep (String c s) = rep ++ squeeze p rep (Str.dropWhile p s).
Proof.
  intros p rep. induction s as [|d s IH]; intros c Hc.
  - simpl. now rewrite Hc.
  - change (squeeze p rep (String c (String d s)))
      with (if p c then (if p d then squeeze p rep (String d s)
                         else rep ++ squeeze p rep (String d s))
            else String c (squeeze p rep (String d s))).
    rewrite Hc. simpl Str.dropWhile. destruct (p d) eqn:Hd.
    + now apply IH.
    + reflexivity.
Qed.

Lemma matchAt_Plus : forall p b s,
  matchAt (Plus p) b s =
  if headIn p s then Some (Str.dropWhile p s) else None.
Proof.
  intros p b [|c s]; unfold matchAt; simpl; [reflexivity|].
  destruct (p c); [apply star_final | reflexivity].
Qed.

Lemma search_Plus : forall p rep, searchComputes (Plus p) rep (squeeze p rep).
Proof.
  intros p rep s. induction s as [|c s IH]; intros b.
  - reflexivity.
  - cbn [exec]. rewrite matchAt_Plus. cbn [headIn]. destruct (p c) eqn:Hc.
    + assert (Hlen : String.length (Str.dropWhile p (String c s)) < String.length (String c s)).
      { simpl. rewrite Hc. pose proof (dropWhile_length p s). simpl. lia. }
      rewrite length_eqb_shorter by assumption.
      repeat split; [assumption|].
      rewrite (squeeze_run p rep s c Hc). simpl. now rewrite Hc.
    + specialize (IH false). destruct (exec (Plus p) false s) as [[pre e rest]|].
      * destruct IH as [He [Hlen HF]]. repeat split; [assumption | simpl; lia |].
        simpl. rewrite Hc. now rewrite HF.
      * simpl. rewrite Hc. now rewrite IH.
Qed.

(** The pattern [p+$] alone, and as the second branch of [^p+|p+$]. *)
Lemma star_Eos : forall p s b,
  star p b s (fun b' rest => run Eos b' rest (fun _ rest' => Some rest')) =
  if Str.all p s then Some "" else None.
Proof.
  induction s as [|c s IH]; intros b; simpl; [reflexivity|].
  destruct (p c); simpl; [|reflexivity].
  rewrite IH. now destruct (Str.all p s).
Qed.

Lemma matchAt_trailing : forall p b s,
  matchAt (Seq (Plus p) Eos) b s =
  if headIn p s && Str.all p s then Some "" else None.
Proof.
  intros p b [|c s]; unfold matchAt; simpl; [reflexivity|].
  destruct (p c); simpl; [apply star_Eos | reflexivity].
Qed.

Lemma exec_trailing : forall p s b,
  exec (Seq (Plus p) Eos) b s =
  if (String.length (Str.dropEnd p s) <? String.length s)%nat
  then Some (Found (Str.dropEnd p s) false "")
  else None.
Proof.
  intros p. induction s as [|c s IH]; intros b.
  - reflexivity.
  - cbn [exec]. rewrite matchAt_trailing. cbn [headIn Str.all].
    destruct (p c) eqn:Hc; cbn [andb].
    + destruct (Str.all p s) eqn:Hall.
      * apply dropEnd_empty in Hall. cbn [Str.dropEnd]. rewrite Hall, Hc. reflexivity.
      * rewrite IH. cbn [Str.dropEnd].
        destruct (Str.dropEnd p s) as [|d t] eqn:E.
        { apply dropEnd_empty in E. congruence. }
        pose proof (dropEnd_length p s) as Hl. rewrite E in Hl.
        cbn [String.length] in *.
        destruct (S (String.length t) <? String.length s)%nat eqn:Hlt.
        -- apply Nat.ltb_lt in Hlt.
           replace (S (S (String.length t)) <? S (String.length s))%nat with true
             by (symmetry; apply Nat.ltb_lt; lia). reflexivity.
        -- apply Nat.ltb_ge in Hlt.
           replace (S (S (String.length t)) <? S (String.length s))%nat with false
             by (symmetry; apply Nat.ltb_ge; lia). reflexivity.
    + rewrite IH. cbn [Str.dropEnd].
      pose proof (dropEnd_length p s) as Hl.
      destruct (Str.dropEnd p s) as [|d t] eqn:E.
      * rewrite Hc. cbn [String.length] in *.
        destruct s as [|d s'].
        -- reflexivity.
        -- cbn [String.length].
           replace (0 <? S (String.length s'))%nat with true by reflexivity.
           replace (1 <? S (S (String.length s')))%nat with true by reflexivity.
           reflexivity.
      * cbn [String.length] in *.
        destruct (S (String.length t) <? String.length s)%nat eqn:Hlt.
        -- apply Nat.ltb_lt in Hlt.
           replace (S (S (String.length t)) <? S (String.length s))%nat with true
             by (symmetry; apply Nat.ltb_lt; lia). reflexivity.
        -- apply Nat.ltb_ge in Hlt.
           replace (S (S (String.length t)) <? S (String.length s))%nat with false
             by (symmetry; apply Nat.ltb_ge; lia). reflexivity.
Qed.

Lemma dropEnd_same_length : forall p s,
  String.length s <= String.length (Str.dropEnd p s) -> Str.dropEnd p s = s.
Proof.
  intros p s H. destruct (dropEnd_split p s) as [run [Hs _]].
  assert (Hrun : run = "").
  { destruct run as [|c run]; [reflexivity|].
    rewrite Hs in H at 1. rewrite length_append in H. simpl in H. lia. }
  subst run. rewrite append_nil_r in Hs. now symmetry.
Qed.

Lemma replace_trailing : forall p s,
  replace (Seq (Plus p) Eos) "" s = Str.dropEnd p s.
Proof.
  intros p s. unfold replace. rewrite exec_trailing.
  destruct (String.length (Str.dropEnd p s) <? String.length s)%nat eqn:E.
  - simpl. apply append_nil_r.
  - apply Nat.ltb_ge in E. symmetry. now apply dropEnd_same_length.
Qed.

Lemma matchAt_edges_inside : forall p s,
  matchAt (reEdges p) false s = matchAt (Seq (Plus p) Eos) false s.
Proof. reflexivity. Qed.

Lemma exec_edges_inside : forall p s,
  exec (reEdges p) false s = exec (Seq (Plus p) Eos) false s.
Proof.
  intros p. induction s as [|c s IH]; cbn [exec]; rewrite matchAt_edges_inside;
    [reflexivity | now rewrite IH].
Qed.

Lemma matchAt_edges_start : forall p s,
  matchAt (reEdges p) true s =
  if headIn p s then Some (Str.dropWhile p s) else None.
Proof.
  intros p [|c s]; unfold matchAt; simpl; [reflexivity|].
  destruct (p c) eqn:Hc; [|reflexivity].
  now rewrite star_final.
Qed.

Lemma replaceAllFrom_empty : forall fuel r rep,
  matchAt r false "" = None -> replaceAllFrom fuel r rep false "" = "".
Proof.
  intros [|fuel] r rep H; simpl; [reflexivity|]. now rewrite H.
Qed.

Lemma edges_inside : forall p fuel s,
  String.length s < fuel ->
  replaceAllFrom fuel (reEdges p) "" false s = Str.dropEnd p s.
Proof.
  intros p [|fuel] s Hlen; [lia|].
  cbn [replaceAllFrom]. rewrite exec_edges_inside, exec_trailing.
  destruct (String.length (Str.dropEnd p s) <? String.length s)%nat eqn:E.
  - rewrite replaceAllFrom_empty by reflexivity. simpl. apply append_nil_r.
  - apply Nat.ltb_ge in E. symmetry. now apply dropEnd_same_length.
Qed.

Lemma exec_unfold : forall r b s,
  exec r b s =
  match matchAt r b s with
  | Some rest => Some (Found "" (String.length rest =? String.length s)%nat rest)
  | None =>
      match s with
      | EmptyString => None
      | String c s' =>
          match exec r false s' with
          | Some (Found pre e rest) => Some (Found (String c pre) e rest)
          | None => None
          end
      end
  end.
Proof. intros r b [|c s]; reflexivity. Qed.

Lemma replaceAll_edges : forall p s,
  replaceAll (reEdges p) "" s = Str.dropEnd p (Str.dropWhile p s).
Proof.
  intros p s. unfold replaceAll. destruct (headIn p s) eqn:Hh.
  - cbn [replaceAllFrom]. rewrite exec_unfold, matchAt_edges_start, Hh.
    assert (Hlen : String.length (Str.dropWhile p s) < String.length s).
    { destruct s as [|c s]; [discriminate|]. simpl in *. rewrite Hh.
      pose proof (dropWhile_length p s). lia. }
    rewrite length_eqb_shorter by assumption.
    rewrite edges_inside by assumption. reflexivity.
  - rewrite (dropWhile_fixed p s Hh).
    rewrite <- (edges_inside p (S (String.length s)) s) by lia.
    cbn [replaceAllFrom].
    rewrite (exec_unfold _ true), (exec_unfold _ false).
    rewrite matchAt_edges_start, matchAt_edges_inside, matchAt_trailing, Hh.
    reflexivity.
Qed.

(** The chain of the sanitizer, step by step. *)
Lemma sanitizeChain_steps : forall name,
  sanitizeChain name =
  Str.dropEnd Char.hyphen
    (Str.substring0 25
       (Str.dropEnd Char.hyphen
          (Str.dropWhile Char.hyphen
             (squeeze Char.hyphen "-"
                (squeeze Char.space "-"
                   (subst invalid "" (Str.toLowerCase name))))))).
Proof.
  intros name. unfold sanitizeChain, reTrailingHyphens.
  rewrite replace_trailing.
  change reEdgeHyphens with (reEdges Char.hyphen). rewrite replaceAll_edges.
  unfold reHyphens, reSpaces, reInvalid.
  rewrite (replaceAll_computes _ _ _ (search_Plus Char.hyphen "-")).
  rewrite (replaceAll_computes _ _ _ (search_Plus Char.space "-")).
  rewrite (replaceAll_computes _ _ _ (search_Cls _ "")).
  reflexivity.
Qed.

(** A match consumes a prefix of the input: what is left is a suffix. *)
Lemma star_suffix : forall p s b (k : cont) x,
  star p b s k = Some x -> exists b' m s', s = m ++ s' /\ k b' s' = Some x.
Proof.
  intros p. induction s as [|c s IH]; intros b k x H; simpl in H.
  - now exists b, "", "".
  - destruct (p c).
    + destruct (star p false s k) as [y|] eqn:E.
      * injection H as <-. destruct (IH false k y E) as [b' [m [s' [-> Hk]]]].
        now exists b', (String c m), s'.
      * now exists b, "", (String c s).
    + now exists b, "", (String c s).
Qed.

Lemma run_suffix : forall r b s (k : cont) x,
  run r b s k = Some x -> exists b' m s', s = m ++ s' /\ k b' s' = Some x.
Proof.
  induction r as [| | |p|r1 IH1 r2 IH2|r1 IH1 r2 IH2|p]; intros b s k x H; simpl in H.
  - now exists b, "", s.
  - destruct b; [now exists true, "", s | discriminate].
  - destruct s; [now exists b, "", "" | discriminate].
  - destruct s as [|c s]; [discriminate|]. destruct (p c); [|discriminate].
    now exists false, (String c ""), s.
  - destruct (IH1 _ _ _ _ H) as [b1 [m1 [s1 [-> H1]]]].
    destruct (IH2 _ _ _ _ H1) as [b2 [m2 [s2 [-> H2]]]].
    exists b2, (m1 ++ m2), s2. now rewrite append_assoc.
  - destruct (run r1 b s k) as [y|] eqn:E.
    + injection H as <-. now apply IH1 in E.
    + now apply IH2 in H.
  - now apply star_suffix in H.
Qed.

Lemma matchAt_shape : forall r b s rest,
  matchAt r b s = Some rest ->
  exists m, s = m ++ rest
            /\ ((String.length rest =? String.length s)%nat = true <-> m = "").
Proof.
  intros r b s rest H. unfold matchAt in H.
  destruct (run_suffix _ _ _ _ _ H) as [_ [m [s' [Hs Hk]]]]. injection Hk as ->.
  exists m. split; [assumption|]. subst s. rewrite length_append, Nat.eqb_eq.
  destruct m; simpl; split; intros; try reflexivity; try discriminate; lia.
Qed.

Lemma exec_shape : forall r s b pre e rest,
  exec r b s = Some (Found pre e rest) ->
  exists m, s = pre ++ m ++ rest /\ (e = true <-> m = "").
Proof.
  intros r. induction s as [|c s IH]; intros b pre e rest H; rewrite exec_unfold in H.
  - destruct (matchAt r b "") as [rest0|] eqn:Hm; [|discriminate].
    injection H as <- <- <-. now apply matchAt_shape in Hm.
  - destruct (matchAt r b (String c s)) as [rest0|] eqn:Hm.
    + injection H as <- <- <-. now apply matchAt_shape in Hm.
    + destruct (exec r false s) as [[pre0 e0 rest0]|] eqn:He; [|discriminate].
      injection H as <- <- <-. destruct (IH _ _ _ _ He) as [m [-> Hm0]].
      exists m. split; [reflexivity | assumption].
Qed.

Lemma exec_rest_shorter : forall r s b pre e rest,
  exec r b s = Some (Found pre e rest) ->
  String.length rest <= String.length s
  /\ (e = false -> String.length rest < String.length s).
Proof.
  intros r s b pre e rest H. destruct (exec_shape _ _ _ _ _ _ H) as [m [-> Hm]].
  rewrite !length_append. split; [lia|].
  intros He. destruct m; [|simpl; lia]. destruct Hm as [_ Hm].
  rewrite Hm in He by reflexivity. discriminate.
Qed.

(** Fuel: every round of a global replacement or of a split consumes
    input, so any fuel above the length of the input gives the same
    result as the fuel the definitions take. *)
Lemma replaceAllFrom_fuel : forall r rep fuel1 fuel2 s b,
  String.length s < fuel1 -> String.length s < fuel2 ->
  replaceAllFrom fuel1 r rep b s = replaceAllFrom fuel2 r rep b s.
Proof.
  intros r rep. induction fuel1 as [|fuel1 IH]; intros fuel2 s b H1 H2; [lia|].
  destruct fuel2 as [|fuel2]; [lia|]. simpl.
  destruct (exec r b s) as [[pre e rest]|] eqn:He; [|reflexivity].
  destruct (exec_rest_shorter _ _ _ _ _ _ He) as [Hle Hlt].
  destruct e.
  - destruct rest as [|c rest']; [reflexivity|].
    simpl in Hle. now rewrite (IH fuel2 rest' false) by lia.
  - specialize (Hlt eq_refl). now rewrite (IH fuel2 rest false) by lia.
Qed.

Lemma splitFrom_fuel : forall r fuel1 fuel2 s b,
  String.length s < fuel1 -> String.length s < fuel2 ->
  splitFrom fuel1 r b s = splitFrom fuel2 r b s.
Proof.
  intros r. induction fuel1 as [|fuel1 IH]; intros fuel2 s b H1 H2; [lia|].
  destruct fuel2 as [|fuel2]; [lia|]. simpl.
  destruct (exec r b s) as [[pre e rest]|] eqn:He; [|reflexivity].
  destruct (exec_rest_shorter _ _ _ _ _ _ He) as [Hle Hlt].
  destruct e; [reflexivity|].
  specialize (Hlt eq_refl). now rewrite (IH fuel2 rest false) by lia.
Qed.

(** The matcher at work. *)
Example greedy_dot_star_takes_last_label :
  replace (reLabel "Target audience:") ""
          "Target audience: a Target audience: b" = "b".
Proof. reflexivity. Qed.

Example dot_stops_at_carriage_return :
  replace (reLabel "Target audience:") "" ("a" ++ CR ++ "Target audience: b")
  = "a" ++ CR ++ "b".
Proof. reflexivity. Qed.

Example name_label_any_case :
  replace reName "" "The WebSite   NAME:   Blue Door" = "Blue Door".
Proof. reflexivity. Qed.

Example spaces_to_hyphens : replaceAll reSpaces "-" " a  b c " = "-a-b-c-".
Proof. reflexivity. Qed.

Example edge_hyphens_removed : replaceAll reEdgeHyphens "" "--a--b-" = "a--b".
Proof. reflexivity. Qed.

Example split_on_spaces : RegExp.split reSpaces " ab  c " = [""; "ab"; "c"; ""].
Proof. reflexivity. Qed.

Example sanitize_long_name :
  sanitizeProjectName sampleClock "--Hello   World--this is a very long name indeed--"
  = "hello-world-this-is-a-ver".
Proof. reflexivity. Qed.

Example sanitize_nothing_left : sanitizeProjectName sampleClock "!!!" = "project-234567".
Proof. reflexivity. Qed.

Example key_terms_priority_first :
  extractKeyTerms "  Build an online shop & blog for my company, quickly!  "
  = ["shop"; "blog"; "company"; "online"; "quickly"].
Proof. reflexivity. Qed.

(** ** Slugs *)

Ltac each_unit c :=
  destruct c as [[] [] [] [] [] [] [] []]; vm_compute; try reflexivity; try discriminate.

Lemma hyphen_eqb : forall c, Char.hyphen c = Ascii.eqb "-" c.
Proof. intros c. each_unit c. Qed.

Lemma alnum_not_hyphen : forall c, Char.alnum c = true -> Char.hyphen c = false.
Proof. intros c. each_unit c. Qed.

Lemma slugUnit_not_upper : forall c, slugUnit c = true -> negb (Char.upper c) = true.
Proof. intros c. each_unit c. Qed.

Lemma slugUnit_not_space : forall c, slugUnit c = true -> negb (Char.space c) = true.
Proof. intros c. each_unit c. Qed.

Lemma digit_alnum : forall c, Char.digit c = true -> Char.alnum c = true.
Proof. intros c H. unfold Char.alnum. rewrite H. apply orb_true_r. Qed.

Lemma kept_or_space : forall c,
  invalid c = false -> (slugUnit c || Char.space c) = true.
Proof.
  intros c. unfold invalid, slugUnit, Char.alnum. rewrite negb_false_iff.
  destruct (Char.az c), (Char.digit c), (Char.space c), (Char.hyphen c); simpl; auto.
Qed.

Lemma subst_drop_all : forall p q s,
  (forall c, p c = false -> q c = true) -> Str.all q (subst p "" s) = true.
Proof.
  intros p q s H. induction s as [|c s IH]; simpl; [reflexivity|].
  destruct (p c) eqn:Hc; simpl; [assumption|]. now rewrite (H c Hc).
Qed.

Lemma squeeze_all : forall p q0 q rep s,
  (forall c, q0 c = true -> p c = false -> q c = true) ->
  Str.all q rep = true ->
  Str.all q0 s = true -> Str.all q (squeeze p rep s) = true.
Proof.
  intros p q0 q rep s Hq Hrep. induction s as [|c s IH]; simpl; intros H; [reflexivity|].
  apply andb_true_iff in H as [Hc Hs]. destruct (p c) eqn:Hpc.
  - destruct (headIn p s); [now apply IH|].
    rewrite all_append, Hrep. now apply IH.
  - simpl. rewrite (Hq c Hc Hpc). now apply IH.
Qed.

Lemma squeeze_head : forall p rep s,
  headIn p s = false -> headIn p (squeeze p rep s) = false.
Proof.
  intros p rep [|c s]; simpl; intros H; [reflexivity|]. rewrite H. simpl. assumption.
Qed.

Lemma squeeze_noRun : forall p c s,
  p c = true -> noRun p (squeeze p (String c "") s) = true.
Proof.
  intros p c s Hc. induction s as [|d s IH]; simpl; [reflexivity|].
  destruct (p d) eqn:Hd.
  - destruct (headIn p s) eqn:Hh; [assumption|].
    simpl. rewrite Hc, (squeeze_head p _ s Hh), IH. reflexivity.
  - simpl. rewrite Hd, IH. reflexivity.
Qed.

Lemma noRun_dropWhile : forall p q s,
  noRun p s = true -> noRun p (Str.dropWhile q s) = true.
Proof.
  induction s as [|c s IH]; simpl; intros H; [reflexivity|].
  apply andb_true_iff in H as [Hc Hs].
  destruct (q c); [now apply IH | simpl; now rewrite Hc, Hs].
Qed.

Lemma headIn_append : forall p a b,
  headIn p (a ++ b) = match a with EmptyString => headIn p b | _ => headIn p a end.
Proof. intros p [|c a] b; reflexivity. Qed.

Lemma noRun_prefix : forall p a b, noRun p (a ++ b) = true -> noRun p a = true.
Proof.
  induction a as [|c a IH]; simpl; intros b H; [reflexivity|].
  apply andb_true_iff in H as [Hc Hs]. rewrite (IH _ Hs), andb_true_r.
  destruct (p c); [|reflexivity]. simpl in *.
  rewrite headIn_append in Hc. destruct a; [reflexivity | assumption].
Qed.

Lemma noRun_dropEnd : forall p q s,
  noRun p s = true -> noRun p (Str.dropEnd q s) = true.
Proof.
  intros p q s H. destruct (dropEnd_split q s) as [run [Hs _]].
  rewrite Hs in H. now apply noRun_prefix in H.
Qed.

Lemma substring0_split : forall n s, exists t, s = Str.substring0 n s ++ t.
Proof.
  unfold Str.substring0. induction n as [|n IH]; intros [|c s]; simpl.
  - now exists "".
  - now exists (String c s).
  - now exists "".
  - destruct (IH s) as [t Ht]. exists t. now f_equal.
Qed.

Lemma substring0_length : forall n s, String.length (Str.substring0 n s) <= n.
Proof.
  unfold Str.substring0. induction n as [|n IH]; intros [|c s]; simpl; try lia.
  specialize (IH s). lia.
Qed.

Lemma substring0_head : forall p n s,
  headIn p s = false -> headIn p (Str.substring0 n s) = false.
Proof. unfold Str.substring0. intros p [|n] [|c s]; simpl; auto. Qed.

(** A string of slug units that neither starts nor ends with a hyphen and
    has no two hyphens in a row is a slug, or empty. *)
Lemma slugScan_shape : forall s b,
  Str.all slugUnit s = true ->
  noRun Char.hyphen s = true ->
  (b = false -> headIn Char.hyphen s = false) ->
  lastIn Char.hyphen s = false ->
  (s = "" -> b = true) ->
  slugScan b s = true.
Proof.
  induction s as [|c s IH]; intros b Hall Hrun Hhead Hlast Hne.
  - simpl. now apply Hne.
  - simpl in Hall, Hrun. apply andb_true_iff in Hall as [Hc Hall].
    apply andb_true_iff in Hrun as [Hrc Hrun].
    assert (Hlast' : Char.alnum c = true -> lastIn Char.hyphen s = false).
    { intros Ha. destruct s as [|d s']; [reflexivity | exact Hlast]. }
    simpl. destruct (Char.alnum c) eqn:Ha.
    + apply IH; auto; discriminate.
    + unfold slugUnit in Hc. rewrite Ha in Hc. simpl in Hc. rewrite Hc in *.
      assert (Hb : b = true).
      { destruct b; [reflexivity|]. specialize (Hhead eq_refl). simpl in Hhead. congruence. }
      subst b. simpl.
      destruct s as [|d s'].
      * simpl in Hlast. congruence.
      * apply IH; auto.
        -- intros _. simpl in Hrc. now apply negb_true_iff in Hrc.
        -- discriminate.
Qed.

Lemma isSlug_shape : forall s,
  isSlug s = true ->
  s <> "" /\ Str.all slugUnit s = true /\ noRun Char.hyphen s = true
  /\ headIn Char.hyphen s = false /\ lastIn Char.hyphen s = false.
Proof.
  unfold isSlug.
  assert (H : forall s b, slugScan b s = true ->
            (b = false -> s <> "" /\ headIn Char.hyphen s = false)
            /\ Str.all slugUnit s = true /\ noRun Char.hyphen s = true
            /\ lastIn Char.hyphen s = false).
  { induction s as [|c s IH]; intros b Hs.
    - simpl in Hs. subst b. repeat split; discriminate.
    - simpl in Hs. unfold slugUnit. simpl. destruct (Char.alnum c) eqn:Ha.
      + destruct (IH _ Hs) as [_ [Hall [Hrun Hlast]]].
        rewrite (alnum_not_hyphen c Ha). simpl. repeat split; auto; try discriminate.
        destruct s; [reflexivity | assumption].
      + destruct (Char.hyphen c) eqn:Hh; [|discriminate].
        apply andb_true_iff in Hs as [Hb Hs]. subst b.
        destruct (IH _ Hs) as [Hhead [Hall [Hrun Hlast]]].
        destruct (Hhead eq_refl) as [Hne Hhd].
        simpl. rewrite Hhd. repeat split; auto; try discriminate.
        destruct s; [congruence | assumption]. }
  intros s Hs. destruct (H s false Hs) as [H1 [H2 [H3 H4]]].
  destruct (H1 eq_refl). auto.
Qed.

Lemma slugScan_word : forall v rest b,
  Str.all Char.alnum v = true ->
  slugScan b (v ++ rest) = match v with EmptyString => slugScan b rest | _ => slugScan true rest end.
Proof.
  induction v as [|c v IH]; intros rest b H; [reflexivity|].
  simpl in *. apply andb_true_iff in H as [Hc Hv]. rewrite Hc.
  rewrite (IH rest true Hv). now destruct v.
Qed.

Lemma Slug_isSlug : forall s, Slug s -> isSlug s = true.
Proof.
  unfold isSlug. induction 1 as [v [Hne Hv] | v s [Hne Hv] _ IH].
  - rewrite <- (append_nil_r v). rewrite slugScan_word by assumption.
    destruct v; [congruence | reflexivity].
  - rewrite slugScan_word by assumption.
    destruct v; [congruence|]. simpl. exact IH.
Qed.

Lemma slugScan_reads : forall s b,
  slugScan b s = true ->
  exists v, Str.all Char.alnum v = true /\ (b = false -> v <> "")
            /\ (s = v \/ exists s', Slug s' /\ s = v ++ "-" ++ s').
Proof.
  induction s as [|c s IH]; intros b Hs.
  - simpl in Hs. subst b. exists "". repeat split; [discriminate | now left].
  - simpl in Hs. destruct (Char.alnum c) eqn:Ha.
    + destruct (IH _ Hs) as [v [Hv [_ Hshape]]].
      exists (String c v). simpl. rewrite Ha, Hv. repeat split; [discriminate|].
      destruct Hshape as [-> | [s' [Hs' ->]]]; [now left | right].
      exists s'. split; [assumption | reflexivity].
    + destruct (Char.hyphen c) eqn:Hh; [|discriminate].
      apply andb_true_iff in Hs as [Hb Hs]. subst b.
      destruct (IH _ Hs) as [v [Hv [Hne Hshape]]]. specialize (Hne eq_refl).
      exists "". repeat split; [discriminate|]. right. exists s. split.
      * destruct Hshape as [-> | [s' [Hs' ->]]].
        -- apply Slug_word. split; assumption.
        -- apply Slug_more; [split; assumption | assumption].
      * simpl. f_equal. rewrite hyphen_eqb in Hh. apply Ascii.eqb_eq in Hh. now subst c.
Qed.

Lemma isSlug_Slug : forall s, isSlug s = true <-> Slug s.
Proof.
  intros s. split; [|apply Slug_isSlug]. intros H.
  destruct (slugScan_reads s false H) as [v [Hv [Hne [-> | [s' [Hs' ->]]]]]].
  - apply Slug_word. split; auto.
  - apply Slug_more; [split; auto | assumption].
Qed.

(** Decimal digits of a natural number. *)
Lemma string_of_uint_digits : forall d,
  Str.all Char.digit (NilEmpty.string_of_uint d) = true.
Proof. induction d; simpl; auto. Qed.

Lemma toString_digits : forall n, Str.all Char.digit (toString n) = true.
Proof.
  intros n. unfold toString, NilZero.string_of_uint.
  destruct (N.to_uint n) eqn:E; try reflexivity;
    rewrite <- E at 1; try (rewrite E; apply string_of_uint_digits).
Qed.

Lemma toString_nonempty : forall n, toString n <> "".
Proof.
  intros n. unfold toString, NilZero.string_of_uint.
  destruct (N.to_uint n); simpl; discriminate.
Qed.

Lemma substring_all : forall q s n m,
  Str.all q s = true -> Str.all q (String.substring n m s) = true.
Proof.
  induction s as [|c s IH]; intros n m H.
  - destruct n, m; reflexivity.
  - simpl in H. apply andb_true_iff in H as [Hc Hs].
    destruct n as [|n]; [destruct m as [|m]|]; simpl; auto.
    rewrite Hc. now apply IH.
Qed.

Lemma substring_length : forall s n m,
  String.length (String.substring n m s) = Nat.min m (String.length s - n).
Proof.
  induction s as [|c s IH]; intros n m.
  - destruct n, m; reflexivity.
  - destruct n as [|n]; [destruct m as [|m]|]; simpl; auto.
    rewrite IH. now rewrite Nat.sub_0_r.
Qed.

Lemma sliceLast_digits : forall n k,
  Str.all Char.digit (Str.sliceLast k (toString n)) = true.
Proof. intros. apply substring_all, toString_digits. Qed.

Lemma sliceLast_length : forall k s,
  String.length (Str.sliceLast k s) = Nat.min k (String.length s).
Proof. intros k s. unfold Str.sliceLast. rewrite substring_length. lia. Qed.

Lemma timestampFallback_slug : forall t,
  isSlug (timestampFallback t) = true /\ String.length (timestampFallback t) <= 14.
Proof.
  intros t. unfold timestampFallback. split.
  - pose proof (sliceLast_digits (now t) 6) as Hd.
    pose proof (sliceLast_length 6 (toString (now t))) as Hl.
    pose proof (toString_nonempty (now t)) as Hne.
    destruct (Str.sliceLast 6 (toString (now t))) as [|c d] eqn:E.
    + destruct (toString (now t)); [congruence | cbn [String.length] in Hl; lia].
    + unfold isSlug. simpl. simpl in Hd. apply andb_true_iff in Hd as [Hc Hd].
      rewrite (digit_alnum c Hc).
      rewrite <- (append_nil_r d), slugScan_word.
      * now destruct d.
      * apply (all_weaken Char.digit); [apply digit_alnum | assumption].
  - rewrite length_append, sliceLast_length.
    change (String.length "project-") with 8. lia.
Qed.

Lemma sanitizeChain_slug : forall name,
  sanitizeChain name <> "" ->
  isSlug (sanitizeChain name) = true /\ String.length (sanitizeChain name) <= 25.
Proof.
  intros name. rewrite sanitizeChain_steps.
  set (s1 := subst invalid "" (Str.toLowerCase name)).
  set (s2 := squeeze Char.space "-" s1).
  set (s3 := squeeze Char.hyphen "-" s2).
  set (s4 := Str.dropWhile Char.hyphen s3).
  set (s5 := Str.dropEnd Char.hyphen s4).
  set (s6 := Str.substring0 25 s5).
  intros Hne.
  assert (H1 : Str.all (fun c => slugUnit c || Char.space c) s1 = true)
    by (apply subst_drop_all, kept_or_space).
  assert (H2 : Str.all slugUnit s2 = true).
  { apply (squeeze_all Char.space (fun c => slugUnit c || Char.space c)); auto.
    intros c Hc Hs. rewrite Hs, orb_false_r in Hc. exact Hc. }
  assert (H3 : Str.all slugUnit s3 = true /\ noRun Char.hyphen s3 = true).
  { split.
    - apply (squeeze_all Char.hyphen slugUnit); auto.
    - apply squeeze_noRun. reflexivity. }
  destruct H3 as [H3 R3].
  assert (H4 : Str.all slugUnit s4 = true) by now apply dropWhile_all.
  assert (R4 : noRun Char.hyphen s4 = true) by now apply noRun_dropWhile.
  assert (F4 : headIn Char.hyphen s4 = false) by apply dropWhile_head.
  assert (H5 : Str.all slugUnit s5 = true) by now apply dropEnd_all.
  assert (R5 : noRun Char.hyphen s5 = true) by now apply noRun_dropEnd.
  assert (F5 : headIn Char.hyphen s5 = false) by now apply dropEnd_head.
  destruct (substring0_split 25 s5) as [rest Hsplit]. fold s6 in Hsplit.
  assert (H6 : Str.all slugUnit s6 = true).
  { rewrite Hsplit, all_append in H5. now apply andb_true_iff in H5 as [H5 _]. }
  assert (R6 : noRun Char.hyphen s6 = true).
  { rewrite Hsplit in R5. now apply noRun_prefix in R5. }
  assert (F6 : headIn Char.hyphen s6 = false) by now apply substring0_head.
  split.
  - apply slugScan_shape.
    + now apply dropEnd_all.
    + now apply noRun_dropEnd.
    + intros _. now apply dropEnd_head.
    + apply dropEnd_last.
    + intros E. contradiction.
  - pose proof (dropEnd_length Char.hyphen s6).
    pose proof (substring0_length 25 s5). fold s6 in H0. lia.
Qed.

Lemma startsWith_hyphen : forall s, Str.startsWith "-" s = headIn Char.hyphen s.
Proof.
  intros [|c s]; simpl; [reflexivity|]. now rewrite hyphen_eqb, andb_true_r.
Qed.

Lemma noRun_includes : forall s,
  noRun Char.hyphen s = true -> Str.includes "--" s = false.
Proof.
  induction s as [|c s IH]; intros H; [reflexivity|].
  simpl in H. apply andb_true_iff in H as [Hc Hs].
  change (Str.includes "--" (String c s))
    with ((Ascii.eqb "-" c && Str.startsWith "-" s) || Str.includes "--" s).
  rewrite (IH Hs), orb_false_r, startsWith_hyphen, <- hyphen_eqb.
  now apply negb_true_iff in Hc.
Qed.

Lemma lastIn_ext : forall p q s,
  (forall c, p c = q c) -> lastIn p s = lastIn q s.
Proof.
  intros p q s H. induction s as [|c s IH]; [reflexivity|].
  destruct s as [|d s]; [apply H | exact IH].
Qed.

Lemma slug_facts : forall r,
  isSlug r = true ->
  Str.all (fun c => negb (Char.upper c)) r = true
  /\ Str.all (fun c => negb (Char.space c)) r = true
  /\ Str.includes "--" r = false
  /\ Str.startsWith "-" r = false
  /\ lastIn (Ascii.eqb "-") r = false.
Proof.
  intros r H. destruct (isSlug_shape r H) as [_ [Hall [Hrun [Hhead Hlast]]]].
  repeat split.
  - exact (all_weaken _ _ r slugUnit_not_upper Hall).
  - exact (all_weaken _ _ r slugUnit_not_space Hall).
  - now apply noRun_includes.
  - now rewrite startsWith_hyphen.
  - rewrite (lastIn_ext _ Char.hyphen); [exact Hlast|].
    intros c. symmetry. apply hyphen_eqb.
Qed.

(** C1.  Whatever the input, the sanitizer returns a non-empty string that
    either is in the language of [^[a-z0-9]+(-[a-z0-9]+)*$] and has at most
    25 code units, or is the timestamp fallback, [project-] followed by the
    last six digits of the current epoch milliseconds; the result has no
    upper-case letter, no space, no two hyphens in a row and no hyphen at
    either end. *)
Theorem sanitizeProjectName_valid : forall (t : Clock) (name : string),
  let r := sanitizeProjectName t name in
  r <> ""
  /\ ((r = sanitizeChain name /\ Slug r /\ String.length r <= 25)
      \/ (sanitizeChain name = ""
          /\ r = "project-" ++ Str.sliceLast 6 (toString (now t))))
  /\ Str.all (fun c => negb (Char.upper c)) r = true
  /\ Str.all (fun c => negb (Char.space c)) r = true
  /\ Str.includes "--" r = false
  /\ Str.startsWith "-" r = false
  /\ lastIn (Ascii.eqb "-") r = false.
Proof.
  intros t name r.
  assert (H : isSlug r = true
              /\ ((r = sanitizeChain name /\ Slug r /\ String.length r <= 25)
                  \/ (sanitizeChain name = "" /\ r = timestampFallback t))).
  { subst r. unfold sanitizeProjectName.
    destruct (Str.truthy (sanitizeChain name)) eqn:E.
    - apply truthy_true in E. destruct (sanitizeChain_slug name E) as [Hs Hl].
      split; [assumption|]. left. repeat split; [now apply isSlug_Slug | assumption].
    - apply truthy_false in E. destruct (timestampFallback_slug t) as [Hs _].
      split; [assumption|]. right. split; [assumption | reflexivity]. }
  destruct H as [Hslug Hcases].
  split; [apply (isSlug_shape r Hslug)|].
  split; [exact Hcases|].
  now apply slug_facts.
Qed.

(** ** The scanning loop *)

Lemma startsWith_includes : forall p l s,
  Str.startsWith (p ++ l) s = true -> Str.includes l s = true.
Proof.
  induction p as [|c p IH]; intros l s H.
  - destruct s; simpl in *; now rewrite H.
  - destruct s as [|d s]; simpl in H; [discriminate|].
    apply andb_true_iff in H as [_ H]. apply IH in H.
    simpl. rewrite H. apply orb_true_r.
Qed.

Lemma includes_longer : forall p l s,
  Str.includes (p ++ l) s = true -> Str.includes l s = true.
Proof.
  intros p l. induction s as [|c s IH]; intros H.
  - simpl in H. rewrite orb_false_r in H. now apply startsWith_includes in H.
  - cbn [Str.includes] in H. apply orb_true_iff in H as [H | H].
    + now apply startsWith_includes in H.
    + cbn [Str.includes]. rewrite (IH H). apply orb_true_r.
Qed.

Lemma includes_dashed : forall l s,
  Str.includes l s || Str.includes ("- " ++ l) s = Str.includes l s.
Proof.
  intros l s. destruct (Str.includes l s) eqn:E; [reflexivity|].
  destruct (Str.includes ("- " ++ l) s) eqn:E'; [|reflexivity].
  apply includes_longer in E'. congruence.
Qed.

Lemma lastLine_snoc : forall f lines x,
  lastLine f (lines ++ [x]) = if f x then Some x else lastLine f lines.
Proof.
  intros f lines x. unfold lastLine. rewrite rev_app_distr. reflexivity.
Qed.

Lemma lastValue_snoc : forall label lines x,
  lastValue label (lines ++ [x]) =
  if Str.includes label x then fieldValue label x else lastValue label lines.
Proof.
  intros. unfold lastValue. rewrite lastLine_snoc. now destruct (Str.includes label x).
Qed.

Lemma lastExplicitName_snoc : forall lines x,
  lastExplicitName (lines ++ [x]) =
  if hasNameLabel x && Str.truthy (explicitName x) then explicitName x
  else lastExplicitName lines.
Proof.
  intros. unfold lastExplicitName. rewrite lastLine_snoc.
  now destruct (hasNameLabel x && Str.truthy (explicitName x)).
Qed.

(** What the loop has assigned after the lines [raws]. *)
Lemma scan_lines : forall raws,
  fold_left scanLine raws scanStart =
  let lines := List.map Str.trim raws in
  Build_Scan (lastExplicitName lines)
             (lastValue "Main purpose/goal:" lines)
             (lastValue "Target audience:" lines)
             (lastValue "Business objectives:" lines).
Proof.
  induction raws as [|x raws IH] using rev_ind; [reflexivity|].
  rewrite fold_left_app, IH. cbn zeta. rewrite map_app. cbn [List.map].
  rewrite lastExplicitName_snoc, !lastValue_snoc.
  cbn [fold_left]. unfold scanLine.
  change ("- Main purpose/goal:") with ("- " ++ "Main purpose/goal:").
  change ("- Target audience:") with ("- " ++ "Target audience:").
  change ("- Business objectives:") with ("- " ++ "Business objectives:").
  rewrite !includes_dashed. fold (hasNameLabel (Str.trim x)).
  destruct (Str.includes "Main purpose/goal:" (Str.trim x));
    destruct (Str.includes "Target audience:" (Str.trim x));
    destruct (Str.includes "Business objectives:" (Str.trim x));
    destruct (hasNameLabel (Str.trim x));
    destruct (Str.truthy (explicitName (Str.trim x))); reflexivity.
Qed.

Lemma scan_report : forall report,
  scan report =
  Build_Scan (lastExplicitName (linesOf report))
             (lastValue "Main purpose/goal:" (linesOf report))
             (lastValue "Target audience:" (linesOf report))
             (lastValue "Business objectives:" (linesOf report)).
Proof. intros report. unfold scan. now rewrite scan_lines. Qed.

Lemma parseRequirements_result : forall t report,
  parseRequirements t report =
  if blank report
  then Throw "Requirements report is required but was not provided or is empty"
  else Return {|
    parsed_projectName := sanitizeProjectName t (chooseName t (fieldsOf report));
    parsed_requirements := report;
    parsed_extractedInfo := {|
      purpose := orUndefined (v_purpose (fieldsOf report));
      targetAudience := orUndefined (v_targetAudience (fieldsOf report));
      businessObjectives := orUndefined (v_businessObjectives (fieldsOf report)) |};
    parsed_success := Some true |}.
Proof.
  intros t report. unfold parseRequirements, blank, fieldsOf.
  rewrite scan_report.
  destruct (Str.truthy report) eqn:E; [reflexivity|].
  apply truthy_false in E. subst report. reflexivity.
Qed.

(** ** The greedy [.*] in front of a label *)

Lemma failsWithin_tail : forall k c s, failsWithin k (String c s) -> failsWithin k s.
Proof.
  intros k c s H pre rest b E. apply (H (String c pre) rest b). simpl. now rewrite E.
Qed.

Lemma star_fails : forall p k s b, failsWithin k s -> star p b s k = None.
Proof.
  intros p k. induction s as [|c s IH]; intros b H.
  - simpl. apply (H "" "" b). reflexivity.
  - simpl. rewrite (IH false (failsWithin_tail k c s H)).
    assert (Hk : k b (String c s) = None) by (apply (H "" (String c s) b); reflexivity).
    rewrite Hk. now destruct (p c).
Qed.

(** When no later position lets the continuation through, the star gives
    back everything it took. *)
Lemma star_gives_back : forall p k s b,
  failsWithin k (tail s) -> star p b s k = k b s.
Proof.
  intros p k [|c s] b H; [reflexivity|].
  simpl in *. rewrite (star_fails p k s false H). now destruct (p c).
Qed.

(** The star runs over a prefix of its class to the last position where the
    continuation succeeds. *)
Lemma star_reaches : forall p k a target b,
  Str.all p a = true -> flagFree k -> failsWithin k (tail target) ->
  k false target <> None ->
  star p b (a ++ target) k = k false target.
Proof.
  intros p k a target b Ha Hk Hlater Hhere. revert b.
  induction a as [|c a IH]; intros b.
  - simpl. rewrite star_gives_back by assumption. apply Hk.
  - simpl in Ha. apply andb_true_iff in Ha as [Hc Ha].
    simpl. rewrite Hc, (IH Ha false).
    destruct (k false target); [reflexivity | congruence].
Qed.

Lemma run_Lit_fails : forall l s b k,
  Str.startsWith l s = false -> run (Lit l) b s k = None.
Proof.
  induction l as [|c l IH]; intros s b k H; [discriminate|].
  destruct s as [|d s]; [reflexivity|].
  simpl in *. destruct (Ascii.eqb c d); [now apply IH | reflexivity].
Qed.

Lemma run_Lit_reads : forall l rest b k,
  flagFree k -> run (Lit l) b (l ++ rest) k = k false rest.
Proof.
  induction l as [|c l IH]; intros rest b k Hk.
  - simpl. apply Hk.
  - simpl. rewrite Ascii.eqb_refl. now apply IH.
Qed.

Lemma includes_suffix : forall l pre rest,
  Str.includes l (pre ++ rest) = false -> Str.startsWith l rest = false.
Proof.
  intros l. induction pre as [|c pre IH]; intros rest H.
  - simpl in H. destruct rest; simpl in H; now apply orb_false_iff in H as [H _].
  - cbn [append Str.includes] in H. apply orb_false_iff in H as [_ H]. now apply IH.
Qed.

Lemma trim_trimStart : forall s, Str.trim (Str.trimStart s) = Str.trim s.
Proof.
  intros s. unfold Str.trim. f_equal. unfold Str.trimStart.
  apply dropWhile_fixed, dropWhile_head.
Qed.

(** The value of a labelled line: on a line with no carriage return
    before the last occurrence of the label, what follows that
    occurrence, trimmed. *)
Lemma replace_label : forall label a b,
  Str.all Char.dot a = true ->
  Str.includes label (tail (label ++ b)) = false ->
  replace (reLabel label) "" (a ++ label ++ b) = Str.trimStart b.
Proof.
  intros label a b Ha Hlast.
  set (k := fun (f : bool) (s : string) =>
              run (Seq (Lit label) (Star Char.space)) f s (fun _ rest => Some rest)).
  assert (Hfree : flagFree k).
  { intros b1 b2 s. unfold k. simpl. destruct (Str.startsWith label s) eqn:E.
    - destruct label as [|c l]; [|destruct s as [|d s]; [discriminate|reflexivity]].
      simpl. now rewrite !star_final.
    - now rewrite !run_Lit_fails. }
  assert (Hhere : k false (label ++ b) = Some (Str.trimStart b)).
  { unfold k. simpl. rewrite run_Lit_reads.
    - apply star_final.
    - intros b1 b2 s. simpl. now rewrite !star_final. }
  assert (Hlater : failsWithin k (tail (label ++ b))).
  { intros pre rest f E. unfold k. simpl. apply run_Lit_fails.
    rewrite E in Hlast. now apply includes_suffix in Hlast. }
  unfold replace. rewrite exec_unfold. unfold matchAt, reLabel.
  change (run (Seq (Star Char.dot) (Seq (Lit label) (Star Char.space))) true
              (a ++ label ++ b) (fun _ rest => Some rest))
    with (star Char.dot true (a ++ label ++ b) k).
  rewrite star_reaches; try assumption; [|congruence].
  rewrite Hhere. reflexivity.
Qed.

Lemma fieldValue_follows : forall label a b,
  Str.all Char.dot a = true ->
  Str.includes label (tail (label ++ b)) = false ->
  fieldValue label (a ++ label ++ b) = Str.trim b.
Proof.
  intros. unfold fieldValue. rewrite replace_label by assumption.
  apply trim_trimStart.
Qed.

(** ** Last line wins *)

Lemma find_all_false : forall (f : string -> bool) l,
  (forall x, In x l -> f x = false) -> find f l = None.
Proof.
  induction l as [|x l IH]; intros H; [reflexivity|].
  simpl. rewrite (H x) by now left. apply IH. intros y Hy. apply H. now right.
Qed.

Lemma lastLine_none : forall f lines,
  (forall x, In x lines -> f x = false) -> lastLine f lines = None.
Proof.
  intros f lines H. unfold lastLine. apply find_all_false.
  intros x Hx. apply H. now apply in_rev.
Qed.

Lemma lastLine_last : forall f before line after,
  f line = true -> (forall x, In x after -> f x = false) ->
  lastLine f (before ++ line :: after) = Some line.
Proof.
  intros f before line after Hline Hafter.
  induction after as [|x after IH] using rev_ind.
  - now rewrite lastLine_snoc, Hline.
  - change (before ++ line :: after ++ [x])%list
      with (before ++ (line :: after) ++ [x])%list.
    rewrite app_assoc, lastLine_snoc.
    rewrite (Hafter x) by (apply in_or_app; right; now left).
    apply IH. intros y Hy. apply Hafter.
    apply in_or_app. now left.
Qed.

Lemma orUndefined_never_empty : forall s, orUndefined s <> Some "".
Proof.
  intros s. unfold orUndefined. destruct (Str.truthy s) eqn:E; [|discriminate].
  apply truthy_true in E. congruence.
Qed.

Lemma parse_fields : forall t report out,
  parseRequirements t report = Return out ->
  blank report = false
  /\ parsed_projectName out = sanitizeProjectName t (chooseName t (fieldsOf report))
  /\ forall label get, In (label, get) labelledFields ->
       get (parsed_extractedInfo out) = orUndefined (lastValue label (linesOf report)).
Proof.
  intros t report out H. rewrite parseRequirements_result in H.
  destruct (blank report); [discriminate|]. injection H as <-.
  repeat split. intros label get [E | [E | [E | []]]]; injection E as <- <-; reflexivity.
Qed.

(** C5, as amended.  For a report the stage accepts, and for each of the
    three labels: the lines (the pieces between line feeds, trimmed) are
    scanned top to bottom and the last line that contains the label gives
    the field, an empty value being returned as an absent field; when no
    line contains the label the field is absent; a returned field is never
    the empty string.  The value of a line is what follows the last
    occurrence of the label on it, trimmed, when every code unit before
    that occurrence is one the [.] of the pattern matches, that is, when no
    line terminator (carriage return, U+2028, U+2029) stands before it on
    the line. *)
Theorem extractedInfo_last_labelled_line : forall t report,
  blank report = false ->
  exists out,
    parseRequirements t report = Return out
    /\ forall label get, In (label, get) labelledFields ->
         (forall before line after,
             Str.split "010" report = (before ++ line :: after)%list ->
             Str.includes label (Str.trim line) = true ->
             (forall l, In l after -> Str.includes label (Str.trim l) = false) ->
             get (parsed_extractedInfo out) = orUndefined (fieldValue label (Str.trim line)))
         /\ ((forall l, In l (Str.split "010" report) ->
                        Str.includes label (Str.trim l) = false) ->
             get (parsed_extractedInfo out) = None)
         /\ get (parsed_extractedInfo out) <> Some ""
         /\ (forall a b,
               Str.all Char.dot a = true ->
               Str.includes label (tail (label ++ b)) = false ->
               fieldValue label (a ++ label ++ b) = Str.trim b).
Proof.
  intros t report Hb.
  pose proof (parseRequirements_result t report) as Hout. rewrite Hb in Hout.
  eexists. split; [exact Hout|].
  intros label get Hin.
  destruct (parse_fields t report _ Hout) as [_ [_ Hget]].
  rewrite (Hget label get Hin). unfold lastValue, linesOf.
  repeat split.
  - intros before line after Hsplit Hline Hafter.
    rewrite Hsplit, map_app. cbn [List.map].
    rewrite (lastLine_last _ _ (Str.trim line)); [reflexivity | assumption |].
    intros x Hx. apply in_map_iff in Hx as [l [<- Hl]]. now apply Hafter.
  - intros Hnone. rewrite lastLine_none; [reflexivity|].
    intros x Hx. apply in_map_iff in Hx as [l [<- Hl]]. now apply Hnone.
  - apply orUndefined_never_empty.
  - intros a b. apply fieldValue_follows.
Qed.

Lemma extractedInfo_last_labelled_line_witness :
  exists out,
    parseRequirements sampleClock
      ("Target audience: x" ++ LF ++ "  - Target audience: y z ") = Return out
    /\ targetAudience (parsed_extractedInfo out)
       = orUndefined (fieldValue "Target audience:" (Str.trim "  - Target audience: y z ")).
Proof.
  destruct (extractedInfo_last_labelled_line sampleClock
              ("Target audience: x" ++ LF ++ "  - Target audience: y z ") eq_refl)
    as [out [Hout H]].
  exists out. split; [exact Hout|].
  refine (proj1 (H "Target audience:" targetAudience (or_intror (or_introl eq_refl)))
                ["Target audience: x"] "  - Target audience: y z " [] eq_refl eq_refl _).
  intros l [].
Defined.

(** C5 as first stated fails.  An empty value on the last labelled line is
    returned as an absent field, not as the remainder of the line.  And a
    line terminator inside a line stops the [.*] of the pattern, so the
    text before it stays in the value. *)
Lemma labelled_line_counterexample :
  (exists out,
      parseRequirements sampleClock ("Target audience: x" ++ LF ++ "Target audience:")
        = Return out
      /\ fieldValue "Target audience:" "Target audience:" = ""
      /\ targetAudience (parsed_extractedInfo out) = None
      /\ targetAudience (parsed_extractedInfo out) <> Some "")
  /\ (exists out,
      parseRequirements sampleClock ("a" ++ CR ++ "Target audience: b") = Return out
      /\ targetAudience (parsed_extractedInfo out) = Some ("a" ++ CR ++ "b")
      /\ targetAudience (parsed_extractedInfo out) <> Some "b").
Proof.
  split; eexists; (split; [vm_compute; reflexivity|]); repeat split; discriminate.
Qed.

(** ** The sanitizer leaves a slug alone *)

Lemma toLower_not_upper : forall c, Char.upper c = false -> Char.toLower c = c.
Proof. intros c H. unfold Char.toLower. now rewrite H. Qed.

Lemma map_fixed : forall f s,
  Str.all (fun c => Ascii.eqb (f c) c) s = true -> Str.map f s = s.
Proof.
  intros f s. induction s as [|c s IH]; simpl; intros H; [reflexivity|].
  apply andb_true_iff in H as [Hc Hs]. apply Ascii.eqb_eq in Hc.
  now rewrite Hc, IH.
Qed.

Lemma toLowerCase_slug : forall s, Str.all slugUnit s = true -> Str.toLowerCase s = s.
Proof.
  intros s H. apply map_fixed.
  apply (all_weaken slugUnit); [|assumption].
  intros c Hc. apply Ascii.eqb_eq, toLower_not_upper.
  apply negb_true_iff. now apply slugUnit_not_upper.
Qed.

Lemma subst_fixed : forall p rep s,
  Str.all (fun c => negb (p c)) s = true -> subst p rep s = s.
Proof.
  induction s as [|c s IH]; simpl; intros H; [reflexivity|].
  apply andb_true_iff in H as [Hc Hs]. apply negb_true_iff in Hc.
  now rewrite Hc, IH.
Qed.

Lemma squeeze_fixed : forall p rep s,
  Str.all (fun c => negb (p c)) s = true -> squeeze p rep s = s.
Proof.
  induction s as [|c s IH]; simpl; intros H; [reflexivity|].
  apply andb_true_iff in H as [Hc Hs]. apply negb_true_iff in Hc.
  now rewrite Hc, IH.
Qed.

Lemma squeeze_single : forall p u s,
  (forall c, p c = true -> c = u) ->
  noRun p s = true -> squeeze p (String u "") s = s.
Proof.
  intros p u s Hu. induction s as [|c s IH]; simpl; intros H; [reflexivity|].
  apply andb_true_iff in H as [Hc Hs]. rewrite (IH Hs).
  destruct (p c) eqn:Hpc; [|reflexivity].
  simpl in Hc. apply negb_true_iff in Hc. rewrite Hc. simpl.
  now rewrite (Hu c Hpc).
Qed.

Lemma substring0_fixed : forall n s,
  String.length s <= n -> Str.substring0 n s = s.
Proof.
  unfold Str.substring0. induction n as [|n IH]; intros [|c s] H; simpl in *;
    try reflexivity; try lia.
  rewrite IH by lia. reflexivity.
Qed.

Lemma hyphen_is : forall c, Char.hyphen c = true -> c = "-"%char.
Proof. intros c H. rewrite hyphen_eqb in H. apply Ascii.eqb_eq in H. now symmetry. Qed.

Lemma slugUnit_not_invalid : forall c, slugUnit c = true -> negb (invalid c) = true.
Proof.
  intros c. unfold slugUnit, invalid, Char.alnum. rewrite negb_involutive.
  destruct (Char.az c), (Char.digit c), (Char.space c), (Char.hyphen c); simpl; auto.
Qed.

Lemma sanitizeChain_fixed : forall s,
  isSlug s = true -> String.length s <= 25 -> sanitizeChain s = s.
Proof.
  intros s Hs Hlen. destruct (isSlug_shape s Hs) as [_ [Hall [Hrun [Hhead Hlast]]]].
  rewrite sanitizeChain_steps.
  rewrite (toLowerCase_slug s Hall).
  rewrite subst_fixed by exact (all_weaken _ _ s slugUnit_not_invalid Hall).
  rewrite (squeeze_fixed Char.space) by exact (all_weaken _ _ s slugUnit_not_space Hall).
  rewrite (squeeze_single Char.hyphen "-" s hyphen_is Hrun).
  rewrite (dropWhile_fixed _ s Hhead).
  rewrite (dropEnd_fixed _ s Hlast).
  rewrite (substring0_fixed 25 s Hlen).
  apply (dropEnd_fixed _ s Hlast).
Qed.

Lemma sanitizeProjectName_fixed : forall t s,
  isSlug s = true -> String.length s <= 25 -> sanitizeProjectName t s = s.
Proof.
  intros t s Hs Hlen. unfold sanitizeProjectName.
  rewrite (sanitizeChain_fixed s Hs Hlen).
  destruct (isSlug_shape s Hs) as [Hne _]. apply truthy_true in Hne. now rewrite Hne.
Qed.

(** ** The dated fallback *)

Lemma zeros_digits : forall k, Str.all Char.digit (zeros k) = true.
Proof. induction k; simpl; auto. Qed.

Lemma pad_digits : forall w n, Str.all Char.digit (pad w n) = true.
Proof.
  intros w n. unfold pad. rewrite all_append, zeros_digits, toString_digits. reflexivity.
Qed.

Lemma zeros_length : forall k, String.length (zeros k) = k.
Proof. induction k; simpl; auto. Qed.

Lemma pad_length : forall w n,
  String.length (pad w n) = Nat.max w (String.length (toString n)).
Proof.
  intros w n. unfold pad. rewrite length_append, zeros_length. lia.
Qed.

Lemma toString_short : forall n,
  (n <= 9999)%N -> String.length (toString n) <= 4.
Proof.
  intros n H.
  assert (Hall : forallb (fun k => (String.length (toString (N.of_nat k)) <=? 4)%nat)
                         (seq 0 (N.to_nat 10000)) = true) by (vm_compute; reflexivity).
  rewrite forallb_forall in Hall.
  specialize (Hall (N.to_nat n)). rewrite N2Nat.id in Hall.
  apply Nat.leb_le, Hall, in_seq. lia.
Qed.

Lemma toString_two : forall n,
  (n <= 31)%N -> String.length (toString n) <= 2.
Proof.
  intros n H.
  assert (Hall : forallb (fun k => (String.length (toString (N.of_nat k)) <=? 2)%nat)
                         (seq 0 32) = true) by (vm_compute; reflexivity).
  rewrite forallb_forall in Hall.
  specialize (Hall (N.to_nat n)). rewrite N2Nat.id in Hall.
  apply Nat.leb_le, Hall, in_seq. lia.
Qed.

Lemma subst_append : forall p rep a b,
  subst p rep (a ++ b) = subst p rep a ++ subst p rep b.
Proof.
  induction a as [|c a IH]; intros b; simpl; [reflexivity|].
  rewrite IH. destruct (p c); [now rewrite append_assoc | reflexivity].
Qed.

Lemma digit_not_hyphen : forall c, Char.digit c = true -> negb (Char.hyphen c) = true.
Proof. intros c. each_unit c. Qed.

Lemma digit_not_T : forall c, Char.digit c = true -> negb (Ascii.eqb c "T") = true.
Proof. intros c. each_unit c. Qed.

Lemma split_first : forall sep x rest,
  Str.all (fun c => negb (Ascii.eqb c sep)) x = true ->
  hd "" (Str.split sep (x ++ String sep rest)) = x.
Proof.
  intros sep. induction x as [|c x IH]; intros rest H.
  - simpl. now rewrite Ascii.eqb_refl.
  - simpl in H. apply andb_true_iff in H as [Hc Hx]. apply negb_true_iff in Hc.
    simpl. rewrite Hc. specialize (IH rest Hx).
    destruct (Str.split sep (x ++ String sep rest)); simpl in *; now rewrite IH.
Qed.

Lemma dateStamp_digits : forall t,
  (year t <= 9999)%N -> dateStamp t = yyyymmdd t.
Proof.
  intros t Hy. unfold dateStamp, toISOString, yyyymmdd.
  apply N.leb_le in Hy. rewrite Hy.
  set (y := pad 4 (year t)). set (m := pad 2 (month t)). set (d := pad 2 (day t)).
  assert (Hy' : Str.all Char.digit y = true) by apply pad_digits.
  assert (Hm : Str.all Char.digit m = true) by apply pad_digits.
  assert (Hd : Str.all Char.digit d = true) by apply pad_digits.
  replace (y ++ "-" ++ m ++ "-" ++ d ++ "T" ++ pad 2 (hours t) ++ ":"
             ++ pad 2 (minutes t) ++ ":" ++ pad 2 (seconds t) ++ "."
             ++ pad 3 (milliseconds t) ++ "Z")
    with ((y ++ "-" ++ m ++ "-" ++ d) ++
          String "T" (pad 2 (hours t) ++ ":" ++ pad 2 (minutes t) ++ ":"
                        ++ pad 2 (seconds t) ++ "." ++ pad 3 (milliseconds t) ++ "Z"))
    by (now rewrite !append_assoc).
  rewrite split_first.
  - unfold reHyphen. rewrite (replaceAll_computes _ _ _ (search_Cls Char.hyphen "")).
    rewrite !subst_append.
    rewrite (subst_fixed _ _ y), (subst_fixed _ _ m), (subst_fixed _ _ d)
      by (eapply all_weaken; [apply digit_not_hyphen | assumption]).
    reflexivity.
  - rewrite !all_append.
    rewrite (all_weaken _ _ y digit_not_T Hy'), (all_weaken _ _ m digit_not_T Hm),
      (all_weaken _ _ d digit_not_T Hd). reflexivity.
Qed.

Lemma dated_name_slug : forall t,
  (year t <= 9999)%N -> (month t <= 12)%N -> (day t <= 31)%N ->
  isSlug ("website-" ++ yyyymmdd t) = true
  /\ String.length ("website-" ++ yyyymmdd t) <= 25.
Proof.
  intros t Hy Hm Hd. unfold yyyymmdd. split.
  - unfold isSlug. simpl.
    assert (Hdig : Str.all Char.alnum
                     (pad 4 (year t) ++ pad 2 (month t) ++ pad 2 (day t)) = true).
    { apply (all_weaken Char.digit); [apply digit_alnum|].
      now rewrite !all_append, !pad_digits. }
    rewrite <- (append_nil_r (pad 4 (year t) ++ _)), slugScan_word by assumption.
    pose proof (pad_length 4 (year t)) as Hl.
    destruct (pad 4 (year t)); [cbn [String.length] in Hl; lia | reflexivity].
  - rewrite !length_append, !pad_length.
    pose proof (toString_short (year t) Hy).
    assert ((month t <= 31)%N) by lia.
    pose proof (toString_two (month t) H0).
    pose proof (toString_two (day t) Hd).
    change (String.length "website-") with 8. lia.
Qed.

(** ** Reports without labels, and blank reports *)

Lemma dropWhile_empty : forall p s, Str.dropWhile p s = "" -> Str.all p s = true.
Proof.
  induction s as [|c s IH]; simpl; intros H; [reflexivity|].
  destruct (p c); [now apply IH | discriminate].
Qed.

Lemma trim_empty : forall s, Str.trim s = "" <-> Str.all Char.space s = true.
Proof.
  intros s. unfold Str.trim, Str.trimEnd, Str.trimStart. split; intros H.
  - apply dropEnd_empty in H.
    pose proof (dropWhile_head Char.space s) as Hh.
    destruct (Str.dropWhile Char.space s) eqn:E.
    + now apply dropWhile_empty.
    + simpl in *. apply andb_true_iff in H as [H _]. congruence.
  - apply dropEnd_empty. now apply dropWhile_all.
Qed.

Lemma split_all : forall q sep s,
  Str.all q s = true -> forall piece, In piece (Str.split sep s) -> Str.all q piece = true.
Proof.
  intros q sep. induction s as [|c s IH]; intros H piece Hin.
  - destruct Hin as [<- | []]. reflexivity.
  - simpl in H. apply andb_true_iff in H as [Hc Hs]. simpl in Hin.
    destruct (Ascii.eqb c sep).
    + destruct Hin as [<- | Hin]; [reflexivity | now apply IH].
    + destruct (Str.split sep s) as [|h tl] eqn:E.
      * destruct Hin as [<- | []]. simpl. now rewrite Hc.
      * destruct Hin as [<- | Hin].
        -- simpl. rewrite Hc. apply (IH Hs). now left.
        -- apply (IH Hs). now right.
Qed.

Lemma blank_lines : forall report line,
  blank report = true -> In line (linesOf report) -> line = "".
Proof.
  intros report line Hb Hin. unfold blank in Hb. apply String.eqb_eq in Hb.
  apply trim_empty in Hb. unfold linesOf in Hin.
  apply in_map_iff in Hin as [raw [<- Hraw]].
  apply trim_empty. now apply (split_all Char.space "010" report).
Qed.



Lemma fieldsOf_unlabelled : forall report,
  forallb unlabelled (linesOf report) = true -> fieldsOf report = scanStart.
Proof.
  intros report H. rewrite forallb_forall in H.
  assert (Hl : forall l, In l (linesOf report) ->
             Str.includes "Main purpose/goal:" l = false
             /\ Str.includes "Target audience:" l = false
             /\ Str.includes "Business objectives:" l = false
             /\ hasNameLabel l = false).
  { intros l Hin. specialize (H l Hin). unfold unlabelled in H.
    apply negb_true_iff in H.
    repeat (apply orb_false_iff in H as [H ?]). auto. }
  unfold fieldsOf, lastValue, lastExplicitName.
  rewrite !lastLine_none; [reflexivity | | | |]; intros x Hx;
    destruct (Hl x Hx) as [H1 [H2 [H3 H4]]]; try assumption.
  now rewrite H4.
Qed.

(** C3, as amended.  The parse stage rejects the empty report; on the
    empty string the classifier answers [general]; and for a report that
    is not blank and none of whose lines carries a label, the stage
    returns all three fields absent and the name [website-] followed by
    today's date as YYYYMMDD. *)
Theorem empty_report_scenario : forall t report,
  (year t <= 9999)%N -> (month t <= 12)%N -> (day t <= 31)%N ->
  blank report = false ->
  forallb unlabelled (linesOf report) = true ->
  parseRequirements t "" = Throw requirementsMissing
  /\ inferBusinessType "" = "general"
  /\ parseRequirements t report =
     Return {| parsed_projectName := "website-" ++ yyyymmdd t;
               parsed_requirements := report;
               parsed_extractedInfo := noInfo;
               parsed_success := Some true |}.
Proof.
  intros t report Hy Hm Hd Hb Hl. repeat split.
  rewrite parseRequirements_result, Hb, (fieldsOf_unlabelled report Hl).
  change (chooseName t scanStart) with ("website-" ++ dateStamp t).
  change (orUndefined (v_purpose scanStart)) with (@None string).
  change (orUndefined (v_targetAudience scanStart)) with (@None string).
  change (orUndefined (v_businessObjectives scanStart)) with (@None string).
  rewrite (dateStamp_digits t Hy).
  destruct (dated_name_slug t Hy Hm Hd) as [Hs Hlen].
  now rewrite (sanitizeProjectName_fixed t _ Hs Hlen).
Qed.

Lemma empty_report_scenario_witness :
  parseRequirements sampleClock "" = Throw requirementsMissing
  /\ inferBusinessType "" = "general"
  /\ parseRequirements sampleClock "hello" =
     Return {| parsed_projectName := "website-" ++ yyyymmdd sampleClock;
               parsed_requirements := "hello";
               parsed_extractedInfo := noInfo;
               parsed_success := Some true |}.
Proof.
  apply (empty_report_scenario sampleClock "hello");
    vm_compute; first [reflexivity | discriminate].
Defined.

(** C3 as first stated fails: on the empty report the stage throws, it
    returns nothing. *)
Lemma empty_report_raises :
  parseRequirements sampleClock "" = Throw requirementsMissing
  /\ ~ (exists out, parseRequirements sampleClock "" = Return out).
Proof.
  split; [reflexivity|]. intros [out H]. discriminate.
Qed.

(** ** Determinism of the synthesized name *)

(** C9.  When the sanitized synthesized name is not empty, so that neither
    fallback reads the clock, the name is the same whatever the clock
    shows, and whatever audience is passed along: two runs on the same
    purpose agree. *)
Theorem synthesized_name_deterministic : forall purpose audience1 audience2 t1 t2,
  sanitizeChain (generateConciseProjectName purpose audience1) <> "" ->
  sanitizeProjectName t1 (generateConciseProjectName purpose audience1)
  = sanitizeProjectName t2 (generateConciseProjectName purpose audience2)
  /\ projectNameSynthesizer t1 purpose audience1
     = projectNameSynthesizer t2 purpose audience2
  /\ projectNameSynthesizer t1 purpose audience1
     = sanitizeChain (generateConciseProjectName purpose audience1).
Proof.
  intros purpose a1 a2 t1 t2 H.
  assert (Hsan : forall t a, sanitizeProjectName t (generateConciseProjectName purpose a)
                             = sanitizeChain (generateConciseProjectName purpose a1)).
  { intros t a. unfold sanitizeProjectName.
    change (generateConciseProjectName purpose a)
      with (generateConciseProjectName purpose a1).
    apply truthy_true in H. now rewrite H. }
  assert (Hsyn : forall t a, projectNameSynthesizer t purpose a
                             = sanitizeChain (generateConciseProjectName purpose a1)).
  { intros t a. unfold projectNameSynthesizer, chooseName. cbn.
    destruct (Str.truthy purpose) eqn:Hp.
    - destruct (Str.truthy (generateConciseProjectName purpose a)) eqn:Hg.
      + cbn. apply Hsan.
      + apply truthy_false in Hg.
        change (generateConciseProjectName purpose a)
          with (generateConciseProjectName purpose a1) in Hg.
        rewrite Hg in H. now contradiction H.
    - apply truthy_false in Hp. subst purpose. now contradiction H. }
  rewrite !Hsan, !Hsyn. auto.
Qed.

Lemma synthesized_name_deterministic_witness :
  sanitizeProjectName sampleClock (generateConciseProjectName purposeSentence "")
  = sanitizeProjectName otherClock (generateConciseProjectName purposeSentence "clients")
  /\ projectNameSynthesizer sampleClock purposeSentence ""
     = projectNameSynthesizer otherClock purposeSentence "clients"
  /\ projectNameSynthesizer sampleClock purposeSentence ""
     = sanitizeChain (generateConciseProjectName purposeSentence "").
Proof.
  apply (synthesized_name_deterministic purposeSentence "" "clients" sampleClock otherClock).
  vm_compute. discriminate.
Defined.

(** ** The full-report scenario *)




(** ** The classifier *)

Ltac first_keyword :=
  match goal with
  | |- context [Str.includes ?kw ?l] =>
      destruct (Str.includes kw l); cbn [orb find existsb snd fst negb andb];
      try reflexivity
  end.

Lemma inferBusinessType_table : forall text,
  inferBusinessType text = classifyByTable text.
Proof.
  intros text. unfold inferBusinessType, classifyByTable, firstMatch, categoryTable.
  generalize (Str.toLowerCase text) as l. intros l.
  cbn [orb find existsb snd fst].
  repeat first_keyword.
Qed.

Lemma firstMatch_in : forall table text,
  In (firstMatch table text) (List.map fst table ++ ["general"])%list.
Proof.
  intros table text. unfold firstMatch.
  destruct (find _ table) as [row|] eqn:E.
  - apply find_some in E as [Hin _]. apply in_or_app. left. now apply in_map.
  - apply in_or_app. right. now left.
Qed.

(** C4.  On every input, the empty string included, the classifier returns
    one of the eight categories; it is the first category, in the order
    technology, consulting, creative, healthcare, education, restaurant,
    retail, one of whose keywords occurs in the lower-cased input, and
    [general] when there is none; on the empty string it is [general]. *)
Theorem inferBusinessType_total : forall text,
  In (inferBusinessType text) categories
  /\ categories = [ "technology"; "consulting"; "creative"; "healthcare";
                    "education"; "restaurant"; "retail"; "general" ]
  /\ inferBusinessType text = firstMatch categoryTable (Str.toLowerCase text)
  /\ (find (fun row => existsb (fun kw => Str.includes kw (Str.toLowerCase text)) (snd row))
           categoryTable = None -> inferBusinessType text = "general")
  /\ inferBusinessType "" = "general".
Proof.
  intros text. rewrite inferBusinessType_table. unfold classifyByTable.
  repeat split.
  - apply firstMatch_in.
  - intros H. unfold firstMatch. now rewrite H.
Qed.

(** ** The pattern of an explicit name *)

Lemma star_flagFree : forall p k, flagFree k -> flagFree (fun b s => star p b s k).
Proof.
  intros p k Hk b1 b2 [|c s]; simpl; [apply Hk|].
  now rewrite (Hk b1 b2).
Qed.

Lemma run_flagFree : forall r,
  bosFree r = true -> forall k, flagFree k -> flagFree (fun b s => run r b s k).
Proof.
  induction r as [| | |p|r1 IH1 r2 IH2|r1 IH1 r2 IH2|p]; intros Hr k Hk b1 b2 s;
    simpl in *; try discriminate.
  - apply Hk.
  - destruct s; [apply Hk | reflexivity].
  - reflexivity.
  - apply andb_true_iff in Hr as [H1 H2].
    apply (IH1 H1 (fun b s' => run r2 b s' k)). now apply IH2.
  - apply andb_true_iff in Hr as [H1 H2].
    now rewrite (IH1 H1 k Hk b1 b2 s), (IH2 H2 k Hk b1 b2 s).
  - now apply star_flagFree.
Qed.

Lemma star_none_equiv : forall p (k1 k2 : cont),
  (forall b s, k1 b s = None <-> k2 b s = None) ->
  forall s b, star p b s k1 = None <-> star p b s k2 = None.
Proof.
  intros p k1 k2 Hk. induction s as [|c s IH]; intros b; simpl; [apply Hk|].
  destruct (p c); [|apply Hk].
  specialize (IH false). specialize (Hk b (String c s)).
  destruct (star p false s k1), (star p false s k2), (k1 b (String c s)),
    (k2 b (String c s)); intuition congruence.
Qed.

Lemma run_none_equiv : forall r (k1 k2 : cont),
  (forall b s, k1 b s = None <-> k2 b s = None) ->
  forall b s, run r b s k1 = None <-> run r b s k2 = None.
Proof.
  induction r as [| | |p|r1 IH1 r2 IH2|r1 IH1 r2 IH2|p]; intros k1 k2 Hk b s; simpl.
  - apply Hk.
  - destruct b; [apply Hk | tauto].
  - destruct s; [apply Hk | tauto].
  - destruct s as [|c s]; [tauto|]. destruct (p c); [apply Hk | tauto].
  - apply IH1. intros b' s'. now apply IH2.
  - specialize (IH1 k1 k2 Hk b s). specialize (IH2 k1 k2 Hk b s).
    destruct (run r1 b s k1), (run r1 b s k2), (run r2 b s k1), (run r2 b s k2);
      intuition congruence.
  - now apply star_none_equiv.
Qed.

Lemma exec_none_everywhere : forall r,
  bosFree r = true ->
  forall pre s b rest b',
    exec r b s = None -> s = pre ++ rest -> matchAt r b' rest = None.
Proof.
  intros r Hr. induction pre as [|c pre IH]; intros s b rest b' H E.
  - simpl in E. subst s. rewrite exec_unfold in H.
    destruct (matchAt r b rest) eqn:Hm; [discriminate|].
    unfold matchAt in *.
    rewrite (run_flagFree r Hr (fun _ rest0 => Some rest0) (fun _ _ _ => eq_refl) b' b).
    exact Hm.
  - simpl in E. subst s. rewrite exec_unfold in H.
    destruct (matchAt r b (String c (pre ++ rest))); [discriminate|].
    destruct (exec r false (pre ++ rest)) as [[? ? ?]|] eqn:He; [discriminate|].
    now apply (IH _ false rest b' He).
Qed.

Lemma toLower_canonical : forall c,
  ascii7 (Char.toLower c) = true ->
  Char.canonical c = Char.canonical (Char.toLower c).
Proof. intros c. each_unit c. Qed.

Lemma toLower_space : forall c, Char.space (Char.toLower c) = Char.space c.
Proof. intros c. each_unit c. Qed.

Lemma toLowerCase_canonical : forall s,
  Str.all ascii7 (Str.toLowerCase s) = true ->
  Str.map Char.canonical s = Str.map Char.canonical (Str.toLowerCase s).
Proof.
  induction s as [|c s IH]; simpl; intros H; [reflexivity|].
  apply andb_true_iff in H as [Hc Hs].
  now rewrite (toLower_canonical c Hc), IH.
Qed.

Lemma run_LitI_reads : forall pat l rest b (k : cont),
  flagFree k ->
  Str.map Char.canonical l = Str.map Char.canonical pat ->
  run (LitI pat) b (l ++ rest) k = k false rest.
Proof.
  induction pat as [|x pat IH]; intros l rest b k Hk H.
  - destruct l; [|discriminate]. simpl. apply Hk.
  - destruct l as [|c l]; [discriminate|]. simpl in H. injection H as Hc Hl.
    simpl. rewrite Hc, Ascii.eqb_refl. now apply IH.
Qed.

Lemma toLowerCase_append : forall a b,
  Str.toLowerCase (a ++ b) = Str.toLowerCase a ++ Str.toLowerCase b.
Proof.
  unfold Str.toLowerCase. induction a as [|c a IH]; intros b; simpl;
    [reflexivity | now rewrite IH].
Qed.

Lemma toLowerCase_length : forall s, String.length (Str.toLowerCase s) = String.length s.
Proof. unfold Str.toLowerCase. induction s; simpl; auto. Qed.

Lemma startsWith_append : forall l rest, Str.startsWith l (l ++ rest) = true.
Proof.
  induction l as [|c l IH]; intros rest; simpl; [reflexivity|].
  now rewrite Ascii.eqb_refl, IH.
Qed.

Lemma includes_middle : forall l a b, Str.includes l (a ++ l ++ b) = true.
Proof.
  intros l. induction a as [|c a IH]; intros b.
  - simpl. destruct (l ++ b) eqn:E; simpl; rewrite <- E, startsWith_append; reflexivity.
  - cbn [append Str.includes]. rewrite IH. apply orb_true_r.
Qed.

(** Splitting a string whose lower-case form is known. *)
Lemma toLowerCase_split : forall l x y,
  Str.toLowerCase l = x ++ y ->
  exists l1 l2, l = l1 ++ l2 /\ Str.toLowerCase l1 = x /\ Str.toLowerCase l2 = y.
Proof.
  intros l x. revert l. induction x as [|c x IH]; intros l y H.
  - exists "", l. auto.
  - destruct l as [|d l]; [discriminate|]. simpl in H. injection H as Hd Hl.
    destruct (IH l y Hl) as [l1 [l2 [-> [H1 H2]]]].
    exists (String d l1), l2. simpl. unfold Str.toLowerCase in *. simpl.
    now rewrite Hd, H1.
Qed.

Lemma star_stops : forall p s b k, headIn p s = false -> star p b s k = k b s.
Proof. intros p [|c s] b k H; simpl in *; [reflexivity | now rewrite H]. Qed.

Lemma afterNameLabel_flagFree : flagFree afterNameLabel.
Proof. apply star_flagFree. intros ? ? ?. reflexivity. Qed.

Lemma name_label_reads : forall l b,
  In (Str.toLowerCase l) nameLabels ->
  run reNameLabel false (l ++ b) afterNameLabel = Some (Str.trimStart b).
Proof.
  intros l b Hin.
  pose proof afterNameLabel_flagFree as Hfree.
  assert (Hword : exists w, (w = "project" \/ w = "website")
                            /\ Str.toLowerCase l = w ++ " " ++ "name:").
  { destruct Hin as [H | [H | []]]; [exists "project" | exists "website"]; auto. }
  destruct Hword as [w [Hw Hl]].
  destruct (toLowerCase_split l _ _ Hl) as [l1 [l' [-> [H1 H']]]].
  destruct (toLowerCase_split l' _ _ H') as [sp [l2 [-> [Hsp H2]]]].
  assert (E1 : Str.map Char.canonical l1 = Str.map Char.canonical w).
  { rewrite toLowerCase_canonical; rewrite H1; [reflexivity|].
    destruct Hw; subst w; reflexivity. }
  assert (E2 : Str.map Char.canonical l2 = Str.map Char.canonical "name:").
  { rewrite toLowerCase_canonical; rewrite H2; reflexivity. }
  assert (Esp : sp = " ").
  { destruct sp as [|c [|? ?]]; try discriminate.
    assert (Hc : Char.toLower c = " "%char) by (now injection Hsp).
    f_equal. revert Hc. each_unit c. }
  subst sp.
  assert (Hn : headIn Char.space (l2 ++ b) = false).
  { destruct l2 as [|c l2]; [discriminate|].
    assert (Hc : Char.toLower c = "n"%char) by (now injection H2).
    simpl. rewrite <- toLower_space, Hc. reflexivity. }
  set (kName := fun (f : bool) (s : string) => run (LitI "name:") f s afterNameLabel).
  set (kSpace := fun (f : bool) (s : string) => run (Plus Char.space) f s kName).
  assert (HkName : flagFree kName).
  { apply (run_flagFree (LitI "name:")); [reflexivity | assumption]. }
  assert (HkSpace : flagFree kSpace).
  { apply (run_flagFree (Plus Char.space)); [reflexivity | assumption]. }
  assert (Hrest : kSpace false (" " ++ l2 ++ b) = Some (Str.trimStart b)).
  { unfold kSpace. simpl. rewrite star_stops by assumption.
    unfold kName. rewrite run_LitI_reads by assumption.
    unfold afterNameLabel. apply star_final. }
  rewrite !append_assoc.
  change (run reNameLabel false (l1 ++ " " ++ l2 ++ b) afterNameLabel)
    with (match run (LitI "project") false (l1 ++ " " ++ l2 ++ b) kSpace with
          | Some x => Some x
          | None => run (LitI "website") false (l1 ++ " " ++ l2 ++ b) kSpace
          end).
  destruct Hw; subst w.
  - rewrite run_LitI_reads by assumption. now rewrite Hrest.
  - replace (run (LitI "project") false (l1 ++ " " ++ l2 ++ b) kSpace) with (@None string).
    + rewrite run_LitI_reads by assumption. exact Hrest.
    + destruct l1 as [|c l1]; [discriminate|].
      assert (Hc : Char.canonical c = "W"%char) by (now injection E1).
      simpl. now rewrite Hc.
Qed.

Lemma name_label_absent : forall s,
  RegExp.test reNameLabel s = false ->
  failsWithin (fun b rest => run reNameLabel b rest afterNameLabel) s.
Proof.
  intros s H pre rest f E. unfold RegExp.test in H.
  destruct (exec reNameLabel true s) eqn:He; [discriminate|].
  pose proof (exec_none_everywhere reNameLabel eq_refl pre s true rest f He E) as Hm.
  unfold matchAt in Hm.
  assert (Hk : forall (b0 : bool) (s0 : string),
             (fun (_ : bool) (rest0 : string) => Some rest0) b0 s0 = None
             <-> afterNameLabel b0 s0 = None).
  { intros b0 s0. unfold afterNameLabel. rewrite star_final. split; discriminate. }
  exact (proj1 (run_none_equiv reNameLabel _ afterNameLabel Hk f rest) Hm).
Qed.

(** The explicit name of a line: on a line with no carriage return before
    the label and no further match of the label pattern after it, what
    follows the label, trimmed. *)
Lemma explicitName_follows : forall a l b,
  Str.all Char.dot a = true ->
  In (Str.toLowerCase l) nameLabels ->
  RegExp.test reNameLabel (tail (l ++ b)) = false ->
  explicitName (a ++ l ++ b) = Str.trim b.
Proof.
  intros a l b Ha Hl Hlater.
  set (k := fun (f : bool) (rest : string) => run reNameLabel f rest afterNameLabel).
  assert (Hk : flagFree k).
  { apply (run_flagFree reNameLabel); [reflexivity | apply afterNameLabel_flagFree]. }
  assert (Hhere : k false (l ++ b) = Some (Str.trimStart b))
    by now apply name_label_reads.
  unfold explicitName, replace. rewrite exec_unfold. unfold matchAt.
  change (run reName true (a ++ l ++ b) (fun _ rest => Some rest))
    with (star Char.dot true (a ++ l ++ b) k).
  rewrite star_reaches; try assumption.
  - rewrite Hhere. simpl. apply trim_trimStart.
  - now apply name_label_absent.
  - congruence.
Qed.

Lemma hasNameLabel_middle : forall a l b,
  In (Str.toLowerCase l) nameLabels -> hasNameLabel (a ++ l ++ b) = true.
Proof.
  intros a l b Hin. unfold hasNameLabel. rewrite !toLowerCase_append.
  destruct Hin as [H | [H | []]]; rewrite <- H, includes_middle;
    [reflexivity | apply orb_true_r].
Qed.

(** ** An explicit name wins *)

Lemma chooseName_explicit : forall t v,
  v_projectName v <> "" -> chooseName t v = v_projectName v.
Proof.
  intros t v H. apply truthy_true in H. unfold chooseName. cbn zeta.
  rewrite H. cbn [negb andb]. now rewrite H.
Qed.

(** Where the stage does read the name as written.  For a report the stage
    accepts: the last line that carries one of the two name labels
    (matched without regard to case) and whose explicit name is not empty
    gives the project name, sanitized, whatever the purpose is; the
    synthesizer and the dated fallback are reached only when no line gives
    such a name.  The explicit name of a line is what follows the label,
    trimmed, when every code unit before the label is one the [.] of the
    pattern matches (no line terminator stands before the label) and the
    label pattern matches nowhere after it. *)
Lemma explicit_name_wins : forall t report,
  (forall before line after,
      Str.split "010" report = (before ++ line :: after)%list ->
      hasNameLabel (Str.trim line) = true ->
      explicitName (Str.trim line) <> "" ->
      (forall l, In l after ->
         hasNameLabel (Str.trim l) && Str.truthy (explicitName (Str.trim l)) = false) ->
      exists out,
        parseRequirements t report = Return out
        /\ parsed_projectName out = sanitizeProjectName t (explicitName (Str.trim line)))
  /\ (blank report = false ->
      (forall l, In l (Str.split "010" report) ->
         hasNameLabel (Str.trim l) && Str.truthy (explicitName (Str.trim l)) = false) ->
      exists out,
        parseRequirements t report = Return out
        /\ parsed_projectName out
           = projectNameSynthesizer t (lastValue "Main purpose/goal:" (linesOf report))
                                      (lastValue "Target audience:" (linesOf report)))
  /\ (forall a l b,
        Str.all Char.dot a = true ->
        In (Str.toLowerCase l) nameLabels ->
        RegExp.test reNameLabel (tail (l ++ b)) = false ->
        hasNameLabel (a ++ l ++ b) = true /\ explicitName (a ++ l ++ b) = Str.trim b).
Proof.
  intros t report. split; [|split].
  - intros before line after Hsplit Hlabel Hname Hafter.
    assert (E : lastExplicitName (linesOf report) = explicitName (Str.trim line)).
    { unfold lastExplicitName, linesOf. rewrite Hsplit, map_app. cbn [List.map].
      rewrite (lastLine_last _ _ (Str.trim line)); [reflexivity | |].
      - apply truthy_true in Hname. now rewrite Hlabel, Hname.
      - intros x Hx. apply in_map_iff in Hx as [l [<- Hl]]. now apply Hafter. }
    assert (Hb : blank report = false).
    { destruct (blank report) eqn:Hblank; [|reflexivity].
      assert (Hin : In (Str.trim line) (linesOf report)).
      { unfold linesOf. rewrite Hsplit. apply in_map, in_or_app. right. now left. }
      apply (blank_lines report _ Hblank) in Hin. rewrite Hin in Hname.
      now contradiction Hname. }
    eexists. rewrite parseRequirements_result, Hb. split; [reflexivity|].
    cbn [parsed_projectName].
    rewrite chooseName_explicit; unfold fieldsOf; cbn [v_projectName]; now rewrite E.
  - intros Hb Hnone.
    assert (E : lastExplicitName (linesOf report) = "").
    { unfold lastExplicitName, linesOf. rewrite lastLine_none; [reflexivity|].
      intros x Hx. apply in_map_iff in Hx as [l [<- Hl]]. now apply Hnone. }
    eexists. rewrite parseRequirements_result, Hb. split; [reflexivity|].
    cbn [parsed_projectName]. unfold fieldsOf. rewrite E. reflexivity.
  - intros a l b Ha Hl Hlater. split.
    + now apply hasNameLabel_middle.
    + now apply explicitName_follows.
Qed.

Lemma explicit_name_wins_witness :
  exists out,
    parseRequirements sampleClock
      ("Main purpose/goal: a shop" ++ LF ++ "Project Name:  My Cool Site" ++ LF ++ "bye")
    = Return out
    /\ parsed_projectName out = sanitizeProjectName sampleClock "My Cool Site".
Proof.
  refine (proj1 (explicit_name_wins sampleClock
              ("Main purpose/goal: a shop" ++ LF ++ "Project Name:  My Cool Site" ++ LF ++ "bye"))
            ["Main purpose/goal: a shop"] "Project Name:  My Cool Site" ["bye"]
            eq_refl eq_refl _ _).
  - vm_compute. discriminate.
  - intros l [<- | []]. vm_compute. reflexivity.
Defined.

(** C10.  On a line with a line terminator before the name label the
    stage does not name the project after the text that follows the label.
    The line [x<CR>Project name: y] contains [project name:] followed by
    the text [y], and [y] sanitized is [y].  The pattern is written to
    strip everything up to and including the label, but its [.*] stops at
    the carriage return (as it does at U+2028 and U+2029): only the label
    is removed, the text [x] before it stays in the name, and the project
    is named [x-y], not [y]. *)
Theorem explicit_name_line_terminator :
  let line := "x" ++ CR ++ "Project name: y" in
  hasNameLabel (Str.trim line) = true
  /\ Str.includes "project name: y" (Str.toLowerCase line) = true
  /\ explicitName (Str.trim line) = "x" ++ CR ++ "y"
  /\ sanitizeProjectName sampleClock "y" = "y"
  /\ exists out,
       parseRequirements sampleClock line = Return out
       /\ parsed_projectName out = "x-y"
       /\ parsed_projectName out <> sanitizeProjectName sampleClock "y".
Proof.
  cbv zeta. split; [vm_compute; reflexivity|]. split; [vm_compute; reflexivity|].
  split; [vm_compute; reflexivity|]. split; [vm_compute; reflexivity|].
  eexists. split; [vm_compute; reflexivity|].
  split; [reflexivity | vm_compute; discriminate].
Qed.

(** A second name label later on the line takes the match: the name read is
    what follows the last one, here nothing, and the line names no project. *)
Example later_label_takes_the_match :
  hasNameLabel ("Project name: foo website" ++ TAB ++ "name:") = true
  /\ explicitName ("Project name: foo website" ++ TAB ++ "name:") = ""
  /\ (exists out,
        parseRequirements sampleClock ("Project name: foo website" ++ TAB ++ "name:")
        = Return out
        /\ parsed_projectName out = "website-20261101").
Proof.
  split; [|split]; [vm_compute; reflexivity ..|].
  eexists. split; vm_compute; reflexivity.
Qed.

(** ** Stage gating *)

Lemma bind_throws : forall (A B : Type) (m : M A) (k : A -> M B) tr tr' e,
  m tr = (tr', Throw e) -> bind m k tr = (tr', Throw e).
Proof. intros A B m k tr tr' e H. unfold bind. now rewrite H. Qed.

Lemma rethrowing_throw : forall (A : Type) label e tr,
  rethrowing (A := A) label (throw e) tr
  = ((tr ++ [LogError (label ++ " " ++ e)])%list, Throw e).
Proof. reflexivity. Qed.

(** The workflow is the parse stage followed by the rest of the chain; a
    blank report ends it before any request. *)
Lemma workflow_chain : forall w tpl report,
  webBuilderWorkflow w tpl report
  = (parsed <- parseStage w report ;; fromRepository w tpl parsed).
Proof. reflexivity. Qed.

Lemma workflow_rejects_blank : forall w tpl report tr,
  blank report = true ->
  webBuilderWorkflow w tpl report tr
  = ((tr ++ [LogError ("Error parsing requirements: " ++ requirementsMissing)])%list,
     Throw requirementsMissing).
Proof.
  intros w tpl report tr Hb. rewrite workflow_chain. apply bind_throws.
  unfold parseStage. rewrite parseRequirements_result, Hb. apply rethrowing_throw.
Qed.

Lemma writes_snoc_error : forall tr msg,
  writes (tr ++ [LogError msg]) = writes tr.
Proof.
  intros tr msg. unfold writes. rewrite filter_app. simpl. apply app_nil_r.
Qed.

Lemma createRepository_gate : forall w input tr,
  falsy (parsed_success input) = true ->
  exists e,
    createRepository w input tr
    = ((tr ++ [LogError ("Error creating repository: " ++ e)])%list, Throw e).
Proof.
  intros w input tr H. unfold createRepository. rewrite H.
  destruct (negb (Str.truthy (parsed_projectName input))
            || String.eqb (Str.trim (parsed_projectName input)) "").
  - exists "Project name is required but was not provided or is empty".
    apply rethrowing_throw.
  - exists "Requirements parsing failed, cannot create repository".
    apply rethrowing_throw.
Qed.

Lemma initializeFramework_gate : forall w tpl input tr,
  falsy (repo_success input) = true ->
  initializeFramework w tpl input tr
  = ((tr ++ [LogError ("Error initializing framework: "
                         ++ "Repository creation failed, cannot initialize framework")])%list,
     Throw "Repository creation failed, cannot initialize framework").
Proof.
  intros w tpl input tr H. unfold initializeFramework. rewrite H. apply rethrowing_throw.
Qed.

Lemma generateWebsiteStructure_gate : forall w tpl input tr,
  falsy (fw_success input) || falsy (fw_frameworkInitialized input) = true ->
  generateWebsiteStructure w tpl input tr
  = ((tr ++ [LogError ("Error generating website structure: "
                         ++ "Framework initialization failed, cannot generate website")])%list,
     Throw "Framework initialization failed, cannot generate website").
Proof.
  intros w tpl input tr H. unfold generateWebsiteStructure. rewrite H.
  apply rethrowing_throw.
Qed.

Lemma generateWebsiteContent_gate : forall w tpl input tr,
  falsy (st_success input) || falsy (st_websiteGenerated input) = true ->
  generateWebsiteContent w tpl input tr
  = ((tr ++ [LogError ("Error generating website content: "
                         ++ "Website generation failed, cannot generate content")])%list,
     Throw "Website generation failed, cannot generate content").
Proof.
  intros w tpl input tr H. unfold generateWebsiteContent. rewrite H.
  apply rethrowing_throw.
Qed.

Lemma finalizeWebsite_gate : forall w tpl input tr,
  falsy (ct_success input) || falsy (ct_contentGenerated input)
    || falsy (ct_stylingCompleted input) = true ->
  finalizeWebsite w tpl input tr
  = ((tr ++ [LogError ("Error finalizing website: "
                         ++ "Previous steps failed, cannot finalize website")])%list,
     Throw "Previous steps failed, cannot finalize website").
Proof.
  intros w tpl input tr H. unfold finalizeWebsite. rewrite H. apply rethrowing_throw.
Qed.

(** C2.  A stage entered with one of its prerequisite flags false or
    absent throws at once: all it adds to the trace is the line on the
    error console, so it has attempted no remote write, and the rest of the
    chain from that stage on ends with the same error and the same trace. *)
Theorem stage_gating :
  forall w tpl tr (parsed : Parsed) (repo : Repo) (framework : Framework)
         (structure : Structure) (content : Content),
  falsy (parsed_success parsed) = true ->
  falsy (repo_success repo) = true ->
  falsy (fw_success framework) || falsy (fw_frameworkInitialized framework) = true ->
  falsy (st_success structure) || falsy (st_websiteGenerated structure) = true ->
  falsy (ct_success content) || falsy (ct_contentGenerated content)
    || falsy (ct_stylingCompleted content) = true ->
  (exists e line,
      createRepository w parsed tr = ((tr ++ [LogError line])%list, Throw e)
      /\ fromRepository w tpl parsed tr = ((tr ++ [LogError line])%list, Throw e))
  /\ (exists e line,
      initializeFramework w tpl repo tr = ((tr ++ [LogError line])%list, Throw e)
      /\ fromFramework w tpl repo tr = ((tr ++ [LogError line])%list, Throw e))
  /\ (exists e line,
      generateWebsiteStructure w tpl framework tr = ((tr ++ [LogError line])%list, Throw e)
      /\ fromStructure w tpl framework tr = ((tr ++ [LogError line])%list, Throw e))
  /\ (exists e line,
      generateWebsiteContent w tpl structure tr = ((tr ++ [LogError line])%list, Throw e)
      /\ fromContent w tpl structure tr = ((tr ++ [LogError line])%list, Throw e))
  /\ (exists e line,
      finalizeWebsite w tpl content tr = ((tr ++ [LogError line])%list, Throw e)
      /\ fromFinalize w tpl content tr = ((tr ++ [LogError line])%list, Throw e))
  /\ (forall line, writes (tr ++ [LogError line]) = writes tr
                   /\ requestCount (tr ++ [LogError line]) = requestCount tr).
Proof.
  intros w tpl tr parsed repo framework structure content H1 H2 H3 H4 H5.
  repeat split.
  - destruct (createRepository_gate w parsed tr H1) as [e He].
    exists e. eexists. split; [exact He|].
    unfold fromRepository. apply bind_throws. exact He.
  - do 2 eexists. split; [now apply initializeFramework_gate|].
    unfold fromFramework. apply bind_throws. now apply initializeFramework_gate.
  - do 2 eexists. split; [now apply generateWebsiteStructure_gate|].
    unfold fromStructure. apply bind_throws. now apply generateWebsiteStructure_gate.
  - do 2 eexists. split; [now apply generateWebsiteContent_gate|].
    unfold fromContent. apply bind_throws. now apply generateWebsiteContent_gate.
  - do 2 eexists. split; [now apply finalizeWebsite_gate|].
    unfold fromFinalize. now apply finalizeWebsite_gate.
  - apply writes_snoc_error.
  - unfold requestCount. rewrite filter_app, length_app. simpl. lia.
Qed.

Lemma stage_gating_witness :
  (exists e line,
      createRepository sampleWorld (sampleParsed None) []
      = (([] ++ [LogError line])%list, Throw e)
      /\ fromRepository sampleWorld sampleTemplates (sampleParsed None) []
         = (([] ++ [LogError line])%list, Throw e))
  /\ (exists e line,
      finalizeWebsite sampleWorld sampleTemplates
        (sampleContent (Some true) (Some false) (Some true)) []
      = (([] ++ [LogError line])%list, Throw e)
      /\ fromFinalize sampleWorld sampleTemplates
           (sampleContent (Some true) (Some false) (Some true)) []
         = (([] ++ [LogError line])%list, Throw e)).
Proof.
  pose proof (stage_gating sampleWorld sampleTemplates []
                (sampleParsed None) (sampleRepo (Some false))
                (sampleFramework None (Some true)) (sampleStructure (Some true) None)
                (sampleContent (Some true) (Some false) (Some true))
                eq_refl eq_refl eq_refl eq_refl eq_refl) as H.
  split; [exact (proj1 H) | exact (proj1 (proj2 (proj2 (proj2 (proj2 H)))))].
Defined.

(** ** Traces *)

Lemma requestCount_request : forall tr m u c s,
  requestCount (tr ++ [Request m u c s]) = S (requestCount tr).
Proof.
  intros. unfold requestCount. rewrite filter_app, length_app. simpl. lia.
Qed.

Lemma requestCount_log : forall tr msg, requestCount (tr ++ [Log msg]) = requestCount tr.
Proof.
  intros. unfold requestCount. rewrite filter_app, length_app. simpl. lia.
Qed.

Lemma requestCount_error : forall tr msg,
  requestCount (tr ++ [LogError msg]) = requestCount tr.
Proof.
  intros. unfold requestCount. rewrite filter_app, length_app. simpl. lia.
Qed.

Lemma urlsOf_app : forall m a b, urlsOf m (a ++ b) = (urlsOf m a ++ urlsOf m b)%list.
Proof. intros. unfold urlsOf. apply flat_map_app. Qed.

Create Rewrite HintDb trace.
#[local] Hint Rewrite requestCount_request requestCount_log requestCount_error
  urlsOf_app app_nil_r : trace.

(** ** The scaffolding loop stops at the first failed write *)

Lemma fetch_run : forall w m url c s tr,
  fetch w m url c s tr
  = ((tr ++ [Request m url c s])%list,
     match http w (requestCount tr) with
     | Rejected => Throw "fetch failed"
     | Responded r => Return r
     end).
Proof. reflexivity. Qed.

Lemma putEach_stops : forall w name files tr k r,
  k < List.length files ->
  (forall i, i < k -> okAt w (requestCount tr + i) = true) ->
  http w (requestCount tr + k) = Responded r -> ok r = false ->
  exists e tr',
    putEach w name files tr = (tr', Throw e)
    /\ urlsOf PUT tr' = (urlsOf PUT tr ++ List.map (frameworkUrl name) (firstn (S k) files))%list
    /\ requestCount tr' = requestCount tr + S k.
Proof.
  intros w name. induction files as [|file rest IH]; intros tr k r Hk Hok Hr Hfail.
  - simpl in Hk. lia.
  - cbn [putEach]. unfold bind at 1. rewrite fetch_run.
    destruct k as [|k].
    + rewrite Nat.add_0_r in Hr. rewrite Hr. unfold bind. rewrite Hfail. cbn [negb].
      unfold json. destruct (body r) as [j|]; eexists; eexists;
        (split; [reflexivity|]); autorewrite with trace; split; try reflexivity; lia.
    + pose proof (Hok 0 (Nat.lt_0_succ k)) as H0. rewrite Nat.add_0_r in H0.
      unfold okAt in H0. destruct (http w (requestCount tr)) as [|r0]; [discriminate|].
      unfold bind at 1. rewrite H0. cbn [negb]. unfold ret at 1.
      destruct (IH (tr ++ [Request PUT (frameworkUrl name file) (Some (content file)) None])%list
                   k r) as [e [tr' [Hrun [Hurls Hcount]]]].
      * simpl in Hk. lia.
      * intros i Hi. rewrite requestCount_request.
        replace (S (requestCount tr) + i) with (requestCount tr + S i) by lia.
        apply Hok. lia.
      * rewrite requestCount_request.
        now replace (S (requestCount tr) + k) with (requestCount tr + S k) by lia.
      * assumption.
      * exists e, tr'. split; [exact Hrun|]. rewrite Hurls, Hcount.
        autorewrite with trace. split; [|lia].
        rewrite <- app_assoc. reflexivity.
Qed.


(** ** The later loops go on after a failed write *)

Lemma createEach_cons : forall w base file rest acc,
  createEach w base (file :: rest) acc
  = (created <- createOne w base file acc ;; createEach w base rest created).
Proof. reflexivity. Qed.

Lemma includes_path : forall a p b, Str.includes p (a ++ p ++ b) = true.
Proof. intros. apply includes_middle. Qed.

Lemma createOne_runs : forall w base file acc tr,
  exists extra,
    createOne w base file acc tr
    = ((tr ++ extra)%list,
       Return (acc ++ (if okAt w (requestCount tr)
                          && Str.includes "components/" (path file)
                       then [path file] else []))%list)
    /\ urlsOf PUT extra = [fileUrl base file]
    /\ urlsOf GET extra = []
    /\ requestCount (tr ++ extra) = S (requestCount tr)
    /\ (okAt w (requestCount tr) = false ->
        exists line, In (LogError line) extra /\ Str.includes (path file) line = true).
Proof.
  intros w base file acc tr. unfold createOne, tryCatch, bind at 1.
  rewrite fetch_run. unfold okAt.
  destruct (http w (requestCount tr)) as [|r] eqn:Hh.
  - exists [Request PUT (fileUrl base file) (Some (content file)) None;
            LogError ("Error creating file " ++ path file ++ ": " ++ "fetch failed")].
    unfold bind, emit, ret. cbn [andb]. rewrite app_nil_r, <- app_assoc.
    repeat split.
    + unfold requestCount. rewrite filter_app, length_app. simpl. lia.
    + intros _. eexists. split; [right; left; reflexivity|].
      apply (includes_path "Error creating file ").
  - destruct (ok r) eqn:Hok.
    + exists [Request PUT (fileUrl base file) (Some (content file)) None;
              Log ("Created file: " ++ path file)].
      unfold bind, emit, ret. cbn [andb]. rewrite <- app_assoc.
      repeat split.
      * destruct (Str.includes "components/" (path file));
          [reflexivity | now rewrite app_nil_r].
      * unfold requestCount. rewrite filter_app, length_app. simpl. lia.
      * discriminate.
    + unfold json. destruct (body r) as [j|].
      * exists [Request PUT (fileUrl base file) (Some (content file)) None;
                LogError ("Failed to create " ++ path file ++ ":")].
        unfold bind, emit, ret. cbn [andb]. rewrite app_nil_r, <- app_assoc.
        repeat split.
        -- unfold requestCount. rewrite filter_app, length_app. simpl. lia.
        -- intros _. eexists. split; [right; left; reflexivity|].
           apply (includes_path "Failed to create ").
      * exists [Request PUT (fileUrl base file) (Some (content file)) None;
                LogError ("Error creating file " ++ path file ++ ": "
                            ++ "Unexpected end of JSON input")].
        unfold bind, throw, emit, ret. cbn [andb]. rewrite app_nil_r, <- app_assoc.
        repeat split.
        -- unfold requestCount. rewrite filter_app, length_app. simpl. lia.
        -- intros _. eexists. split; [right; left; reflexivity|].
           apply (includes_path "Error creating file ").
Qed.

Lemma createEach_runs : forall w base files acc tr,
  exists extra,
    createEach w base files acc tr
    = ((tr ++ extra)%list, Return (acc ++ createdFrom w (requestCount tr) files)%list)
    /\ urlsOf PUT extra = List.map (fileUrl base) files
    /\ urlsOf GET extra = []
    /\ requestCount (tr ++ extra) = requestCount tr + List.length files
    /\ (forall i file,
          nth_error files i = Some file -> okAt w (requestCount tr + i) = false ->
          exists line, In (LogError line) extra /\ Str.includes (path file) line = true).
Proof.
  intros w base. induction files as [|file rest IH]; intros acc tr.
  - exists []. simpl. rewrite !app_nil_r. repeat split; auto.
    intros [|i] file H; discriminate.
  - rewrite createEach_cons.
    destruct (createOne_runs w base file acc tr) as [first [H1 [H2 [H3 [H4 H5]]]]].
    unfold bind. rewrite H1.
    destruct (IH (acc ++ (if okAt w (requestCount tr)
                             && Str.includes "components/" (path file)
                          then [path file] else []))%list (tr ++ first)%list)
      as [extra [E1 [E2 [E3 [E4 E5]]]]].
    exists (first ++ extra)%list. split; [|repeat split].
    + rewrite E1, H4. cbn [createdFrom]. now rewrite <- !app_assoc.
    + rewrite urlsOf_app, H2, E2. reflexivity.
    + rewrite urlsOf_app, H3, E3. reflexivity.
    + rewrite app_assoc, E4, H4. simpl. lia.
    + intros [|i] file0 Hnth Hfail.
      * injection Hnth as <-. rewrite Nat.add_0_r in Hfail.
        destruct (H5 Hfail) as [line [Hin Hinc]].
        exists line. split; [apply in_or_app; now left | assumption].
      * simpl in Hnth. rewrite H4 in E5.
        replace (requestCount tr + S i) with (S (requestCount tr) + i) in Hfail by lia.
        destruct (E5 i file0 Hnth Hfail) as [line [Hin Hinc]].
        exists line. split; [apply in_or_app; now right | assumption].
Qed.

Lemma updateEach_cons : forall w base file rest,
  updateEach w base (file :: rest)
  = (updateOne w base file ;;; updateEach w base rest).
Proof. reflexivity. Qed.

Lemma finishEach_cons : forall w base file rest,
  finishEach w base (file :: rest)
  = (finishOne w base file ;;; finishEach w base rest).
Proof. reflexivity. Qed.

Ltac trace_facts :=
  repeat split;
  try reflexivity;
  try (unfold requestCount; rewrite filter_app, length_app; simpl; lia);
  try discriminate;
  try (intros; eexists; split;
       [ simpl; tauto
       | first [ apply (includes_path "Failed to update ")
               | apply (includes_path "Error updating file ")
               | apply (includes_path "Failed to create/update ")
               | apply (includes_path "Error creating file ") ] ]).

Ltac settle := cbn; rewrite <- ?app_assoc; eexists; split; [reflexivity | trace_facts].

Lemma updateOne_runs : forall w base file tr,
  exists extra,
    updateOne w base file tr = ((tr ++ extra)%list, Return tt)
    /\ urlsOf GET extra = [fileUrl base file]
    /\ urlsOf PUT extra = (if readFails w (requestCount tr) then [] else [fileUrl base file])
    /\ requestCount (tr ++ extra)
       = requestCount tr + (if readFails w (requestCount tr) then 1 else 2)
    /\ (readFails w (requestCount tr) = false ->
        okAt w (S (requestCount tr)) = false ->
        exists line, In (LogError line) extra /\ Str.includes (path file) line = true).
Proof.
  intros w base file tr.
  unfold updateOne, tryCatch, bind, fetch, json, ret, throw, emit, readFails, okAt.
  rewrite ?requestCount_request.
  destruct (http w (requestCount tr)) as [|r] eqn:Hh; [settle|].
  destruct (ok r) eqn:Hok; [destruct (body r) as [j|] eqn:Hb|]; cbn [andb];
    rewrite ?requestCount_request; try solve [settle].
  - destruct (http w (S (requestCount tr))) as [|r2] eqn:Hh2; [settle|].
    destruct (ok r2) eqn:Hok2; [settle|].
    destruct (body r2) as [j2|] eqn:Hb2; settle.
  - destruct (http w (S (requestCount tr))) as [|r2] eqn:Hh2; [settle|].
    destruct (ok r2) eqn:Hok2; [settle|].
    destruct (body r2) as [j2|] eqn:Hb2; settle.
Qed.

Lemma finishOne_runs : forall w base file tr,
  exists extra,
    finishOne w base file tr = ((tr ++ extra)%list, Return tt)
    /\ urlsOf GET extra = [fileUrl base file]
    /\ urlsOf PUT extra = (if readFails w (requestCount tr) then [] else [fileUrl base file])
    /\ requestCount (tr ++ extra)
       = requestCount tr + (if readFails w (requestCount tr) then 1 else 2)
    /\ (readFails w (requestCount tr) = false ->
        okAt w (S (requestCount tr)) = false ->
        exists line, In (LogError line) extra /\ Str.includes (path file) line = true).
Proof.
  intros w base file tr.
  unfold finishOne, tryCatch, bind, fetch, json, ret, throw, emit, readFails, okAt.
  rewrite ?requestCount_request.
  destruct (http w (requestCount tr)) as [|r] eqn:Hh; [settle|].
  destruct (ok r) eqn:Hok; [destruct (body r) as [j|] eqn:Hb|]; cbn [andb];
    rewrite ?requestCount_request; try solve [settle].
  - destruct (http w (S (requestCount tr))) as [|r2] eqn:Hh2; [settle|].
    destruct (ok r2) eqn:Hok2; [settle|].
    destruct (body r2) as [j2|] eqn:Hb2; settle.
  - destruct (http w (S (requestCount tr))) as [|r2] eqn:Hh2; [settle|].
    destruct (ok r2) eqn:Hok2; [settle|].
    destruct (body r2) as [j2|] eqn:Hb2; settle.
Qed.

Lemma writtenFrom_answered : forall w files n,
  answered w -> writtenFrom w n files = files.
Proof.
  intros w files n Ha. revert n. induction files as [|file rest IH]; intros n;
    [reflexivity|].
  simpl. unfold readFails. destruct (Ha n) as [r [j [Hr Hb]]]. rewrite Hr, Hb.
  rewrite andb_false_r. now rewrite IH.
Qed.

Lemma readFails_answered : forall w n, answered w -> readFails w n = false.
Proof.
  intros w n Ha. unfold readFails. destruct (Ha n) as [r [j [Hr Hb]]].
  rewrite Hr, Hb. apply andb_false_r.
Qed.

(** Both read-then-write loops, through what one round does. *)
Lemma rounds_run : forall w base (one : RemoteFile -> M unit) (each : list RemoteFile -> M unit),
  each [] = ret tt ->
  (forall file rest, each (file :: rest) = (one file ;;; each rest)) ->
  (forall file tr, exists extra,
      one file tr = ((tr ++ extra)%list, Return tt)
      /\ urlsOf GET extra = [fileUrl base file]
      /\ urlsOf PUT extra
         = (if readFails w (requestCount tr) then [] else [fileUrl base file])
      /\ requestCount (tr ++ extra)
         = requestCount tr + (if readFails w (requestCount tr) then 1 else 2)
      /\ (readFails w (requestCount tr) = false ->
          okAt w (S (requestCount tr)) = false ->
          exists line, In (LogError line) extra /\ Str.includes (path file) line = true)) ->
  forall files tr, exists extra,
    each files tr = ((tr ++ extra)%list, Return tt)
    /\ urlsOf GET extra = List.map (fileUrl base) files
    /\ urlsOf PUT extra = List.map (fileUrl base) (writtenFrom w (requestCount tr) files)
    /\ (answered w ->
        requestCount (tr ++ extra) = requestCount tr + 2 * List.length files
        /\ forall i file,
             nth_error files i = Some file ->
             okAt w (requestCount tr + 2 * i + 1) = false ->
             exists line, In (LogError line) extra /\ Str.includes (path file) line = true).
Proof.
  intros w base one each Hnil Hcons Hone.
  induction files as [|file rest IH]; intros tr.
  - exists []. rewrite Hnil. unfold ret. rewrite app_nil_r.
    split; [reflexivity|]. split; [reflexivity|]. split; [reflexivity|].
    intros _. split; [simpl; lia|]. intros [|i] file0 Hnth; discriminate.
  - rewrite Hcons. destruct (Hone file tr) as [first [H1 [H2 [H3 [H4 H5]]]]].
    unfold bind. rewrite H1.
    destruct (IH (tr ++ first)%list) as [extra [E1 [E2 [E3 E4]]]].
    exists (first ++ extra)%list.
    split; [|split; [|split; [|intros Ha; split]]].
    + rewrite E1. now rewrite <- app_assoc.
    + rewrite urlsOf_app, H2, E2. reflexivity.
    + rewrite urlsOf_app, H3, E3, H4. cbn [writtenFrom].
      destruct (readFails w (requestCount tr)); simpl;
        repeat f_equal; lia.
    + destruct (E4 Ha) as [E5 _].
      rewrite app_assoc, E5, H4, (readFails_answered w _ Ha). simpl. lia.
    + destruct (E4 Ha) as [_ E6].
      rewrite H4, (readFails_answered w _ Ha) in E6.
      intros [|i] file0 Hnth Hfail.
      * injection Hnth as <-.
        replace (requestCount tr + 2 * 0 + 1) with (S (requestCount tr)) in Hfail by lia.
        destruct (H5 (readFails_answered w _ Ha) Hfail) as [line [Hin Hinc]].
        exists line. split; [apply in_or_app; now left | assumption].
      * simpl in Hnth.
        replace (requestCount tr + 2 * S i + 1) with (requestCount tr + 2 + 2 * i + 1)
          in Hfail by lia.
        destruct (E6 i file0 Hnth Hfail) as [line [Hin Hinc]].
        exists line. split; [apply in_or_app; now right | assumption].
Qed.

Lemma updateEach_runs : forall w base files tr, exists extra,
  updateEach w base files tr = ((tr ++ extra)%list, Return tt)
  /\ urlsOf GET extra = List.map (fileUrl base) files
  /\ urlsOf PUT extra = List.map (fileUrl base) (writtenFrom w (requestCount tr) files)
  /\ (answered w ->
      requestCount (tr ++ extra) = requestCount tr + 2 * List.length files
      /\ forall i file,
           nth_error files i = Some file ->
           okAt w (requestCount tr + 2 * i + 1) = false ->
           exists line, In (LogError line) extra /\ Str.includes (path file) line = true).
Proof.
  intros w base. apply (rounds_run w base (updateOne w base) (updateEach w base)).
  - reflexivity.
  - apply updateEach_cons.
  - apply updateOne_runs.
Qed.

Lemma finishEach_runs : forall w base files tr, exists extra,
  finishEach w base files tr = ((tr ++ extra)%list, Return tt)
  /\ urlsOf GET extra = List.map (fileUrl base) files
  /\ urlsOf PUT extra = List.map (fileUrl base) (writtenFrom w (requestCount tr) files)
  /\ (answered w ->
      requestCount (tr ++ extra) = requestCount tr + 2 * List.length files
      /\ forall i file,
           nth_error files i = Some file ->
           okAt w (requestCount tr + 2 * i + 1) = false ->
           exists line, In (LogError line) extra /\ Str.includes (path file) line = true).
Proof.
  intros w base. apply (rounds_run w base (finishOne w base) (finishEach w base)).
  - reflexivity.
  - apply finishEach_cons.
  - apply finishOne_runs.
Qed.

(** ** The stages as wholes *)

Lemma bind_returns : forall (A B : Type) (m : M A) (k : A -> M B) tr tr' a,
  m tr = (tr', Return a) -> bind m k tr = k a tr'.
Proof. intros A B m k tr tr' a H. unfold bind. now rewrite H. Qed.

Lemma bind_emit : forall (B : Type) e (k : unit -> M B) tr,
  bind (emit e) k tr = k tt (tr ++ [e])%list.
Proof. reflexivity. Qed.

Lemma rethrowing_returns : forall (A : Type) label (m : M A) tr tr' a,
  m tr = (tr', Return a) -> rethrowing label m tr = (tr', Return a).
Proof. intros A label m tr tr' a H. unfold rethrowing, tryCatch. now rewrite H. Qed.

Lemma rethrowing_throws : forall (A : Type) label (m : M A) tr tr' e,
  m tr = (tr', Throw e) ->
  rethrowing label m tr = ((tr' ++ [LogError (label ++ " " ++ e)])%list, Throw e).
Proof. intros A label m tr tr' e H. unfold rethrowing, tryCatch. now rewrite H. Qed.

(** The agent's text, or the fallback: this part of a stage never throws
    and sends nothing. *)
Lemma askAgent_fallback : forall w announce prompt done (fallback : string) label tr,
  exists extra text,
    tryCatch (askAgent w announce prompt done)
             (fun error => emit (Log (label ++ error)) ;;; ret fallback) tr
    = ((tr ++ extra)%list, Return text)
    /\ filter isRequest extra = []
    /\ (agentFails w prompt = true ->
        text = fallback /\ exists error, In (Log (label ++ error)) extra)
    /\ (agentFails w prompt = false -> generate w prompt = Some text).
Proof.
  intros w announce prompt done fallback label tr.
  unfold askAgent, agentFails, tryCatch.
  destruct (agentLoads w); cbn [negb orb].
  - rewrite bind_emit. destruct (generate w prompt) as [text|].
    + exists [Log announce; Log done], text.
      rewrite bind_emit. unfold ret. rewrite <- app_assoc.
      repeat split; try discriminate; auto.
    + exists [Log announce; Log (label ++ "agent call failed")], fallback.
      unfold throw. rewrite bind_emit. unfold ret. rewrite <- app_assoc.
      repeat split; try discriminate.
      exists "agent call failed". right. now left.
  - exists [Log (label ++ "agent module failed to load")], fallback.
    unfold throw. rewrite bind_emit. unfold ret.
    repeat split; try discriminate.
    exists "agent module failed to load". now left.
Qed.

Lemma requestCount_quiet : forall tr extra,
  filter isRequest extra = [] -> requestCount (tr ++ extra) = requestCount tr.
Proof.
  intros tr extra H. unfold requestCount. rewrite filter_app, H, app_nil_r. reflexivity.
Qed.

Lemma urlsOf_quiet : forall m extra, filter isRequest extra = [] -> urlsOf m extra = [].
Proof.
  intros m. induction extra as [|e extra IH]; intros H; [reflexivity|].
  destruct e; simpl in H; try discriminate; simpl; now apply IH.
Qed.

(** The structure stage, past its gate. *)
Lemma generateWebsiteStructure_runs : forall w tpl input tr,
  falsy (fw_success input) || falsy (fw_frameworkInitialized input) = false ->
  let files n := generateWebsiteFiles tpl n (fw_requirements input) (fw_projectName input) in
  let base := baseApiUrl (fw_repositoryUrl input) (fw_repositoryName input) in
  let prompt := render tpl "analysisPrompt" [fw_requirements input] in
  (unset (GITHUB_TOKEN w) = true ->
   exists extra,
     generateWebsiteStructure w tpl input tr
     = ((tr ++ extra)%list, Throw "GITHUB_TOKEN environment variable is required")
     /\ filter isRequest extra = [])
  /\ (unset (GITHUB_TOKEN w) = false ->
      exists extra out,
        generateWebsiteStructure w tpl input tr = ((tr ++ extra)%list, Return out)
        /\ st_success out = Some true
        /\ st_websiteGenerated out = Some true
        /\ urlsOf PUT extra = List.map (fileUrl base) (files "")
        /\ st_componentsCreated out = createdFrom w (requestCount tr) (files "")
        /\ (forall i file,
              nth_error (files "") i = Some file ->
              okAt w (requestCount tr + i) = false ->
              exists line, In (LogError line) extra
                           /\ Str.includes (path file) line = true)
        /\ (agentFails w prompt = true ->
            exists error,
              In (Log ("AI agent not available, using fallback analysis: " ++ error))
                 extra)).
Proof.
  intros w tpl input tr Hgate files base prompt.
  unfold generateWebsiteStructure. rewrite Hgate.
  destruct (askAgent_fallback w
              "Using AI agent to analyze requirements and generate website structure..."
              prompt "AI Analysis completed for website structure"
              (fallbackAnalysis (fw_projectName input) (fw_requirements input))
              "AI agent not available, using fallback analysis: "
              (tr ++ [Log ("Generating website structure for: " ++ fw_projectName input)])%list)
    as [quiet [text [Hask [Hquiet [Hfail _]]]]].
  split; intros Htoken.
  - exists ([Log ("Generating website structure for: " ++ fw_projectName input)]
              ++ quiet
              ++ [LogError ("Error generating website structure:" ++ " "
                              ++ "GITHUB_TOKEN environment variable is required")])%list.
    split.
    + rewrite (rethrowing_throws _ _ _ tr
                 ((tr ++ [Log ("Generating website structure for: "
                                 ++ fw_projectName input)]) ++ quiet)%list
                 "GITHUB_TOKEN environment variable is required").
      * now rewrite <- !app_assoc.
      * rewrite bind_emit. unfold structureAnalysisOf. fold prompt.
        rewrite (bind_returns _ _ _ _ _ _ _ Hask).
        unfold structureWith. now rewrite Htoken.
    + rewrite !filter_app, Hquiet. reflexivity.
  - destruct (createEach_runs w base (files text) []
                ((tr ++ [Log ("Generating website structure for: " ++ fw_projectName input)])
                   ++ quiet)%list) as [extra [E1 [E2 [E3 [E4 E5]]]]].
    assert (Hn : requestCount
                   ((tr ++ [Log ("Generating website structure for: "
                                   ++ fw_projectName input)]) ++ quiet)%list
                 = requestCount tr)
      by (now rewrite (requestCount_quiet _ quiet Hquiet), requestCount_log).
    rewrite Hn in E1, E5. clear E4.
    exists ([Log ("Generating website structure for: " ++ fw_projectName input)]
              ++ quiet ++ extra)%list.
    exists {| st_repositoryUrl := fw_repositoryUrl input;
              st_repositoryName := fw_repositoryName input;
              st_projectName := fw_projectName input;
              st_requirements := fw_requirements input;
              st_websiteGenerated := Some true;
              st_componentsCreated := createdFrom w (requestCount tr) (files text);
              st_success := Some true |}.
    split; [|split; [reflexivity|split; [reflexivity|split;
               [|split; [reflexivity|split]]]]].
    + rewrite (rethrowing_returns _ _ _ tr
                 (((tr ++ [Log ("Generating website structure for: "
                                  ++ fw_projectName input)]) ++ quiet) ++ extra)%list
                 {| st_repositoryUrl := fw_repositoryUrl input;
                    st_repositoryName := fw_repositoryName input;
                    st_projectName := fw_projectName input;
                    st_requirements := fw_requirements input;
                    st_websiteGenerated := Some true;
                    st_componentsCreated := createdFrom w (requestCount tr) (files text);
                    st_success := Some true |}).
      * now rewrite <- !app_assoc.
      * rewrite bind_emit. unfold structureAnalysisOf. fold prompt.
        rewrite (bind_returns _ _ _ _ _ _ _ Hask).
        unfold structureWith. rewrite Htoken.
        fold base. fold (files text).
        now rewrite (bind_returns _ _ _ _ _ _ _ E1).
    + rewrite !urlsOf_app, E2, (urlsOf_quiet PUT quiet Hquiet). reflexivity.
    + intros i file Hnth Hbad. destruct (E5 i file Hnth Hbad) as [line [Hin Hinc]].
      exists line. split; [|assumption].
      apply in_or_app. right. apply in_or_app. now right.
    + intros Hagent. destruct (Hfail Hagent) as [_ [error Hin]].
      exists error. apply in_or_app. right. apply in_or_app. now left.
Qed.

(** The content stage, past its gate. *)
Lemma generateWebsiteContent_runs : forall w tpl input tr,
  falsy (st_success input) || falsy (st_websiteGenerated input) = false ->
  let files text :=
    generateEnhancedComponents tpl text (st_requirements input) (st_projectName input) in
  let base := baseApiUrl (st_repositoryUrl input) (st_repositoryName input) in
  let prompt :=
    render tpl "contentPrompt"
      [st_requirements input;
       let listed := Str.join ", " (st_componentsCreated input) in
       if Str.truthy listed then listed else "basic components"] in
  (unset (GITHUB_TOKEN w) = true ->
   exists extra,
     generateWebsiteContent w tpl input tr
     = ((tr ++ extra)%list, Throw "GITHUB_TOKEN environment variable is required")
     /\ filter isRequest extra = [])
  /\ (unset (GITHUB_TOKEN w) = false ->
      exists extra out text,
        generateWebsiteContent w tpl input tr = ((tr ++ extra)%list, Return out)
        /\ ct_success out = Some true
        /\ ct_contentGenerated out = Some true
        /\ ct_stylingCompleted out = Some true
        /\ urlsOf GET extra = List.map (fileUrl base) (files text)
        /\ urlsOf PUT extra
           = List.map (fileUrl base) (writtenFrom w (requestCount tr) (files text))
        /\ (answered w ->
            forall i file,
              nth_error (files text) i = Some file ->
              okAt w (requestCount tr + 2 * i + 1) = false ->
              exists line, In (LogError line) extra
                           /\ Str.includes (path file) line = true)
        /\ (agentFails w prompt = true ->
            text = fallbackContent (st_projectName input) (st_requirements input)
            /\ exists error,
                 In (Log ("AI agent not available, using fallback content enhancement: "
                            ++ error)) extra)).
Proof.
  intros w tpl input tr Hgate files base prompt.
  unfold generateWebsiteContent. rewrite Hgate.
  set (hello := Log ("Generating custom content for: " ++ st_projectName input)).
  destruct (askAgent_fallback w
              "Using AI agent to analyze content and create enhanced components..."
              prompt "AI Content Analysis completed"
              (fallbackContent (st_projectName input) (st_requirements input))
              "AI agent not available, using fallback content enhancement: "
              (tr ++ [hello])%list)
    as [quiet [text [Hask [Hquiet [Hfail _]]]]].
  split; intros Htoken.
  - exists ([hello] ++ quiet
              ++ [LogError ("Error generating website content:" ++ " "
                              ++ "GITHUB_TOKEN environment variable is required")])%list.
    split.
    + rewrite (rethrowing_throws _ _ _ tr ((tr ++ [hello]) ++ quiet)%list
                 "GITHUB_TOKEN environment variable is required").
      * now rewrite <- !app_assoc.
      * rewrite bind_emit. unfold contentAnalysisOf. fold prompt.
        rewrite (bind_returns _ _ _ _ _ _ _ Hask).
        unfold contentWith. now rewrite Htoken.
    + rewrite !filter_app, Hquiet. reflexivity.
  - destruct (updateEach_runs w base (files text) ((tr ++ [hello]) ++ quiet)%list)
      as [extra [E1 [E2 [E3 E4]]]].
    assert (Hn : requestCount ((tr ++ [hello]) ++ quiet)%list = requestCount tr)
      by (unfold hello; now rewrite (requestCount_quiet _ quiet Hquiet), requestCount_log).
    rewrite Hn in E3, E4.
    exists ([hello] ++ quiet ++ extra)%list.
    exists {| ct_repositoryUrl := st_repositoryUrl input;
              ct_repositoryName := st_repositoryName input;
              ct_projectName := st_projectName input;
              ct_requirements := st_requirements input;
              ct_contentGenerated := Some true;
              ct_stylingCompleted := Some true;
              ct_success := Some true |}.
    exists text.
    split; [|split; [reflexivity|split; [reflexivity|split; [reflexivity|split;
               [|split; [|split]]]]]].
    + rewrite (rethrowing_returns _ _ _ tr (((tr ++ [hello]) ++ quiet) ++ extra)%list
                 {| ct_repositoryUrl := st_repositoryUrl input;
                    ct_repositoryName := st_repositoryName input;
                    ct_projectName := st_projectName input;
                    ct_requirements := st_requirements input;
                    ct_contentGenerated := Some true;
                    ct_stylingCompleted := Some true;
                    ct_success := Some true |}).
      * now rewrite <- !app_assoc.
      * rewrite bind_emit. unfold contentAnalysisOf. fold prompt.
        rewrite (bind_returns _ _ _ _ _ _ _ Hask).
        unfold contentWith. rewrite Htoken.
        fold base. fold (files text).
        now rewrite (bind_returns _ _ _ _ _ _ _ E1).
    + rewrite !urlsOf_app, E2, (urlsOf_quiet GET quiet Hquiet). reflexivity.
    + rewrite !urlsOf_app, E3, (urlsOf_quiet PUT quiet Hquiet). reflexivity.
    + intros Ha i file Hnth Hbad. destruct (E4 Ha) as [_ E5].
      destruct (E5 i file Hnth Hbad) as [line [Hin Hinc]].
      exists line. split; [|assumption].
      apply in_or_app. right. apply in_or_app. now right.
    + intros Hagent. destruct (Hfail Hagent) as [-> [error Hin]].
      split; [reflexivity|].
      exists error. apply in_or_app. right. apply in_or_app. now left.
Qed.

(** The finalize stage, past its gate. *)
Lemma finalizeWebsite_runs : forall w tpl input tr,
  falsy (ct_success input) || falsy (ct_contentGenerated input)
    || falsy (ct_stylingCompleted input) = false ->
  let files :=
    generateFinalFiles tpl (ct_projectName input) (ct_requirements input)
                       (ct_repositoryName input) in
  let base := baseApiUrl (ct_repositoryUrl input) (ct_repositoryName input) in
  (unset (GITHUB_TOKEN w) = true ->
   exists extra,
     finalizeWebsite w tpl input tr
     = ((tr ++ extra)%list, Throw "GITHUB_TOKEN environment variable is required")
     /\ filter isRequest extra = [])
  /\ (unset (GITHUB_TOKEN w) = false ->
      exists extra out,
        finalizeWebsite w tpl input tr = ((tr ++ extra)%list, Return out)
        /\ fin_success out = Some true
        /\ urlsOf GET extra = List.map (fileUrl base) files
        /\ urlsOf PUT extra = List.map (fileUrl base) (writtenFrom w (requestCount tr) files)
        /\ (answered w ->
            forall i file,
              nth_error files i = Some file ->
              okAt w (requestCount tr + 2 * i + 1) = false ->
              exists line, In (LogError line) extra
                           /\ Str.includes (path file) line = true)).
Proof.
  intros w tpl input tr Hgate files base.
  unfold finalizeWebsite. rewrite Hgate.
  set (hello := Log ("Finalizing website: " ++ ct_projectName input)).
  split; intros Htoken.
  - exists ([hello]
              ++ [LogError ("Error finalizing website:" ++ " "
                              ++ "GITHUB_TOKEN environment variable is required")])%list.
    split; [|reflexivity].
    rewrite (rethrowing_throws _ _ _ tr (tr ++ [hello])%list
               "GITHUB_TOKEN environment variable is required").
    + now rewrite <- !app_assoc.
    + rewrite bind_emit. now rewrite Htoken.
  - destruct (finishEach_runs w base files (tr ++ [hello])%list)
      as [extra [E1 [E2 [E3 E4]]]].
    unfold hello in E3, E4. rewrite requestCount_log in E3, E4. fold hello in E3, E4.
    exists ([hello] ++ extra)%list.
    exists {| fin_repositoryUrl := ct_repositoryUrl input;
              fin_repositoryName := ct_repositoryName input;
              fin_projectName := ct_projectName input;
              fin_requirements := ct_requirements input;
              fin_frameworkInitialized := Some true;
              fin_websiteCompleted := Some true;
              fin_deploymentReady := Some true;
              fin_success := Some true |}.
    split; [|split; [reflexivity|split; [|split]]].
    + rewrite (rethrowing_returns _ _ _ tr ((tr ++ [hello]) ++ extra)%list
                 {| fin_repositoryUrl := ct_repositoryUrl input;
                    fin_repositoryName := ct_repositoryName input;
                    fin_projectName := ct_projectName input;
                    fin_requirements := ct_requirements input;
                    fin_frameworkInitialized := Some true;
                    fin_websiteCompleted := Some true;
                    fin_deploymentReady := Some true;
                    fin_success := Some true |}).
      * now rewrite <- !app_assoc.
      * rewrite bind_emit. rewrite Htoken. fold base. fold files.
        now rewrite (bind_returns _ _ _ _ _ _ _ E1).
    + rewrite urlsOf_app, E2. reflexivity.
    + rewrite urlsOf_app, E3. reflexivity.
    + intros Ha i file Hnth Hbad. destruct (E4 Ha) as [_ E5].
      destruct (E5 i file Hnth Hbad) as [line [Hin Hinc]].
      exists line. split; [|assumption]. apply in_or_app. now right.
Qed.

(** The scaffolding stage with a failing write. *)
Lemma initializeFramework_stops : forall w tpl input tr k r,
  falsy (repo_success input) = false ->
  k < List.length frameworkPaths ->
  (forall i, i < k -> okAt w (requestCount tr + i) = true) ->
  http w (requestCount tr + k) = Responded r -> ok r = false ->
  exists e tr',
    initializeFramework w tpl input tr = (tr', Throw e)
    /\ urlsOf PUT tr'
       = (urlsOf PUT tr
            ++ List.map (frameworkUrl (repo_repositoryName input))
                 (firstn (S k) (frameworkFiles tpl (repo_repositoryName input))))%list
    /\ requestCount tr' = requestCount tr + S k.
Proof.
  intros w tpl input tr k r Hgate Hk Hok Hr Hbad.
  unfold initializeFramework. rewrite Hgate.
  set (hello := Log ("Initializing React framework in repository: "
                       ++ repo_repositoryName input)).
  destruct (putEach_stops w (repo_repositoryName input)
              (frameworkFiles tpl (repo_repositoryName input)) (tr ++ [hello])%list k r)
    as [e [tr' [Hrun [Hurls Hcount]]]].
  - unfold frameworkFiles. now rewrite length_map.
  - intros i Hi. unfold hello. rewrite requestCount_log. now apply Hok.
  - unfold hello. now rewrite requestCount_log.
  - assumption.
  - exists e. eexists. split.
    + apply rethrowing_throws. rewrite bind_emit.
      apply bind_throws. exact Hrun.
    + unfold hello in *.
      rewrite urlsOf_app, Hurls, urlsOf_app, requestCount_error, Hcount, requestCount_log.
      simpl. rewrite !app_nil_r. split; reflexivity.
Qed.


(** ** Failed writes *)



(** ** A failing agent *)

Lemma structureAnalysisOf_fallback : forall w tpl input tr,
  agentFails w (analysisPrompt tpl input) = true ->
  exists extra,
    structureAnalysisOf w tpl input tr
    = ((tr ++ extra)%list,
       Return (fallbackAnalysis (fw_projectName input) (fw_requirements input)))
    /\ filter isRequest extra = [].
Proof.
  intros w tpl input tr H. unfold structureAnalysisOf.
  destruct (askAgent_fallback w
              "Using AI agent to analyze requirements and generate website structure..."
              (analysisPrompt tpl input) "AI Analysis completed for website structure"
              (fallbackAnalysis (fw_projectName input) (fw_requirements input))
              "AI agent not available, using fallback analysis: " tr)
    as [quiet [text [Hask [Hquiet [Hfail _]]]]].
  destruct (Hfail H) as [-> _]. exists quiet. split; assumption.
Qed.

Lemma contentAnalysisOf_fallback : forall w tpl input tr,
  agentFails w (contentPrompt tpl input) = true ->
  exists extra,
    contentAnalysisOf w tpl input tr
    = ((tr ++ extra)%list,
       Return (fallbackContent (st_projectName input) (st_requirements input)))
    /\ filter isRequest extra = [].
Proof.
  intros w tpl input tr H. unfold contentAnalysisOf.
  destruct (askAgent_fallback w
              "Using AI agent to analyze content and create enhanced components..."
              (contentPrompt tpl input) "AI Content Analysis completed"
              (fallbackContent (st_projectName input) (st_requirements input))
              "AI agent not available, using fallback content enhancement: " tr)
    as [quiet [text [Hask [Hquiet [Hfail _]]]]].
  destruct (Hfail H) as [-> _]. exists quiet. split; assumption.
Qed.

(** C6, as amended.  When the agent fails in the structure stage, or in
    the content stage, that stage takes the fallback text in place of the
    agent's and only notes the failure on the console; with the hosting
    credential configured it then returns with its success flags set,
    whatever the hosting API answers; without the credential it throws the
    credential error, not the agent's.  Each stage on its own: the agent
    need not fail in the other. *)
Theorem agent_failure_fallback :
  (forall w tpl (framework : Framework) tr,
      falsy (fw_success framework) || falsy (fw_frameworkInitialized framework) = false ->
      agentFails w (analysisPrompt tpl framework) = true ->
      (forall tr0, exists extra,
          structureAnalysisOf w tpl framework tr0
          = ((tr0 ++ extra)%list,
             Return (fallbackAnalysis (fw_projectName framework) (fw_requirements framework)))
          /\ filter isRequest extra = [])
      /\ (unset (GITHUB_TOKEN w) = false ->
          exists extra out error,
            generateWebsiteStructure w tpl framework tr = ((tr ++ extra)%list, Return out)
            /\ st_success out = Some true
            /\ st_websiteGenerated out = Some true
            /\ In (Log ("AI agent not available, using fallback analysis: " ++ error)) extra)
      /\ (unset (GITHUB_TOKEN w) = true ->
          exists extra,
            generateWebsiteStructure w tpl framework tr
            = ((tr ++ extra)%list, Throw credentialMissing)))
  /\ (forall w tpl (structure : Structure) tr,
      falsy (st_success structure) || falsy (st_websiteGenerated structure) = false ->
      agentFails w (contentPrompt tpl structure) = true ->
      (forall tr0, exists extra,
          contentAnalysisOf w tpl structure tr0
          = ((tr0 ++ extra)%list,
             Return (fallbackContent (st_projectName structure) (st_requirements structure)))
          /\ filter isRequest extra = [])
      /\ (unset (GITHUB_TOKEN w) = false ->
          exists extra out error,
            generateWebsiteContent w tpl structure tr = ((tr ++ extra)%list, Return out)
            /\ ct_success out = Some true
            /\ ct_contentGenerated out = Some true
            /\ ct_stylingCompleted out = Some true
            /\ In (Log ("AI agent not available, using fallback content enhancement: "
                          ++ error)) extra)
      /\ (unset (GITHUB_TOKEN w) = true ->
          exists extra,
            generateWebsiteContent w tpl structure tr
            = ((tr ++ extra)%list, Throw credentialMissing))).
Proof.
  split.
  - intros w tpl framework tr Hfw Ha.
    split; [intros tr0; now apply structureAnalysisOf_fallback|].
    split; intros Htoken.
    + destruct (proj2 (generateWebsiteStructure_runs w tpl framework tr Hfw) Htoken)
        as [extra [out [H1 [H2 [H3 [_ [_ [_ H7]]]]]]]].
      destruct (H7 Ha) as [error Hin]. exists extra, out, error. auto.
    + destruct (proj1 (generateWebsiteStructure_runs w tpl framework tr Hfw) Htoken)
        as [extra [H1 _]]. now exists extra.
  - intros w tpl structure tr Hst Hc.
    split; [intros tr0; now apply contentAnalysisOf_fallback|].
    split; intros Htoken.
    + destruct (proj2 (generateWebsiteContent_runs w tpl structure tr Hst) Htoken)
        as [extra [out [text [H1 [H2 [H3 [H4 [_ [_ [_ H8]]]]]]]]]].
      destruct (H8 Hc) as [_ [error Hin]]. exists extra, out, error. auto.
    + destruct (proj1 (generateWebsiteContent_runs w tpl structure tr Hst) Htoken)
        as [extra [H1 _]]. now exists extra.
Qed.

Lemma agent_failure_fallback_witness :
  (exists extra out error,
      generateWebsiteStructure structureAgentDown sampleTemplates
        (sampleFramework (Some true) (Some true)) []
      = (([] ++ extra)%list, Return out)
      /\ st_success out = Some true
      /\ st_websiteGenerated out = Some true
      /\ In (Log ("AI agent not available, using fallback analysis: " ++ error)) extra)
  /\ (exists extra out error,
      generateWebsiteContent sampleWorld sampleTemplates
        (sampleStructure (Some true) (Some true)) []
      = (([] ++ extra)%list, Return out)
      /\ ct_success out = Some true
      /\ ct_contentGenerated out = Some true
      /\ ct_stylingCompleted out = Some true
      /\ In (Log ("AI agent not available, using fallback content enhancement: "
                    ++ error)) extra).
Proof.
  destruct agent_failure_fallback as [Hstructure Hcontent]. split.
  - exact (proj1 (proj2 (Hstructure structureAgentDown sampleTemplates
                           (sampleFramework (Some true) (Some true)) []
                           eq_refl eq_refl)) eq_refl).
  - exact (proj1 (proj2 (Hcontent sampleWorld sampleTemplates
                           (sampleStructure (Some true) (Some true)) []
                           eq_refl eq_refl)) eq_refl).
Defined.

(** C6 as first stated fails when the hosting credential is not set: the
    agent fails, the fallback text is taken, and the stage throws all the
    same. *)
Lemma agent_failure_without_credential :
  agentFails worldWithoutToken
    (analysisPrompt sampleTemplates (sampleFramework (Some true) (Some true))) = true
  /\ snd (generateWebsiteStructure worldWithoutToken sampleTemplates
            (sampleFramework (Some true) (Some true)) [])
     = Throw credentialMissing
  /\ agentFails worldWithoutToken
       (contentPrompt sampleTemplates (sampleStructure (Some true) (Some true))) = true
  /\ snd (generateWebsiteContent worldWithoutToken sampleTemplates
            (sampleStructure (Some true) (Some true)) [])
     = Throw credentialMissing.
Proof. repeat split; vm_compute; reflexivity. Qed.
(* ================================================================== *)
(** * Further properties of the code *)

(** ** Names *)

Lemma all_edges : forall (p q : ascii -> bool) s,
  (forall c, q c = true -> p c = false) -> Str.all q s = true ->
  headIn p s = false /\ lastIn p s = false.
Proof.
  intros p q s Hpq. induction s as [|c s IH]; intros Hall; [split; reflexivity|].
  simpl in Hall. apply andb_true_iff in Hall as [Hc Hs]. split.
  - simpl. now apply Hpq.
  - destruct s as [|d s]; [simpl; now apply Hpq|].
    change (lastIn p (String c (String d s))) with (lastIn p (String d s)).
    now apply IH.
Qed.

Lemma slug_trim : forall s, isSlug s = true -> Str.trim s = s.
Proof.
  intros s Hs. destruct (isSlug_shape s Hs) as [_ [Hall _]].
  assert (H : forall c, slugUnit c = true -> Char.space c = false).
  { intros c Hc. apply slugUnit_not_space in Hc. now apply negb_true_iff in Hc. }
  destruct (all_edges Char.space slugUnit s H Hall) as [Hh Hl].
  unfold Str.trim, Str.trimEnd, Str.trimStart.
  rewrite (dropWhile_fixed _ s Hh). now apply dropEnd_fixed.
Qed.

(** Every result of the sanitizer is a slug of at most 25 code units. *)
Lemma sanitizeProjectName_slug : forall t name,
  isSlug (sanitizeProjectName t name) = true
  /\ String.length (sanitizeProjectName t name) <= 25.
Proof.
  intros t name. unfold sanitizeProjectName.
  destruct (Str.truthy (sanitizeChain name)) eqn:E.
  - apply sanitizeChain_slug. now apply truthy_true.
  - destruct (timestampFallback_slug t) as [Hs Hl]. split; [assumption | lia].
Qed.

(** X1.  Sanitizing is idempotent: a name that came out of the sanitizer
    goes through it unchanged, whatever the clock reads then, and trimming
    it changes nothing either, so the repository stage names the repository
    exactly as the parse stage named the project. *)
Theorem sanitizeProjectName_idempotent : forall t t' name,
  sanitizeProjectName t' (sanitizeProjectName t name) = sanitizeProjectName t name
  /\ Str.trim (sanitizeProjectName t name) = sanitizeProjectName t name.
Proof.
  intros t t' name. destruct (sanitizeProjectName_slug t name) as [Hs Hl]. split.
  - now apply sanitizeProjectName_fixed.
  - now apply slug_trim.
Qed.

(** ** Key terms *)

Lemma exec_Plus_skipped : forall p s b,
  match exec (Plus p) b s with
  | Some (Found pre _ _) => Str.all (fun c => negb (p c)) pre = true
  | None => Str.all (fun c => negb (p c)) s = true
  end.
Proof.
  intros p. induction s as [|c s IH]; intros b.
  - reflexivity.
  - cbn [exec]. rewrite matchAt_Plus. cbn [headIn]. destruct (p c) eqn:Hc.
    + reflexivity.
    + specialize (IH false). destruct (exec (Plus p) false s) as [[pre e rest]|].
      * simpl. now rewrite Hc.
      * simpl. now rewrite Hc.
Qed.

Lemma splitFrom_Plus_pieces : forall p (q : ascii -> bool) fuel s b piece,
  String.length s < fuel ->
  Str.all q s = true ->
  In piece (splitFrom fuel (Plus p) b s) ->
  Str.all (fun c => negb (p c)) piece = true /\ Str.all q piece = true.
Proof.
  intros p q. induction fuel as [|fuel IH]; intros s b piece Hlen Hq Hin; [lia|].
  simpl in Hin. pose proof (exec_Plus_skipped p s b) as Hskip.
  destruct (exec (Plus p) b s) as [[pre e rest]|] eqn:He.
  - destruct (exec_shape _ _ _ _ _ _ He) as [m [Hs _]].
    destruct (exec_rest_shorter _ _ _ _ _ _ He) as [_ Hlt].
    pose proof (search_Plus p "" s b) as Hsearch. rewrite He in Hsearch.
    destruct Hsearch as [-> _]. specialize (Hlt eq_refl).
    rewrite Hs, !all_append in Hq.
    apply andb_true_iff in Hq as [Hpre Hq]. apply andb_true_iff in Hq as [_ Hrest].
    destruct Hin as [<- | Hin]; [now split|].
    apply (IH rest false piece); [lia | assumption | assumption].
  - destruct Hin as [<- | []]. now split.
Qed.

Lemma subst_all : forall (p q : ascii -> bool) rep s,
  Str.all q rep = true -> (forall c, p c = false -> q c = true) ->
  Str.all q (subst p rep s) = true.
Proof.
  intros p q rep s Hrep Hq. induction s as [|c s IH]; [reflexivity|].
  simpl. destruct (p c) eqn:Hc.
  - rewrite all_append, Hrep. exact IH.
  - simpl. now rewrite (Hq c Hc).
Qed.

(** The words the filters of [extractKeyTerms] start from. *)
Lemma words_alnum : forall text word,
  In word (RegExp.split reSpaces (replaceAll reSpecial " " (Str.toLowerCase text))) ->
  Str.all Char.alnum word = true.
Proof.
  intros text word Hin. unfold RegExp.split, reSpaces in Hin.
  set (s := replaceAll reSpecial " " (Str.toLowerCase text)) in *.
  assert (Hs : Str.all (fun c => Char.az c || Char.digit c || Char.space c) s = true).
  { unfold s, reSpecial. rewrite (replaceAll_computes _ _ _ (search_Cls _ " ")).
    apply subst_all; [reflexivity|]. intros c Hc. now apply negb_false_iff in Hc. }
  destruct (splitFrom_Plus_pieces Char.space _ _ s true word (Nat.lt_succ_diag_r _) Hs Hin)
    as [Hns Hq].
  clear - Hns Hq. induction word as [|c word IH]; [reflexivity|].
  simpl in *. apply andb_true_iff in Hns as [Hc Hns]. apply andb_true_iff in Hq as [Hc' Hq].
  rewrite (IH Hns Hq), andb_true_r. unfold Char.alnum.
  apply negb_true_iff in Hc. rewrite Hc, orb_false_r in Hc'. exact Hc'.
Qed.

(** The words that pass both filters of [extractKeyTerms]. *)
Lemma key_words_facts : forall text term,
  In term
     (filter (fun word => (String.length word <=? 12)%nat)
        (filter (fun word => (2 <? String.length word)%nat
                             && negb (Str.mem word stopWords))
           (RegExp.split reSpaces
              (replaceAll reSpecial " " (Str.toLowerCase text))))) ->
  Str.all Char.alnum term = true
  /\ 3 <= String.length term <= 12
  /\ Str.mem term stopWords = false.
Proof.
  intros text term Hw.
  apply filter_In in Hw as [Hw H12]. apply filter_In in Hw as [Hw H3].
  apply andb_true_iff in H3 as [H3 Hstop].
  apply Nat.leb_le in H12. apply Nat.ltb_lt in H3. apply negb_true_iff in Hstop.
  split; [now apply (words_alnum text) | split; [lia | assumption]].
Qed.

Lemma key_terms_are_words : forall text term,
  In term (extractKeyTerms text) ->
  In term
     (filter (fun word => (String.length word <=? 12)%nat)
        (filter (fun word => (2 <? String.length word)%nat
                             && negb (Str.mem word stopWords))
           (RegExp.split reSpaces
              (replaceAll reSpecial " " (Str.toLowerCase text))))).
Proof.
  intros text term Hin. unfold extractKeyTerms in Hin.
  apply in_app_or in Hin as [Hin | Hin]; apply filter_In in Hin as [Hin _]; exact Hin.
Qed.

(** X2.  Every key term taken from a purpose text is made of lower-case
    letters and digits only, is three to twelve code units long, and is
    not a stop word. *)
Theorem extractKeyTerms_terms : forall text term,
  In term (extractKeyTerms text) ->
  Str.all Char.alnum term = true
  /\ 3 <= String.length term <= 12
  /\ Str.mem term stopWords = false.
Proof.
  intros text term Hin. apply key_terms_are_words in Hin.
  destruct (key_words_facts text term Hin) as [Halnum [Hlen Hstop]].
  split; [exact Halnum | split; [exact Hlen | exact Hstop]].
Qed.

Lemma extractKeyTerms_terms_witness :
  Str.all Char.alnum "online" = true
  /\ 3 <= String.length "online" <= 12
  /\ Str.mem "online" stopWords = false.
Proof.
  apply (extractKeyTerms_terms "Build an online shop & blog for my company, quickly!").
  vm_compute. tauto.
Defined.

(** A word of a list is in the sublist a test selects exactly when it
    passes the test. *)
Lemma mem_filter : forall (f : string -> bool) words word,
  In word words -> Str.mem word (filter f words) = f word.
Proof.
  intros f words word Hin. destruct (f word) eqn:Hf.
  - apply existsb_exists. exists word. split; [|apply String.eqb_refl].
    apply filter_In. now split.
  - destruct (Str.mem word (filter f words)) eqn:Hm; [|reflexivity].
    apply existsb_exists in Hm as [other [Hother Heq]].
    apply String.eqb_eq in Heq. subst other.
    apply filter_In in Hother as [_ Hother]. congruence.
Qed.

(** A test and its negation split a list. *)
Lemma split_lengths : forall (f : string -> bool) (words : list string),
  List.length (filter f words) + List.length (filter (fun word => negb (f word)) words)
  = List.length words.
Proof.
  intros f words. induction words as [|word words IH]; [reflexivity|].
  cbn [filter]. destruct (f word); cbn [negb List.length Nat.add].
  - now rewrite IH.
  - now rewrite Nat.add_succ_r, IH.
Qed.

(** X3.  The key terms of a text are exactly its key words that are
    business terms, in the order of the text, followed by its key words
    that are not, in the order of the text: nothing is added, dropped or
    merged, and no business term comes after a term that is not one. *)
Theorem extractKeyTerms_priority : forall text,
  extractKeyTerms text
  = (filter (fun word => Str.mem word businessTerms) (keyWords text)
       ++ filter (fun word => negb (Str.mem word businessTerms)) (keyWords text))%list
  /\ List.length (extractKeyTerms text) = List.length (keyWords text)
  /\ (forall word, In word (extractKeyTerms text) <-> In word (keyWords text)).
Proof.
  intros text.
  assert (Heq : extractKeyTerms text
                = (filter (fun word => Str.mem word businessTerms) (keyWords text)
                     ++ filter (fun word => negb (Str.mem word businessTerms))
                          (keyWords text))%list).
  { unfold extractKeyTerms. fold (keyWords text). cbv zeta. f_equal.
    apply filter_ext_in. intros word Hin. now rewrite mem_filter. }
  split; [exact Heq|]. rewrite Heq. split.
  - rewrite length_app. apply split_lengths.
  - intros word. rewrite in_app_iff, !filter_In.
    destruct (Str.mem word businessTerms); cbn [negb]; intuition discriminate.
Qed.

(** ** Synthesized names *)

Lemma in_firstn : forall (A : Type) n (l : list A) x, In x (firstn n l) -> In x l.
Proof.
  intros A n l x H. rewrite <- (firstn_skipn n l). apply in_or_app. now left.
Qed.

Lemma join_slug : forall term terms,
  Forall (fun v => v <> "" /\ Str.all Char.alnum v = true) (term :: terms) ->
  isSlug (Str.join "-" (term :: terms)) = true.
Proof.
  unfold isSlug, Str.join. intros term terms. revert term.
  induction terms as [|next terms IH]; intros term Hall.
  - apply Forall_inv in Hall as [Hne Hv]. simpl.
    rewrite <- (append_nil_r term), slugScan_word by assumption.
    now destruct term.
  - pose proof (Forall_inv Hall) as [Hne Hv]. apply Forall_inv_tail in Hall.
    change (String.concat "-" (term :: next :: terms))
      with (term ++ "-" ++ String.concat "-" (next :: terms)).
    rewrite slugScan_word by assumption. destruct term; [congruence|].
    simpl. now apply IH.
Qed.

Lemma join_length : forall term terms,
  Forall (fun v => String.length v <= 12) (term :: terms) ->
  String.length (Str.join "-" (term :: terms)) + 1 <= 13 * List.length (term :: terms).
Proof.
  unfold Str.join. intros term terms. revert term.
  induction terms as [|next terms IH]; intros term Hall.
  - apply Forall_inv in Hall. cbn [String.concat List.length]. lia.
  - pose proof (Forall_inv Hall) as Hv. apply Forall_inv_tail in Hall.
    specialize (IH next Hall).
    change (String.concat "-" (term :: next :: terms))
      with (term ++ "-" ++ String.concat "-" (next :: terms)).
    rewrite !length_append. cbn [List.length] in *.
    change (String.length "-") with 1. lia.
Qed.

Lemma cut_slug : forall s,
  isSlug s = true ->
  sanitizeChain s = Str.dropEnd Char.hyphen (Str.substring0 25 s).
Proof.
  intros s Hs. destruct (isSlug_shape s Hs) as [_ [Hall [Hrun [Hhead Hlast]]]].
  rewrite sanitizeChain_steps.
  rewrite (toLowerCase_slug s Hall).
  rewrite subst_fixed by exact (all_weaken _ _ s slugUnit_not_invalid Hall).
  rewrite (squeeze_fixed Char.space) by exact (all_weaken _ _ s slugUnit_not_space Hall).
  rewrite (squeeze_single Char.hyphen "-" s hyphen_is Hrun).
  rewrite (dropWhile_fixed _ s Hhead).
  now rewrite (dropEnd_fixed _ s Hlast).
Qed.

(** X4.  A synthesized name is empty, when the purpose has no key term, or
    the first three key terms joined by hyphens: a name of the slug
    language, at most 38 code units long, which the sanitizer only cuts at
    25 code units, dropping a hyphen the cut leaves at the end. *)
Theorem generateConciseProjectName_slug : forall purpose targetAudience,
  let name := generateConciseProjectName purpose targetAudience in
  (extractKeyTerms purpose = [] /\ name = "")
  \/ (name = Str.join "-" (firstn 3 (extractKeyTerms purpose))
      /\ Slug name
      /\ String.length name <= 38
      /\ sanitizeChain name = Str.dropEnd Char.hyphen (Str.substring0 25 name)).
Proof.
  intros purpose targetAudience. unfold generateConciseProjectName.
  destruct (extractKeyTerms purpose) as [|term terms] eqn:E; [left; now split|].
  right. cbn [List.length Nat.ltb Nat.leb].
  assert (Hterms : forall v, In v (firstn 3 (term :: terms)) ->
                             Str.all Char.alnum v = true /\ 3 <= String.length v <= 12).
  { intros v Hv. apply in_firstn in Hv. rewrite <- E in Hv.
    destruct (key_words_facts purpose v (key_terms_are_words purpose v Hv)) as [Ha [Hl _]].
    now split. }
  set (picked := firstn 3 (term :: terms)) in *.
  assert (Hpicked : exists first more, picked = first :: more /\ List.length picked <= 3).
  { unfold picked. exists term, (firstn 2 terms). split; [reflexivity|].
    apply firstn_le_length. }
  destruct Hpicked as [first [more [Hp Hn]]].
  assert (Hslug : isSlug (Str.join "-" picked) = true).
  { rewrite Hp. apply join_slug. rewrite <- Hp. apply Forall_forall. intros v Hv.
    destruct (Hterms v Hv) as [Ha Hl]. split; [|assumption].
    intros ->. simpl in Hl. lia. }
  assert (Hlow : Str.toLowerCase (Str.join "-" picked) = Str.join "-" picked).
  { apply toLowerCase_slug. now destruct (isSlug_shape _ Hslug) as [_ [Hall _]]. }
  rewrite Hlow. split; [reflexivity|]. split; [now apply isSlug_Slug|]. split.
  - assert (Hlen : Forall (fun v => String.length v <= 12) picked).
    { apply Forall_forall. intros v Hv. destruct (Hterms v Hv) as [_ Hl]. lia. }
    rewrite Hp in Hlen. pose proof (join_length first more Hlen) as Hj.
    rewrite <- Hp in Hj. lia.
  - now apply cut_slug.
Qed.

(** ** The parse stage as a whole *)

(** X5.  The parse stage throws exactly on a blank report (empty, or white
    space only).  On any other report it returns with [success] true, the
    report itself as [requirements], and a project name of the slug
    language that is at most 25 code units long. *)
Theorem parseRequirements_outcome : forall t report,
  (blank report = true /\ parseRequirements t report = Throw requirementsMissing)
  \/ (blank report = false
      /\ exists out,
           parseRequirements t report = Return out
           /\ parsed_requirements out = report
           /\ parsed_success out = Some true
           /\ Slug (parsed_projectName out)
           /\ String.length (parsed_projectName out) <= 25).
Proof.
  intros t report. rewrite parseRequirements_result.
  destruct (blank report); [left; now split | right].
  split; [reflexivity|]. eexists. split; [reflexivity|].
  cbn [parsed_requirements parsed_success parsed_projectName].
  destruct (sanitizeProjectName_slug t (chooseName t (fieldsOf report))) as [Hs Hl].
  split; [reflexivity | split; [reflexivity | split; [now apply isSlug_Slug | exact Hl]]].
Qed.

(** ** From the parse stage to the repository stage *)

(** X6.  What the parse stage returns always passes the guards of the
    repository stage: the stage announces the repository under the project
    name unchanged and sends its one request, the POST that creates the
    repository; whatever the answer, it sends nothing else. *)
Theorem parsed_name_reaches_repository : forall w report out tr,
  parseRequirements (clock w) report = Return out ->
  exists rest r,
    createRepository w out tr
    = ((tr ++ Log ("Creating GitHub repository: " ++ parsed_projectName out)
           :: Request POST "https://api.github.com/user/repos" None None
           :: rest)%list, r)
    /\ filter isRequest rest = [].
Proof.
  intros w report out tr Hparse. rewrite parseRequirements_result in Hparse.
  destruct (blank report); [discriminate|]. injection Hparse as <-.
  cbn [parsed_projectName].
  set (name := sanitizeProjectName (clock w) (chooseName (clock w) (fieldsOf report))).
  destruct (sanitizeProjectName_slug (clock w) (chooseName (clock w) (fieldsOf report)))
    as [Hs _]. fold name in Hs.
  pose proof (slug_trim name Hs) as Htrim.
  destruct (isSlug_shape name Hs) as [Hne _].
  pose proof (proj2 (truthy_true name) Hne) as Htruthy.
  assert (Hnb : String.eqb name "" = false) by (now apply String.eqb_neq).
  unfold createRepository, rethrowing, tryCatch, bind, fetch, json, emit, ret, throw.
  cbn [parsed_projectName parsed_success parsed_requirements parsed_extractedInfo falsy].
  fold name. rewrite Htrim, Htruthy, Hnb. cbn [negb orb].
  destruct (http w (requestCount (tr ++ [Log ("Creating GitHub repository: " ++ name)])))
    as [|response].
  - eexists. eexists. rewrite <- !app_assoc. cbn [app]. split; reflexivity.
  - destruct (ok response); cbn [negb]; destruct (body response) as [j|];
      eexists; eexists; rewrite <- !app_assoc; cbn [app]; split; reflexivity.
Qed.

Lemma parsed_name_reaches_repository_witness :
  exists rest r,
    createRepository sampleWorld
      {| parsed_projectName := "shop"; parsed_requirements := "Project name: Shop";
         parsed_extractedInfo := noInfo; parsed_success := Some true |} []
    = (([] ++ Log ("Creating GitHub repository: " ++ "shop")
           :: Request POST "https://api.github.com/user/repos" None None
           :: rest)%list, r)
    /\ filter isRequest rest = [].
Proof.
  apply (parsed_name_reaches_repository sampleWorld "Project name: Shop").
  vm_compute. reflexivity.
Defined.

(** ** Business type, industry and services *)

Lemma inferBusinessType_cases : forall requirements,
  In (inferBusinessType requirements) categories.
Proof.
  intros requirements. rewrite inferBusinessType_table. apply firstMatch_in.
Qed.

(** X7.  The industry map has an entry for every business type the
    classifier can return, so the default after the lookup is never what
    decides; the industry is [Business Services] exactly for the type
    [general]. *)
Theorem inferIndustry_covers : forall requirements,
  lookup (inferBusinessType requirements) industryMap = Some (inferIndustry requirements)
  /\ In (inferIndustry requirements) (List.map snd industryMap)
  /\ (inferIndustry requirements = "Business Services"
      <-> inferBusinessType requirements = "general").
Proof.
  intros requirements. unfold inferIndustry.
  pose proof (inferBusinessType_cases requirements) as Hin.
  destruct Hin as [<- | [<- | [<- | [<- | [<- | [<- | [<- | [<- | []]]]]]]]];
    (split; [reflexivity | split; [vm_compute; tauto | split; [discriminate | discriminate]]])
    || (split; [reflexivity | split; [vm_compute; tauto | split; reflexivity]]).
Qed.

(** X8.  The services of the enhanced site depend on the business type
    alone, never on the analysis text; there are always three of them, and
    the types without a case of their own (restaurant, retail, general) get
    the default three. *)
Theorem extractServices_by_type : forall content requirements,
  List.length (extractServices content requirements) = 3
  /\ extractServices content requirements = extractServices "" requirements
  /\ (extractServices content requirements = defaultServices
      <-> In (inferBusinessType requirements) ["restaurant"; "retail"; "general"]).
Proof.
  intros content requirements. unfold extractServices.
  pose proof (inferBusinessType_cases requirements) as Hin.
  destruct Hin as [<- | [<- | [<- | [<- | [<- | [<- | [<- | [<- | []]]]]]]]];
    (split; [reflexivity | split; [reflexivity|]]);
    unfold defaultServices; cbn [String.eqb Ascii.eqb Bool.eqb In];
    (split; intros H; [first [discriminate H | tauto] | intuition discriminate]).
Qed.

(** ** Sections of the analysis text *)

Lemma trim_idempotent : forall s, Str.trim (Str.trim s) = Str.trim s.
Proof.
  intros s. unfold Str.trim at 1. unfold Str.trimEnd, Str.trimStart.
  assert (Hh : headIn Char.space (Str.trim s) = false).
  { unfold Str.trim, Str.trimEnd, Str.trimStart. apply dropEnd_head, dropWhile_head. }
  assert (Hl : lastIn Char.space (Str.trim s) = false).
  { unfold Str.trim, Str.trimEnd. apply dropEnd_last. }
  rewrite (dropWhile_fixed _ _ Hh). now apply dropEnd_fixed.
Qed.

Lemma firstContentLine_some : forall window v,
  firstContentLine window = Some v ->
  exists j k, nth_error window j = Some k /\ v = Str.trim k /\ contentful v = true.
Proof.
  induction window as [|l window IH]; intros v H; [discriminate|].
  cbn [firstContentLine] in H. fold (contentful (Str.trim l)) in H.
  destruct (contentful (Str.trim l)) eqn:E.
  - injection H as <-. exists 0, l. now repeat split.
  - destruct (IH v H) as [j [k [Hj Hv]]]. exists (S j), k. now split.
Qed.

Lemma firstContentLine_none : forall window,
  firstContentLine window = None
  <-> forall k, In k window -> contentful (Str.trim k) = false.
Proof.
  induction window as [|l window IH]; [split; [intros _ k [] | reflexivity]|].
  cbn [firstContentLine]. fold (contentful (Str.trim l)).
  destruct (contentful (Str.trim l)) eqn:E; split.
  - discriminate.
  - intros H. specialize (H l (or_introl eq_refl)). congruence.
  - intros H k [<- | Hk]; [assumption | now apply IH].
  - intros H. apply IH. intros k Hk. apply H. now right.
Qed.

Lemma nth_error_window : forall (A : Type) (lines : list A) i j k,
  nth_error (firstn 5 (skipn i lines)) j = Some k ->
  j < 5 /\ nth_error lines (i + j) = Some k.
Proof.
  intros A lines i j k H. split.
  - assert (Hlen : j < List.length (firstn 5 (skipn i lines))).
    { apply nth_error_Some. congruence. }
    pose proof (firstn_le_length 5 (skipn i lines)). lia.
  - rewrite <- (firstn_skipn i lines) at 1.
    assert (Hj : j < 5).
    { assert (Hlen : j < List.length (firstn 5 (skipn i lines))).
      { apply nth_error_Some. congruence. }
      pose proof (firstn_le_length 5 (skipn i lines)). lia. }
    rewrite nth_error_firstn in H.
    destruct (j <? 5)%nat eqn:E; [|apply Nat.ltb_ge in E; lia].
    rewrite <- H. clear H. revert lines. induction i as [|i IH]; intros lines.
    + reflexivity.
    + destruct lines as [|x lines]; [now destruct j | apply IH].
Qed.

Lemma extractSectionFrom_some : forall keywords lines v,
  extractSectionFrom keywords lines = Some v ->
  exists i l, nth_error lines i = Some l
              /\ mentions keywords (Str.toLowerCase l) = true
              /\ firstContentLine (firstn 5 (skipn i lines)) = Some v.
Proof.
  intros keywords. induction lines as [|l lines IH]; intros v H; [discriminate|].
  cbn [extractSectionFrom] in H.
  destruct (mentions keywords (Str.toLowerCase l)) eqn:Hm.
  - destruct (firstContentLine (firstn 5 (l :: lines))) as [c|] eqn:Hc.
    + injection H as <-. exists 0, l. now repeat split.
    + destruct (IH v H) as [i [l' [Hi H']]]. exists (S i), l'. exact (conj Hi H').
  - destruct (IH v H) as [i [l' [Hi H']]]. exists (S i), l'. exact (conj Hi H').
Qed.

Lemma extractSectionFrom_none : forall keywords lines,
  extractSectionFrom keywords lines = None
  <-> forall i l, nth_error lines i = Some l ->
                  mentions keywords (Str.toLowerCase l) = true ->
                  firstContentLine (firstn 5 (skipn i lines)) = None.
Proof.
  intros keywords. induction lines as [|l lines IH].
  - split; [|reflexivity]. intros _ i l Hi. now destruct i.
  - cbn [extractSectionFrom]. split.
    + intros H [|i] l' Hi Hm.
      * injection Hi as <-. rewrite Hm in H. cbn [skipn].
        now destruct (firstContentLine (firstn 5 (l :: lines))).
      * cbn [skipn]. apply (proj1 IH) with (l := l'); [|exact Hi | exact Hm].
        destruct (mentions keywords (Str.toLowerCase l)); [|exact H].
        now destruct (firstContentLine (firstn 5 (l :: lines))).
    + intros H.
      assert (Hrest : extractSectionFrom keywords lines = None).
      { apply IH. intros i l' Hi Hm. exact (H (S i) l' Hi Hm). }
      destruct (mentions keywords (Str.toLowerCase l)) eqn:Hm; [|exact Hrest].
      pose proof (H 0 l eq_refl Hm) as H0. cbn [skipn] in H0. now rewrite H0.
Qed.

(** X9.  A section found in the analysis text is a trimmed piece of it
    that is longer than twenty code units and has no colon, standing at
    most four pieces after a piece that mentions one of the keywords
    (without regard to case); the pieces are what lies between the
    occurrences of a backslash followed by [n]. *)
Theorem extractSection_sound : forall content keywords v,
  extractSection content keywords = Some v ->
  Str.trim v = v
  /\ 20 < String.length v
  /\ Str.includes ":" v = false
  /\ exists i j l k,
       nth_error (splitOn backslash_n content) i = Some l
       /\ mentions keywords (Str.toLowerCase l) = true
       /\ i <= j < i + 5
       /\ nth_error (splitOn backslash_n content) j = Some k
       /\ v = Str.trim k.
Proof.
  intros content keywords v H. unfold extractSection in H.
  destruct (extractSectionFrom_some _ _ _ H) as [i [l [Hi [Hm Hc]]]].
  destruct (firstContentLine_some _ _ Hc) as [j [k [Hj [Hv Hgood]]]].
  destruct (nth_error_window _ _ _ _ _ Hj) as [Hj5 Hk].
  unfold contentful in Hgood.
  apply andb_true_iff in Hgood as [Hgood Hlen].
  apply andb_true_iff in Hgood as [_ Hcolon].
  apply Nat.ltb_lt in Hlen. apply negb_true_iff in Hcolon.
  split; [rewrite Hv; apply trim_idempotent|].
  split; [exact Hlen | split; [exact Hcolon|]].
  exists i, (i + j), l, k. unfold backslash_n.
  split; [exact Hi | split; [exact Hm | split; [lia | split; [exact Hk | exact Hv]]]].
Qed.

Lemma extractSection_sound_witness :
  Str.trim "This is a long enough content line here"
  = "This is a long enough content line here"
  /\ 20 < String.length "This is a long enough content line here"
  /\ Str.includes ":" "This is a long enough content line here" = false
  /\ exists i j l k,
       nth_error
         (splitOn backslash_n "Hero: section\n short \n\n\nThis is a long enough content line here\nfoo") i
       = Some l
       /\ mentions ["hero"] (Str.toLowerCase l) = true
       /\ i <= j < i + 5
       /\ nth_error
            (splitOn backslash_n "Hero: section\n short \n\n\nThis is a long enough content line here\nfoo") j
          = Some k
       /\ "This is a long enough content line here" = Str.trim k.
Proof.
  apply (extractSection_sound
           "Hero: section\n short \n\n\nThis is a long enough content line here\nfoo"
           ["hero"]).
  vm_compute. reflexivity.
Defined.

(** X10.  No section is found exactly when no piece that mentions a
    keyword has, among itself and the four pieces after it, a piece that
    counts as content. *)
Theorem extractSection_none : forall content keywords,
  extractSection content keywords = None
  <-> forall i j l k,
        nth_error (splitOn backslash_n content) i = Some l ->
        mentions keywords (Str.toLowerCase l) = true ->
        i <= j < i + 5 ->
        nth_error (splitOn backslash_n content) j = Some k ->
        contentful (Str.trim k) = false.
Proof.
  intros content keywords. unfold extractSection, backslash_n.
  set (lines := splitOn "\n" content). rewrite extractSectionFrom_none. split.
  - intros H i j l k Hi Hm Hj Hk.
    specialize (H i l Hi Hm). rewrite firstContentLine_none in H. apply H.
    apply (nth_error_In _ (j - i)). rewrite nth_error_firstn.
    destruct (j - i <? 5)%nat eqn:E; [|apply Nat.ltb_ge in E; lia].
    rewrite nth_error_skipn. replace (i + (j - i)) with j by lia. exact Hk.
  - intros H i l Hi Hm. apply firstContentLine_none. intros k Hk.
    apply In_nth_error in Hk as [j Hj].
    destruct (nth_error_window _ _ _ _ _ Hj) as [Hj5 Hk].
    apply (H i (i + j) l k Hi Hm); [lia | exact Hk].
Qed.

(** ** An analysis text without the separator *)

Lemma splitOnFrom_single : forall sep s piece,
  Str.includes sep s = false -> splitOnFrom sep 0 piece s = [piece ++ s].
Proof.
  intros sep. induction s as [|c s IH]; intros piece H.
  - simpl. now rewrite append_nil_r.
  - cbn [Str.includes] in H. apply orb_false_iff in H as [Hstart Hrest].
    cbn [splitOnFrom]. rewrite Hstart, (IH _ Hrest), append_assoc. reflexivity.
Qed.

Lemma splitOn_single : forall sep s,
  Str.includes sep s = false -> splitOn sep s = [s].
Proof.
  intros sep s H. destruct sep as [|a sep].
  - destruct s; discriminate.
  - unfold splitOn. now rewrite splitOnFrom_single.
Qed.

Lemma includes_unit_dropWhile : forall p c s,
  p c = false ->
  Str.includes (String c "") (Str.dropWhile p s) = Str.includes (String c "") s.
Proof.
  intros p c s Hc. induction s as [|d s IH]; [reflexivity|].
  cbn [Str.dropWhile]. destruct (p d) eqn:Hd; [|reflexivity].
  rewrite IH. cbn [Str.includes Str.startsWith].
  destruct (Ascii.eqb c d) eqn:E; [|reflexivity].
  apply Ascii.eqb_eq in E. congruence.
Qed.

Lemma includes_unit_cons : forall c d s,
  Str.includes (String c "") (String d s) = Ascii.eqb c d || Str.includes (String c "") s.
Proof.
  intros c d s. cbn [Str.includes Str.startsWith]. now rewrite andb_true_r.
Qed.

Lemma includes_unit_dropEnd : forall p c s,
  p c = false ->
  Str.includes (String c "") (Str.dropEnd p s) = Str.includes (String c "") s.
Proof.
  intros p c s Hc. induction s as [|d s IH]; [reflexivity|].
  rewrite includes_unit_cons, <- IH. cbn [Str.dropEnd].
  destruct (Str.dropEnd p s) as [|e t] eqn:E.
  - destruct (p d) eqn:Hd.
    + destruct (Ascii.eqb c d) eqn:Ecd; [|reflexivity].
      apply Ascii.eqb_eq in Ecd. congruence.
    + now rewrite includes_unit_cons.
  - now rewrite includes_unit_cons.
Qed.

Lemma includes_colon_trim : forall s, Str.includes ":" (Str.trim s) = Str.includes ":" s.
Proof.
  intros s. unfold Str.trim, Str.trimEnd, Str.trimStart.
  rewrite includes_unit_dropEnd by reflexivity.
  now apply includes_unit_dropWhile.
Qed.

Lemma extractSection_one_piece : forall content keywords,
  Str.includes backslash_n content = false ->
  extractSection content keywords
  = if mentions keywords (Str.toLowerCase content) && contentful (Str.trim content)
    then Some (Str.trim content) else None.
Proof.
  intros content keywords H. unfold extractSection. fold backslash_n.
  rewrite (splitOn_single _ _ H). cbn [extractSectionFrom firstn firstContentLine].
  fold (contentful (Str.trim content)).
  destruct (mentions keywords (Str.toLowerCase content)); [|reflexivity].
  now destruct (contentful (Str.trim content)).
Qed.

(** X11.  An analysis text in which no backslash is followed by [n] is
    read as a single piece, line feeds and all; if it has a colon anywhere
    no section is found in it, and the hero title, hero description, about
    text and call to action of the enhanced site are the built-in
    defaults.  The fallback text of the content stage always has a
    colon. *)
Theorem parseGeneratedContent_defaults : forall content requirements,
  Str.includes backslash_n content = false ->
  Str.includes ":" content = true ->
  let parsed := parseGeneratedContent content requirements in
  heroTitle parsed = "Welcome to Our Business"
  /\ heroDescription parsed = "We provide exceptional solutions for your needs."
  /\ aboutContent parsed = "We are committed to excellence and customer satisfaction."
  /\ callToAction parsed = "Get Started Today".
Proof.
  intros content requirements Hsep Hcolon.
  assert (Hnone : forall keywords, extractSection content keywords = None).
  { intros keywords. rewrite (extractSection_one_piece _ _ Hsep).
    unfold contentful. rewrite includes_colon_trim, Hcolon.
    cbn [negb]. now rewrite andb_false_r, andb_false_l, andb_false_r. }
  unfold parseGeneratedContent. cbn [heroTitle heroDescription aboutContent callToAction].
  rewrite !Hnone. repeat split.
Qed.

Lemma parseGeneratedContent_defaults_witness :
  let parsed :=
    parseGeneratedContent (fallbackContent "shoe-shop" ("Sell shoes" ++ LF ++ "online"))
                          ("Sell shoes" ++ LF ++ "online") in
  heroTitle parsed = "Welcome to Our Business"
  /\ heroDescription parsed = "We provide exceptional solutions for your needs."
  /\ aboutContent parsed = "We are committed to excellence and customer satisfaction."
  /\ callToAction parsed = "Get Started Today".
Proof.
  apply (parseGeneratedContent_defaults
           (fallbackContent "shoe-shop" ("Sell shoes" ++ LF ++ "online"))
           ("Sell shoes" ++ LF ++ "online")); vm_compute; reflexivity.
Defined.

Lemma fallbackContent_has_colon : forall projectName requirements,
  Str.includes ":" (fallbackContent projectName requirements) = true.
Proof.
  intros projectName requirements. unfold fallbackContent.
  change (" based on requirements: " ++ requirements)
    with (" based on requirements" ++ ":" ++ (" " ++ requirements)).
  rewrite <- (append_assoc projectName), <- (append_assoc _ (projectName ++ _)).
  apply includes_middle.
Qed.

(** ** The requirements as the structure stage reads them *)

Lemma extractColorFromText_known : forall text,
  In (extractColorFromText text) (List.map fst colorSchemes).
Proof.
  intros text. unfold extractColorFromText.
  destruct (find _ colorKeywords) as [entry|] eqn:E; [|vm_compute; tauto].
  apply find_some in E as [Hin _].
  change (List.map fst colorSchemes) with (List.map fst colorKeywords).
  now apply in_map.
Qed.

Lemma extractStyleFromText_known : forall text, In (extractStyleFromText text) styleNames.
Proof.
  intros text. unfold extractStyleFromText. cbn zeta.
  do 5 (destruct (_ || _); [vm_compute; tauto|]). vm_compute. tauto.
Qed.

Lemma fold_left_invariant : forall (A B : Type) (f : A -> B -> A) (P : A -> Prop) l a,
  P a -> (forall a b, P a -> P (f a b)) -> P (fold_left f l a).
Proof.
  intros A B f P. induction l as [|b l IH]; intros a Ha Hf; [exact Ha|].
  simpl. apply IH; [now apply Hf | exact Hf].
Qed.

(** What one round of the loop does to each field. *)
Lemma websiteInfoLine_fields : forall info raw,
  let line := Str.trim raw in
  let next := websiteInfoLine info raw in
  wi_purpose next = (if mentionsPurpose line then line else wi_purpose info)
  /\ wi_targetAudience next
     = (if mentionsAudience line then line else wi_targetAudience info)
  /\ wi_colorScheme next
     = (if Str.includes "color" (Str.toLowerCase line)
           && (Str.includes "scheme" (Str.toLowerCase line)
               || Str.includes "palette" (Str.toLowerCase line))
        then extractColorFromText raw else wi_colorScheme info)
  /\ wi_style next
     = (if Str.includes "style" (Str.toLowerCase line)
           || Str.includes "aesthetic" (Str.toLowerCase line)
        then extractStyleFromText raw else wi_style info)
  /\ wi_businessObjectives next = wi_businessObjectives info
  /\ wi_features next
     = (wi_features info ++ (if mentionsFeature line then [line] else []))%list
  /\ wi_contentSections next = wi_contentSections info.
Proof.
  intros info raw. cbn zeta.
  unfold websiteInfoLine, mentionsPurpose, mentionsAudience, mentionsFeature.
  generalize (Str.includes "main purpose" (Str.toLowerCase (Str.trim raw))
              || Str.includes "goal" (Str.toLowerCase (Str.trim raw))).
  generalize (Str.includes "target audience" (Str.toLowerCase (Str.trim raw))).
  generalize (Str.includes "color" (Str.toLowerCase (Str.trim raw))
              && (Str.includes "scheme" (Str.toLowerCase (Str.trim raw))
                  || Str.includes "palette" (Str.toLowerCase (Str.trim raw)))).
  generalize (Str.includes "style" (Str.toLowerCase (Str.trim raw))
              || Str.includes "aesthetic" (Str.toLowerCase (Str.trim raw))).
  generalize (Str.includes "feature" (Str.toLowerCase (Str.trim raw))
              || Str.includes "functionality" (Str.toLowerCase (Str.trim raw))).
  intros [] [] [] [] []; cbn; rewrite ?app_nil_r; repeat split.
Qed.

Lemma known_color_palette : forall name,
  In name (List.map fst colorSchemes) -> exists colors, lookup name colorSchemes = Some colors.
Proof.
  intros name Hin. simpl in Hin.
  destruct Hin as [<- | [<- | [<- | [<- | [<- | [<- | []]]]]]]; eexists; reflexivity.
Qed.

(** X12.  The colour scheme read from the requirements is always one of
    the six schemes the stylesheet has a palette for, [blue] when no line
    names one: the lookup of the palette never misses and the guard after
    it never decides. *)
Theorem colorScheme_has_palette : forall requirements text,
  let extractedInfo := parseRequirementsForWebsite requirements in
  In (extractColorFromText text) (List.map fst colorSchemes)
  /\ In (wi_colorScheme extractedInfo) (List.map fst colorSchemes)
  /\ lookup (wi_colorScheme extractedInfo) colorSchemes = Some (colorsOf extractedInfo).
Proof.
  intros requirements text extractedInfo.
  assert (Hknown : In (wi_colorScheme extractedInfo) (List.map fst colorSchemes)).
  { unfold extractedInfo, parseRequirementsForWebsite.
    apply (fold_left_invariant _ _ websiteInfoLine
             (fun info => In (wi_colorScheme info) (List.map fst colorSchemes))).
    - vm_compute. tauto.
    - intros info raw Hinfo.
      destruct (websiteInfoLine_fields info raw) as [_ [_ [Hcolor _]]]. rewrite Hcolor.
      destruct (_ && _); [apply extractColorFromText_known | exact Hinfo]. }
  split; [apply extractColorFromText_known | split; [exact Hknown|]].
  unfold colorsOf. destruct (known_color_palette _ Hknown) as [colors ->]. reflexivity.
Qed.

(** X13.  Of the other fields read from the requirements, the style is
    always one of the five the code tells apart, [modern] when no line
    names one, and the business objectives and the content sections are
    never filled in. *)
Theorem websiteInfo_fixed_fields : forall requirements,
  let extractedInfo := parseRequirementsForWebsite requirements in
  In (wi_style extractedInfo) styleNames
  /\ wi_businessObjectives extractedInfo = ""
  /\ wi_contentSections extractedInfo = [].
Proof.
  intros requirements extractedInfo. unfold extractedInfo, parseRequirementsForWebsite.
  apply (fold_left_invariant _ _ websiteInfoLine
           (fun info => In (wi_style info) styleNames
                        /\ wi_businessObjectives info = ""
                        /\ wi_contentSections info = [])).
  - vm_compute. tauto.
  - intros info raw [Hstyle [Hobj Hsec]].
    destruct (websiteInfoLine_fields info raw) as [_ [_ [_ [Hs [Ho [_ Hc]]]]]].
    rewrite Hs, Ho, Hc. split; [|split; assumption].
    destruct (_ || _); [apply extractStyleFromText_known | exact Hstyle].
Qed.

Lemma websiteInfo_lines : forall raws,
  let lines := List.map Str.trim raws in
  let extractedInfo := fold_left websiteInfoLine raws websiteInfoStart in
  wi_purpose extractedInfo = lastWhole mentionsPurpose lines
  /\ wi_targetAudience extractedInfo = lastWhole mentionsAudience lines
  /\ wi_features extractedInfo = filter mentionsFeature lines.
Proof.
  induction raws as [|x raws IH] using rev_ind; [now repeat split|].
  cbn zeta in *. rewrite fold_left_app, map_app, filter_app. cbn [List.map fold_left].
  unfold lastWhole in *. rewrite !lastLine_snoc.
  destruct IH as [Hp [Ha Hf]].
  set (info := fold_left websiteInfoLine raws websiteInfoStart) in *.
  destruct (websiteInfoLine_fields info x) as [Hp' [Ha' [_ [_ [_ [Hf' _]]]]]].
  rewrite Hp', Ha', Hf', Hp, Ha, Hf. cbn [filter].
  destruct (mentionsPurpose (Str.trim x)); destruct (mentionsAudience (Str.trim x));
    destruct (mentionsFeature (Str.trim x)); repeat split.
Qed.

(** X14.  The structure stage takes as purpose the whole of the last line
    that mentions [main purpose] or [goal] (without regard to case, label
    included), as target audience the whole of the last line that mentions
    [target audience], and as features every line that mentions [feature]
    or [functionality], trimmed and in the order of the report; a field no
    line speaks of stays empty. *)
Theorem parseRequirementsForWebsite_lines : forall requirements,
  let extractedInfo := parseRequirementsForWebsite requirements in
  wi_purpose extractedInfo = lastWhole mentionsPurpose (linesOf requirements)
  /\ wi_targetAudience extractedInfo = lastWhole mentionsAudience (linesOf requirements)
  /\ wi_features extractedInfo = filter mentionsFeature (linesOf requirements).
Proof.
  intros requirements. unfold parseRequirementsForWebsite, linesOf.
  apply websiteInfo_lines.
Qed.

(** ** The owner of a repository *)

Lemma split_nonempty : forall sep s, Str.split sep s <> [].
Proof.
  intros sep s. destruct s as [|c s]; simpl; [discriminate|].
  destruct (Ascii.eqb c sep); [discriminate|]. now destruct (Str.split sep s).
Qed.

Lemma split_append : forall sep a b,
  Str.split sep (a ++ String sep b) = (Str.split sep a ++ Str.split sep b)%list.
Proof.
  intros sep a b. induction a as [|c a IH].
  - simpl. now rewrite Ascii.eqb_refl.
  - cbn [append Str.split]. rewrite IH. destruct (Ascii.eqb c sep); [reflexivity|].
    pose proof (split_nonempty sep a) as Hne.
    destruct (Str.split sep a) as [|h t]; [congruence | reflexivity].
Qed.

Lemma split_whole : forall sep s,
  Str.all (fun c => negb (Ascii.eqb c sep)) s = true -> Str.split sep s = [s].
Proof.
  intros sep. induction s as [|c s IH]; intros H; [reflexivity|].
  simpl in H. apply andb_true_iff in H as [Hc Hs]. apply negb_true_iff in Hc.
  simpl. now rewrite Hc, (IH Hs).
Qed.

Lemma nth_before_last : forall (l : list string) x y d,
  nth (List.length (l ++ [x; y]) - 2) (l ++ [x; y])%list d = x.
Proof.
  intros l x y d. rewrite length_app. cbn [List.length].
  replace (List.length l + 2 - 2) with (List.length l + 0) by lia.
  now rewrite app_nth2_plus.
Qed.

Lemma append_inv_tail : forall a b r : string, a ++ r = b ++ r -> a = b.
Proof.
  induction a as [|x a IH]; intros b r H.
  - destruct b as [|y b]; [reflexivity|].
    apply (f_equal String.length) in H. cbn [append String.length] in H.
    rewrite length_append in H. lia.
  - destruct b as [|y b].
    + apply (f_equal String.length) in H. cbn [append String.length] in H.
      rewrite length_append in H. lia.
    + simpl in H. injection H as -> H. f_equal. now apply (IH b r).
Qed.

(** X15.  From a repository URL that ends in [/owner/name] the later
    stages take [owner] as the owner, so their requests go to
    [https://api.github.com/repos/owner/repositoryName/contents]; this is
    the address the scaffolding stage writes under exactly when the owner
    is [Eima-M], the one it has built in.  A URL without any slash gives
    the owner [undefined]. *)
Theorem baseApiUrl_owner : forall host owner name repositoryName file,
  Str.all (fun c => negb (Ascii.eqb c "/")) owner = true ->
  Str.all (fun c => negb (Ascii.eqb c "/")) name = true ->
  let repositoryUrl := host ++ "/" ++ owner ++ "/" ++ name in
  ownerOf repositoryUrl = owner
  /\ baseApiUrl repositoryUrl repositoryName
     = "https://api.github.com/repos/" ++ owner ++ "/" ++ repositoryName ++ "/contents"
  /\ (fileUrl (baseApiUrl repositoryUrl repositoryName) file
      = frameworkUrl repositoryName file <-> owner = "Eima-M")
  /\ ownerOf name = "undefined".
Proof.
  intros host owner name repositoryName file Howner Hname repositoryUrl.
  assert (Hown : ownerOf repositoryUrl = owner).
  { unfold ownerOf, repositoryUrl.
    change (host ++ "/" ++ owner ++ "/" ++ name)
      with (host ++ String "/" (owner ++ String "/" name)).
    rewrite !split_append, (split_whole _ _ Howner), (split_whole _ _ Hname).
    change ([owner] ++ [name])%list with [owner; name].
    rewrite nth_before_last.
    destruct (_ <? 2)%nat eqn:E; [|reflexivity].
    apply Nat.ltb_lt in E. rewrite length_app in E. simpl in E. lia. }
  split; [exact Hown|]. split; [unfold baseApiUrl; now rewrite Hown|]. split.
  - unfold fileUrl, frameworkUrl, baseApiUrl. rewrite Hown. split.
    + intros H.
      change ("https://api.github.com/repos/Eima-M/" ++ repositoryName
                ++ "/contents/" ++ path file)
        with ("https://api.github.com/repos/"
                ++ "Eima-M" ++ "/" ++ repositoryName ++ "/contents" ++ "/" ++ path file) in H.
      rewrite !append_assoc in H. cbn [append] in H.
      repeat match type of H with String ?c _ = String ?c _ => injection H as H end.
      exact (append_inv_tail owner "Eima-M" _ H).
    + intros ->. rewrite !append_assoc. reflexivity.
  - unfold ownerOf. now rewrite (split_whole _ _ Hname).
Qed.

Lemma baseApiUrl_owner_witness :
  let repositoryUrl := "https://github.com" ++ "/" ++ "acme" ++ "/" ++ "shoe-shop" in
  ownerOf repositoryUrl = "acme"
  /\ baseApiUrl repositoryUrl "shoe-shop"
     = "https://api.github.com/repos/" ++ "acme" ++ "/" ++ "shoe-shop" ++ "/contents"
  /\ (fileUrl (baseApiUrl repositoryUrl "shoe-shop") {| path := "README.md"; content := "" |}
      = frameworkUrl "shoe-shop" {| path := "README.md"; content := "" |}
      <-> "acme" = "Eima-M")
  /\ ownerOf "shoe-shop" = "undefined".
Proof.
  apply (baseApiUrl_owner "https://github.com" "acme" "shoe-shop" "shoe-shop"
           {| path := "README.md"; content := "" |}); reflexivity.
Defined.

(** ** The repository stage *)

Lemma nonblank_truthy : forall name,
  String.eqb (Str.trim name) "" = false -> Str.truthy name = true.
Proof. intros name H. apply truthy_true. intros E. rewrite E in H. discriminate. Qed.

(** The repository stage with an answer that is a success. *)
Lemma createRepository_created : forall w input tr response repoData,
  String.eqb (Str.trim (parsed_projectName input)) "" = false ->
  parsed_success input = Some true ->
  http w (requestCount tr) = Responded response ->
  ok response = true ->
  body response = Some repoData ->
  createRepository w input tr
  = ((tr ++ [Log ("Creating GitHub repository: " ++ Str.trim (parsed_projectName input));
             Request POST "https://api.github.com/user/repos" None None;
             Log ("Repository created successfully: " ++ json_html_url repoData)])%list,
     Return {| repo_repositoryUrl := json_html_url repoData;
               repo_repositoryName := json_name repoData;
               repo_projectName := parsed_projectName input;
               repo_requirements := parsed_requirements input;
               repo_extractedInfo := parsed_extractedInfo input;
               repo_success := Some true |}).
Proof.
  intros w input tr response repoData Hblank Hflag Hhttp Hok Hbody.
  unfold createRepository, rethrowing, tryCatch, bind, fetch, json, emit, ret, throw.
  rewrite Hblank, (nonblank_truthy _ Hblank), Hflag. cbn [negb orb falsy].
  rewrite requestCount_log, Hhttp, Hok, Hbody. cbn [negb].
  now rewrite <- !app_assoc.
Qed.

(** X16.  The repository stage checks the project name before anything
    else: with an empty or blank name it throws, whatever the success flag
    says, and sends nothing.  With a name and the flag set it sends one
    POST; an answer that is not [ok] makes it throw with the message of the
    answer, or with the status text when the answer has no message; an
    [ok] answer makes it return the URL and the name the hosting service
    gave, and the project name, the requirements and the extracted
    information as they came in. *)
Theorem createRepository_outcomes : forall w input tr,
  (String.eqb (Str.trim (parsed_projectName input)) "" = true ->
   createRepository w input tr
   = ((tr ++ [LogError ("Error creating repository: "
                          ++ "Project name is required but was not provided or is empty")])%list,
      Throw "Project name is required but was not provided or is empty"))
  /\ (forall response errorData,
        String.eqb (Str.trim (parsed_projectName input)) "" = false ->
        parsed_success input = Some true ->
        http w (requestCount tr) = Responded response ->
        ok response = false ->
        body response = Some errorData ->
        exists tr',
          createRepository w input tr
          = (tr', Throw ("Failed to create repository: "
                           ++ orElse (json_message errorData) (statusText response)))
          /\ requestCount tr' = S (requestCount tr)
          /\ urlsOf POST tr' = (urlsOf POST tr ++ ["https://api.github.com/user/repos"])%list)
  /\ (forall response repoData,
        String.eqb (Str.trim (parsed_projectName input)) "" = false ->
        parsed_success input = Some true ->
        http w (requestCount tr) = Responded response ->
        ok response = true ->
        body response = Some repoData ->
        exists tr',
          createRepository w input tr
          = (tr', Return {| repo_repositoryUrl := json_html_url repoData;
                            repo_repositoryName := json_name repoData;
                            repo_projectName := parsed_projectName input;
                            repo_requirements := parsed_requirements input;
                            repo_extractedInfo := parsed_extractedInfo input;
                            repo_success := Some true |})
          /\ requestCount tr' = S (requestCount tr)
          /\ urlsOf POST tr' = (urlsOf POST tr ++ ["https://api.github.com/user/repos"])%list).
Proof.
  intros w input tr.
  split; [|split].
  - intros Hblank. unfold createRepository. rewrite Hblank, orb_true_r.
    apply rethrowing_throw.
  - intros response errorData Hblank Hflag Hhttp Hok Hbody.
    unfold createRepository, rethrowing, tryCatch, bind, fetch, json, emit, ret, throw.
    rewrite Hblank, (nonblank_truthy _ Hblank), Hflag. cbn [negb orb falsy].
    rewrite requestCount_log, Hhttp, Hok, Hbody. cbn [negb].
    eexists. split; [reflexivity|].
    rewrite ?requestCount_error, ?requestCount_log, ?requestCount_request,
      ?requestCount_log, !urlsOf_app.
    cbn [urlsOf flat_map app]. rewrite ?app_nil_r. split; reflexivity.
  - intros response repoData Hblank Hflag Hhttp Hok Hbody.
    rewrite (createRepository_created _ _ _ _ _ Hblank Hflag Hhttp Hok Hbody).
    eexists. split; [reflexivity|].
    rewrite urlsOf_app. unfold requestCount. rewrite filter_app, length_app.
    cbn. rewrite ?app_nil_r. split; [lia | reflexivity].
Qed.

Lemma createRepository_outcomes_witness :
  createRepository sampleWorld
    {| parsed_projectName := "  "; parsed_requirements := "a shop";
       parsed_extractedInfo := noInfo; parsed_success := None |} []
  = (([] ++ [LogError ("Error creating repository: "
                         ++ "Project name is required but was not provided or is empty")])%list,
     Throw "Project name is required but was not provided or is empty")
  /\ (exists tr',
        createRepository sampleWorld (sampleParsed (Some true))
                         [Request GET "https://api.github.com" None None]
        = (tr', Throw ("Failed to create repository: " ++ "Validation Failed")))
  /\ (exists tr',
        createRepository sampleWorld (sampleParsed (Some true)) []
        = (tr', Return {| repo_repositoryUrl := "https://github.com/Eima-M/demo";
                          repo_repositoryName := "demo";
                          repo_projectName := parsed_projectName (sampleParsed (Some true));
                          repo_requirements := parsed_requirements (sampleParsed (Some true));
                          repo_extractedInfo := parsed_extractedInfo (sampleParsed (Some true));
                          repo_success := Some true |})).
Proof.
  split; [|split].
  - apply (proj1 (createRepository_outcomes sampleWorld _ [])). reflexivity.
  - destruct (proj1 (proj2 (createRepository_outcomes sampleWorld (sampleParsed (Some true))
                              [Request GET "https://api.github.com" None None]))
                failedResponse
                {| json_sha := None; json_message := Some "Validation Failed";
                   json_html_url := ""; json_name := "" |}
                eq_refl eq_refl eq_refl eq_refl eq_refl) as [tr' [H _]].
    exists tr'. exact H.
  - destruct (proj2 (proj2 (createRepository_outcomes sampleWorld (sampleParsed (Some true)) []))
                okResponse
                {| json_sha := Some "3b18e512"; json_message := None;
                   json_html_url := "https://github.com/Eima-M/demo";
                   json_name := "demo" |}
                eq_refl eq_refl eq_refl eq_refl eq_refl) as [tr' [H _]].
    exists tr'. exact H.
Defined.

(** ** The scaffolding stage: all or nothing *)

Lemma putEach_runs : forall w name files tr,
  (forall i, i < List.length files -> okAt w (requestCount tr + i) = true) ->
  exists extra,
    putEach w name files tr = ((tr ++ extra)%list, Return tt)
    /\ urlsOf PUT extra = List.map (frameworkUrl name) files
    /\ urlsOf GET extra = []
    /\ urlsOf POST extra = []
    /\ requestCount (tr ++ extra) = requestCount tr + List.length files.
Proof.
  intros w name. induction files as [|file rest IH]; intros tr Hok.
  - exists []. rewrite app_nil_r. cbn. repeat split. lia.
  - cbn [putEach]. unfold bind at 1. rewrite fetch_run.
    pose proof (Hok 0 (Nat.lt_0_succ _)) as H0. rewrite Nat.add_0_r in H0.
    unfold okAt in H0. destruct (http w (requestCount tr)) as [|r0]; [discriminate|].
    unfold bind at 1. rewrite H0. cbn [negb]. unfold ret at 1.
    destruct (IH (tr ++ [Request PUT (frameworkUrl name file) (Some (content file)) None])%list)
      as [extra [Hrun [Hput [Hget [Hpost Hcount]]]]].
    + intros i Hi. rewrite requestCount_request.
      replace (S (requestCount tr) + i) with (requestCount tr + S i) by lia.
      apply Hok. simpl. lia.
    + exists (Request PUT (frameworkUrl name file) (Some (content file)) None :: extra).
      change (tr ++ Request PUT (frameworkUrl name file) (Some (content file)) None :: extra)%list
        with (tr ++ [Request PUT (frameworkUrl name file) (Some (content file)) None]
                ++ extra)%list.
      rewrite app_assoc. split; [exact Hrun|].
      cbn [urlsOf flat_map app List.map].
      fold (urlsOf PUT extra). fold (urlsOf GET extra). fold (urlsOf POST extra).
      rewrite Hput, Hget, Hpost, Hcount, requestCount_request.
      repeat split. simpl. lia.
Qed.

Lemma putEach_returned : forall w name files tr tr' u,
  putEach w name files tr = (tr', Return u) ->
  forall i, i < List.length files -> okAt w (requestCount tr + i) = true.
Proof.
  intros w name. induction files as [|file rest IH]; intros tr tr' u Hrun i Hi.
  - simpl in Hi. lia.
  - cbn [putEach] in Hrun. unfold bind at 1 in Hrun. rewrite fetch_run in Hrun.
    destruct (http w (requestCount tr)) as [|r0] eqn:Hhttp; [discriminate|].
    unfold bind at 1 in Hrun.
    destruct (ok r0) eqn:Hok; cbn [negb] in Hrun.
    + unfold ret at 1 in Hrun. destruct i as [|i].
      * rewrite Nat.add_0_r. unfold okAt. now rewrite Hhttp.
      * specialize (IH _ _ _ Hrun i). rewrite requestCount_request in IH.
        replace (requestCount tr + S i) with (S (requestCount tr) + i) by lia.
        apply IH. simpl in Hi. lia.
    + unfold bind, json, ret, throw in Hrun. destruct (body r0); discriminate.
Qed.


(** ** What a stage that returned has done *)

Lemma requestCount_app : forall a b,
  requestCount (a ++ b) = requestCount a + requestCount b.
Proof. intros a b. unfold requestCount. now rewrite filter_app, length_app. Qed.

Lemma requestCount_urls : forall tr,
  requestCount tr
  = List.length (urlsOf GET tr) + List.length (urlsOf PUT tr) + List.length (urlsOf POST tr).
Proof.
  induction tr as [|e tr IH]; [reflexivity|].
  change (e :: tr) with ([e] ++ tr)%list.
  rewrite requestCount_app, !urlsOf_app, !length_app, IH.
  destruct e as [m u c s| |]; [destruct m|..]; cbn; lia.
Qed.

(** Requests that are all reads and writes of files: none creates a
    repository. *)
Lemma no_posts : forall tr extra n,
  requestCount (tr ++ extra) = requestCount tr + n ->
  List.length (urlsOf GET extra) + List.length (urlsOf PUT extra) = n ->
  urlsOf POST extra = [].
Proof.
  intros tr extra n Hcount Hlen. rewrite requestCount_app in Hcount.
  rewrite (requestCount_urls extra) in Hcount.
  destruct (urlsOf POST extra); [reflexivity | simpl in Hcount; lia].
Qed.

Lemma parseStage_runs : forall w report tr,
  blank report = false ->
  exists extra out,
    parseStage w report tr = ((tr ++ extra)%list, Return out)
    /\ parseRequirements (clock w) report = Return out
    /\ filter isRequest extra = [].
Proof.
  intros w report tr Hb. unfold parseStage.
  rewrite parseRequirements_result, Hb.
  unfold rethrowing, tryCatch, bind, emit, ret. cbn.
  eexists. eexists. split; [rewrite <- !app_assoc; reflexivity|].
  split; reflexivity.
Qed.

Lemma parseStage_returned : forall w report tr tr' out,
  parseStage w report tr = (tr', Return out) ->
  blank report = false
  /\ parseRequirements (clock w) report = Return out
  /\ requestCount tr' = requestCount tr
  /\ (forall m, urlsOf m tr' = urlsOf m tr).
Proof.
  intros w report tr tr' out H. destruct (blank report) eqn:Hb.
  - unfold parseStage in H. rewrite parseRequirements_result, Hb in H.
    rewrite rethrowing_throw in H. discriminate.
  - destruct (parseStage_runs w report tr Hb) as [extra [out' [Hrun [Hparse Hquiet]]]].
    rewrite Hrun in H. injection H as <- <-.
    split; [reflexivity | split; [exact Hparse | split]].
    + now apply requestCount_quiet.
    + intros m. now rewrite urlsOf_app, (urlsOf_quiet m extra Hquiet), app_nil_r.
Qed.

Lemma createRepository_returned : forall w input tr tr' out,
  createRepository w input tr = (tr', Return out) ->
  exists repoData,
    okWith w (requestCount tr) repoData
    /\ out = {| repo_repositoryUrl := json_html_url repoData;
                repo_repositoryName := json_name repoData;
                repo_projectName := parsed_projectName input;
                repo_requirements := parsed_requirements input;
                repo_extractedInfo := parsed_extractedInfo input;
                repo_success := Some true |}
    /\ requestCount tr' = S (requestCount tr)
    /\ urlsOf POST tr' = (urlsOf POST tr ++ [createUrl])%list
    /\ urlsOf PUT tr' = urlsOf PUT tr
    /\ urlsOf GET tr' = urlsOf GET tr.
Proof.
  intros w input tr tr' out H.
  destruct (String.eqb (Str.trim (parsed_projectName input)) "") eqn:Hblank.
  { unfold createRepository in H. rewrite Hblank, orb_true_r, rethrowing_throw in H.
    discriminate. }
  destruct (parsed_success input) as [[|]|] eqn:Hflag;
    try (destruct (createRepository_gate w input tr) as [e He];
         [now rewrite Hflag | rewrite He in H; discriminate]).
  destruct (http w (requestCount tr)) as [|response] eqn:Hhttp.
  { unfold createRepository, rethrowing, tryCatch, bind, fetch, json, emit, ret, throw in H.
    rewrite Hblank, (nonblank_truthy _ Hblank), Hflag in H. cbn [negb orb falsy] in H.
    rewrite requestCount_log, Hhttp in H. discriminate. }
  destruct (ok response) eqn:Hok; destruct (body response) as [j|] eqn:Hbody;
    try (unfold createRepository, rethrowing, tryCatch, bind, fetch, json, emit, ret, throw
           in H;
         rewrite Hblank, (nonblank_truthy _ Hblank), Hflag in H; cbn [negb orb falsy] in H;
         rewrite requestCount_log, Hhttp, Hok, Hbody in H; discriminate).
  rewrite (createRepository_created _ _ _ _ _ Hblank Hflag Hhttp Hok Hbody) in H.
  injection H as <- <-. exists j.
  split; [exists response; now repeat split|]. split; [reflexivity|].
  rewrite !urlsOf_app, requestCount_app. cbn. rewrite ?app_nil_r.
  repeat split. lia.
Qed.

Lemma initializeFramework_runs : forall w tpl input tr,
  repo_success input = Some true ->
  (forall i, i < 10 -> okAt w (requestCount tr + i) = true) ->
  exists extra,
    initializeFramework w tpl input tr
    = ((tr ++ extra)%list,
       Return {| fw_repositoryUrl := repo_repositoryUrl input;
                 fw_repositoryName := repo_repositoryName input;
                 fw_projectName := repo_projectName input;
                 fw_requirements := repo_requirements input;
                 fw_frameworkInitialized := Some true;
                 fw_success := Some true |})
    /\ urlsOf PUT extra
       = List.map (frameworkUrl (repo_repositoryName input))
           (frameworkFiles tpl (repo_repositoryName input))
    /\ urlsOf GET extra = [] /\ urlsOf POST extra = []
    /\ requestCount (tr ++ extra) = requestCount tr + 10.
Proof.
  intros w tpl input tr Hflag Hok.
  set (name := repo_repositoryName input).
  set (hello := Log ("Initializing React framework in repository: " ++ name)).
  set (done := Log ("React framework initialized successfully in repository: " ++ name)).
  assert (Hlen : List.length (frameworkFiles tpl name) = 10)
    by (unfold frameworkFiles; now rewrite length_map).
  destruct (putEach_runs w name (frameworkFiles tpl name) (tr ++ [hello])%list)
    as [extra [Hput [E1 [E2 [E3 E4]]]]].
  { intros i Hi. unfold hello. rewrite requestCount_log. apply Hok. lia. }
  exists ([hello] ++ extra ++ [done])%list. split.
  - unfold initializeFramework. rewrite Hflag. cbn [falsy]. fold name hello done.
    apply rethrowing_returns. rewrite bind_emit.
    rewrite (bind_returns _ _ _ _ _ _ _ Hput). rewrite bind_emit.
    unfold ret. now rewrite <- !app_assoc.
  - assert (Hcount : requestCount (tr ++ [hello] ++ extra ++ [done]) = requestCount tr + 10).
    { unfold done. rewrite !app_assoc, requestCount_log, E4. unfold hello.
      rewrite requestCount_log. lia. }
    rewrite !urlsOf_app, E1, E2, E3. unfold hello, done in *. cbn [urlsOf flat_map app].
    rewrite !app_nil_r. repeat split. exact Hcount.
Qed.

Lemma initializeFramework_returned : forall w tpl input tr tr' out,
  initializeFramework w tpl input tr = (tr', Return out) ->
  repo_success input = Some true
  /\ (forall i, i < 10 -> okAt w (requestCount tr + i) = true)
  /\ out = {| fw_repositoryUrl := repo_repositoryUrl input;
              fw_repositoryName := repo_repositoryName input;
              fw_projectName := repo_projectName input;
              fw_requirements := repo_requirements input;
              fw_frameworkInitialized := Some true;
              fw_success := Some true |}
  /\ urlsOf PUT tr'
     = (urlsOf PUT tr
          ++ List.map (frameworkUrl (repo_repositoryName input))
               (frameworkFiles tpl (repo_repositoryName input)))%list
  /\ urlsOf GET tr' = urlsOf GET tr
  /\ urlsOf POST tr' = urlsOf POST tr
  /\ requestCount tr' = requestCount tr + 10.
Proof.
  intros w tpl input tr tr' out Hret.
  assert (Hflag : repo_success input = Some true).
  { destruct (repo_success input) as [[|]|] eqn:E; [reflexivity | |];
      rewrite initializeFramework_gate in Hret by (now rewrite E); discriminate. }
  assert (Hok : forall i, i < 10 -> okAt w (requestCount tr + i) = true).
  { intros i Hi.
    unfold initializeFramework in Hret. rewrite Hflag in Hret. cbn [falsy] in Hret.
    unfold rethrowing, tryCatch in Hret. rewrite bind_emit in Hret.
    destruct (putEach w (repo_repositoryName input)
                (frameworkFiles tpl (repo_repositoryName input))
                (tr ++ [Log ("Initializing React framework in repository: "
                               ++ repo_repositoryName input)])%list)
      as [tr1 [u|e]] eqn:Hput.
    + pose proof (putEach_returned _ _ _ _ _ _ Hput i) as H.
      rewrite requestCount_log in H. apply H.
      unfold frameworkFiles. rewrite length_map. exact Hi.
    + rewrite (bind_throws _ _ _ _ _ _ _ Hput) in Hret. discriminate. }
  destruct (initializeFramework_runs w tpl input tr Hflag Hok)
    as [extra [H [E1 [E2 [E3 E4]]]]].
  rewrite H in Hret. injection Hret as <- <-.
  rewrite !urlsOf_app, E1, E2, E3, !app_nil_r. repeat split; assumption.
Qed.

(** X17.  The scaffolding stage is all or nothing: entered with the
    success flag set, it returns exactly when each of its ten writes is
    answered with a success status.  It then has sent ten PUT requests and
    nothing else, one per scaffold file in the order of the list, all under
    the owner [Eima-M], and it passes the repository URL, the names and the
    requirements on unchanged with both of its flags set. *)
Theorem initializeFramework_all_or_nothing : forall w tpl input tr,
  repo_success input = Some true ->
  ((exists tr' out, initializeFramework w tpl input tr = (tr', Return out))
   <-> (forall i, i < 10 -> okAt w (requestCount tr + i) = true))
  /\ (forall tr' out,
        initializeFramework w tpl input tr = (tr', Return out) ->
        out = {| fw_repositoryUrl := repo_repositoryUrl input;
                 fw_repositoryName := repo_repositoryName input;
                 fw_projectName := repo_projectName input;
                 fw_requirements := repo_requirements input;
                 fw_frameworkInitialized := Some true;
                 fw_success := Some true |}
        /\ urlsOf PUT tr'
           = (urlsOf PUT tr
                ++ List.map (frameworkUrl (repo_repositoryName input))
                     (frameworkFiles tpl (repo_repositoryName input)))%list
        /\ urlsOf GET tr' = urlsOf GET tr
        /\ urlsOf POST tr' = urlsOf POST tr
        /\ requestCount tr' = requestCount tr + 10).
Proof.
  intros w tpl input tr Hflag. split; [split|].
  - intros [tr' [out Hret]].
    now destruct (initializeFramework_returned _ _ _ _ _ _ Hret) as [_ [Hok _]].
  - intros Hok. destruct (initializeFramework_runs w tpl input tr Hflag Hok) as [extra [H _]].
    eexists. eexists. exact H.
  - intros tr' out Hret.
    destruct (initializeFramework_returned _ _ _ _ _ _ Hret)
      as [_ [_ [Hout [Hput [Hget [Hpost Hcount]]]]]].
    repeat split; assumption.
Qed.

Lemma initializeFramework_all_or_nothing_witness :
  let run := initializeFramework obligingWorld sampleTemplates (sampleRepo (Some true)) [] in
  ((exists tr' out, run = (tr', Return out))
   <-> (forall i, i < 10 -> okAt obligingWorld (requestCount [] + i) = true))
  /\ urlsOf PUT (fst run)
     = (urlsOf PUT []
          ++ List.map (frameworkUrl (repo_repositoryName (sampleRepo (Some true))))
               (frameworkFiles sampleTemplates
                  (repo_repositoryName (sampleRepo (Some true)))))%list
  /\ requestCount (fst run) = requestCount [] + 10.
Proof.
  intros run.
  destruct (initializeFramework_all_or_nothing obligingWorld sampleTemplates
              (sampleRepo (Some true)) [] eq_refl) as [Hiff Hout].
  split; [exact Hiff|].
  destruct (Hout (fst run) _ eq_refl) as [_ [Hput [_ [_ Hcount]]]].
  split; [exact Hput | exact Hcount].
Defined.

Lemma gate_flags : forall a b : option bool,
  falsy a || falsy b = false -> a = Some true /\ b = Some true.
Proof. intros [[|]|] [[|]|] H; try discriminate H; now split. Qed.

Lemma generateWebsiteStructure_returned : forall w tpl input tr tr' out,
  generateWebsiteStructure w tpl input tr = (tr', Return out) ->
  fw_success input = Some true
  /\ fw_frameworkInitialized input = Some true
  /\ unset (GITHUB_TOKEN w) = false
  /\ st_repositoryUrl out = fw_repositoryUrl input
  /\ st_repositoryName out = fw_repositoryName input
  /\ st_projectName out = fw_projectName input
  /\ st_requirements out = fw_requirements input
  /\ st_websiteGenerated out = Some true
  /\ st_success out = Some true
  /\ requestCount tr' = requestCount tr + 15
  /\ List.length (urlsOf PUT tr') = List.length (urlsOf PUT tr) + 15
  /\ urlsOf GET tr' = urlsOf GET tr
  /\ urlsOf POST tr' = urlsOf POST tr.
Proof.
  intros w tpl input tr tr' out H.
  destruct (falsy (fw_success input) || falsy (fw_frameworkInitialized input)) eqn:Hgate.
  { rewrite generateWebsiteStructure_gate in H by assumption. discriminate. }
  destruct (gate_flags _ _ Hgate) as [Hs Hi].
  unfold generateWebsiteStructure in H. rewrite Hgate in H.
  set (hello := Log ("Generating website structure for: " ++ fw_projectName input)) in *.
  destruct (askAgent_fallback w
              "Using AI agent to analyze requirements and generate website structure..."
              (render tpl "analysisPrompt" [fw_requirements input])
              "AI Analysis completed for website structure"
              (fallbackAnalysis (fw_projectName input) (fw_requirements input))
              "AI agent not available, using fallback analysis: "
              (tr ++ [hello])%list)
    as [quiet [text [Hask [Hquiet _]]]].
  unfold rethrowing, tryCatch in H. rewrite bind_emit in H.
  unfold structureAnalysisOf in H. rewrite (bind_returns _ _ _ _ _ _ _ Hask) in H.
  unfold structureWith in H.
  destruct (unset (GITHUB_TOKEN w)) eqn:Htoken; [discriminate|].
  set (base := baseApiUrl (fw_repositoryUrl input) (fw_repositoryName input)) in *.
  set (files := generateWebsiteFiles tpl text (fw_requirements input) (fw_projectName input))
    in *.
  destruct (createEach_runs w base files [] ((tr ++ [hello]) ++ quiet)%list)
    as [extra [E1 [E2 [E3 [E4 _]]]]].
  rewrite (bind_returns _ _ _ _ _ _ _ E1) in H. unfold ret in H. injection H as <- <-.
  assert (Hlen : List.length files = 15) by (unfold files, generateWebsiteFiles;
                                             now rewrite length_map).
  assert (Hpost : urlsOf POST extra = []).
  { apply (no_posts _ _ _ E4). now rewrite E2, E3, length_map. }
  assert (Hn : requestCount ((tr ++ [hello]) ++ quiet)%list = requestCount tr)
    by (unfold hello; now rewrite (requestCount_quiet _ quiet Hquiet), requestCount_log).
  cbn [st_repositoryUrl st_repositoryName st_projectName st_requirements
       st_websiteGenerated st_success].
  rewrite E4, Hn, !urlsOf_app, E2, E3, Hpost, !(urlsOf_quiet _ quiet Hquiet).
  unfold hello. cbn [urlsOf flat_map app]. rewrite !app_nil_r, length_app, length_map, Hlen.
  repeat split; assumption.
Qed.

Lemma gate_flags3 : forall a b c : option bool,
  falsy a || falsy b || falsy c = false -> a = Some true /\ b = Some true /\ c = Some true.
Proof. intros [[|]|] [[|]|] [[|]|] H; try discriminate H; now repeat split. Qed.

Lemma generateWebsiteContent_returned : forall w tpl input tr tr' out,
  generateWebsiteContent w tpl input tr = (tr', Return out) ->
  st_success input = Some true
  /\ st_websiteGenerated input = Some true
  /\ unset (GITHUB_TOKEN w) = false
  /\ out = {| ct_repositoryUrl := st_repositoryUrl input;
              ct_repositoryName := st_repositoryName input;
              ct_projectName := st_projectName input;
              ct_requirements := st_requirements input;
              ct_contentGenerated := Some true;
              ct_stylingCompleted := Some true;
              ct_success := Some true |}
  /\ List.length (urlsOf GET tr') = List.length (urlsOf GET tr) + 4
  /\ (answered w ->
      requestCount tr' = requestCount tr + 8
      /\ List.length (urlsOf PUT tr') = List.length (urlsOf PUT tr) + 4
      /\ urlsOf POST tr' = urlsOf POST tr).
Proof.
  intros w tpl input tr tr' out H.
  destruct (falsy (st_success input) || falsy (st_websiteGenerated input)) eqn:Hgate.
  { rewrite generateWebsiteContent_gate in H by assumption. discriminate. }
  destruct (gate_flags _ _ Hgate) as [Hs Hi].
  unfold generateWebsiteContent in H. rewrite Hgate in H.
  set (hello := Log ("Generating custom content for: " ++ st_projectName input)) in *.
  set (prompt := render tpl "contentPrompt"
                   [st_requirements input;
                    let listed := Str.join ", " (st_componentsCreated input) in
                    if Str.truthy listed then listed else "basic components"]) in *.
  destruct (askAgent_fallback w
              "Using AI agent to analyze content and create enhanced components..."
              prompt "AI Content Analysis completed"
              (fallbackContent (st_projectName input) (st_requirements input))
              "AI agent not available, using fallback content enhancement: "
              (tr ++ [hello])%list)
    as [quiet [text [Hask [Hquiet _]]]].
  unfold rethrowing, tryCatch in H. rewrite bind_emit in H.
  unfold contentAnalysisOf in H. fold prompt in H.
  rewrite (bind_returns _ _ _ _ _ _ _ Hask) in H.
  unfold contentWith in H.
  destruct (unset (GITHUB_TOKEN w)) eqn:Htoken; [discriminate|].
  set (base := baseApiUrl (st_repositoryUrl input) (st_repositoryName input)) in *.
  set (files := generateEnhancedComponents tpl text (st_requirements input)
                                           (st_projectName input)) in *.
  destruct (updateEach_runs w base files ((tr ++ [hello]) ++ quiet)%list)
    as [extra [E1 [E2 [E3 E4]]]].
  rewrite (bind_returns _ _ _ _ _ _ _ E1) in H. unfold ret in H. injection H as <- <-.
  assert (Hlen : List.length files = 4) by (unfold files, generateEnhancedComponents;
                                            now rewrite length_map).
  assert (Hn : requestCount ((tr ++ [hello]) ++ quiet)%list = requestCount tr)
    by (unfold hello; now rewrite (requestCount_quiet _ quiet Hquiet), requestCount_log).
  split; [exact Hs | split; [exact Hi | split; [reflexivity | split; [reflexivity|]]]].
  split.
  - rewrite !urlsOf_app, E2, (urlsOf_quiet _ quiet Hquiet). unfold hello.
    cbn [urlsOf flat_map app]. now rewrite !app_nil_r, length_app, length_map, Hlen.
  - intros Ha. destruct (E4 Ha) as [Hcount _]. rewrite Hn, Hlen in Hcount.
    rewrite (writtenFrom_answered w files _ Ha) in E3.
    assert (Hpost : urlsOf POST extra = []).
    { apply (no_posts _ _ 8 (eq_trans Hcount (f_equal (fun n => n + 8) (eq_sym Hn)))).
      now rewrite E2, E3, !length_map, Hlen. }
    rewrite Hcount, !urlsOf_app, E3, Hpost, !(urlsOf_quiet _ quiet Hquiet). unfold hello.
    cbn [urlsOf flat_map app]. rewrite !app_nil_r, length_app, length_map, Hlen.
    repeat split.
Qed.

Lemma finalizeWebsite_returned : forall w tpl input tr tr' out,
  finalizeWebsite w tpl input tr = (tr', Return out) ->
  ct_success input = Some true
  /\ ct_contentGenerated input = Some true
  /\ ct_stylingCompleted input = Some true
  /\ unset (GITHUB_TOKEN w) = false
  /\ out = {| fin_repositoryUrl := ct_repositoryUrl input;
              fin_repositoryName := ct_repositoryName input;
              fin_projectName := ct_projectName input;
              fin_requirements := ct_requirements input;
              fin_frameworkInitialized := Some true;
              fin_websiteCompleted := Some true;
              fin_deploymentReady := Some true;
              fin_success := Some true |}
  /\ List.length (urlsOf GET tr') = List.length (urlsOf GET tr) + 5
  /\ (answered w ->
      requestCount tr' = requestCount tr + 10
      /\ List.length (urlsOf PUT tr') = List.length (urlsOf PUT tr) + 5
      /\ urlsOf POST tr' = urlsOf POST tr).
Proof.
  intros w tpl input tr tr' out H.
  destruct (falsy (ct_success input) || falsy (ct_contentGenerated input)
            || falsy (ct_stylingCompleted input)) eqn:Hgate.
  { rewrite finalizeWebsite_gate in H by assumption. discriminate. }
  destruct (gate_flags3 _ _ _ Hgate) as [Hs [Hc Hy]].
  unfold finalizeWebsite in H. rewrite Hgate in H.
  set (hello := Log ("Finalizing website: " ++ ct_projectName input)) in *.
  unfold rethrowing, tryCatch in H. rewrite bind_emit in H.
  destruct (unset (GITHUB_TOKEN w)) eqn:Htoken; [discriminate|].
  set (base := baseApiUrl (ct_repositoryUrl input) (ct_repositoryName input)) in *.
  set (files := generateFinalFiles tpl (ct_projectName input) (ct_requirements input)
                                   (ct_repositoryName input)) in *.
  destruct (finishEach_runs w base files (tr ++ [hello])%list)
    as [extra [E1 [E2 [E3 E4]]]].
  rewrite (bind_returns _ _ _ _ _ _ _ E1) in H. unfold ret in H. injection H as <- <-.
  assert (Hlen : List.length files = 5) by (unfold files, generateFinalFiles;
                                            now rewrite length_map).
  assert (Hn : requestCount (tr ++ [hello])%list = requestCount tr)
    by (unfold hello; now rewrite requestCount_log).
  split; [exact Hs | split; [exact Hc | split; [exact Hy | split; [reflexivity|]]]].
  split; [reflexivity|]. split.
  - rewrite !urlsOf_app, E2. unfold hello.
    cbn [urlsOf flat_map app]. now rewrite !app_nil_r, length_app, length_map, Hlen.
  - intros Ha. destruct (E4 Ha) as [Hcount _]. rewrite Hn, Hlen in Hcount.
    rewrite (writtenFrom_answered w files _ Ha) in E3.
    assert (Hpost : urlsOf POST extra = []).
    { apply (no_posts _ _ 10 (eq_trans Hcount (f_equal (fun n => n + 10) (eq_sym Hn)))).
      now rewrite E2, E3, !length_map, Hlen. }
    rewrite Hcount, !urlsOf_app, E3, Hpost. unfold hello.
    cbn [urlsOf flat_map app]. rewrite !app_nil_r, length_app, length_map, Hlen.
    repeat split.
Qed.

(** ** The run as a whole *)

Lemma parsed_name_nonblank : forall t report out,
  parseRequirements t report = Return out ->
  String.eqb (Str.trim (parsed_projectName out)) "" = false
  /\ parsed_success out = Some true
  /\ parsed_requirements out = report
  /\ parsed_projectName out = sanitizeProjectName t (chooseName t (fieldsOf report)).
Proof.
  intros t report out H. rewrite parseRequirements_result in H.
  destruct (blank report); [discriminate|]. injection H as <-.
  cbn [parsed_projectName parsed_success parsed_requirements].
  destruct (sanitizeProjectName_slug t (chooseName t (fieldsOf report))) as [Hs _].
  rewrite (slug_trim _ Hs). destruct (isSlug_shape _ Hs) as [Hne _].
  split; [now apply String.eqb_neq | now repeat split].
Qed.

(** X18.  A run of the workflow that returns has met every condition on
    the way, in whatever world it ran: the report was not blank, the
    hosting credential was set, the request that creates the repository and
    the ten writes of the scaffold after it were all answered with a
    success.  What it returns is the URL and the repository name from the
    answer to the first request, the project name the parse stage chose,
    the report itself as requirements, and all four flags set. *)
Theorem workflow_returned : forall w tpl report tr tr' out,
  webBuilderWorkflow w tpl report tr = (tr', Return out) ->
  blank report = false
  /\ unset (GITHUB_TOKEN w) = false
  /\ (forall i, 1 <= i <= 10 -> okAt w (requestCount tr + i) = true)
  /\ exists repoData,
       okWith w (requestCount tr) repoData
       /\ out = {| fin_repositoryUrl := json_html_url repoData;
                   fin_repositoryName := json_name repoData;
                   fin_projectName :=
                     sanitizeProjectName (clock w) (chooseName (clock w) (fieldsOf report));
                   fin_requirements := report;
                   fin_frameworkInitialized := Some true;
                   fin_websiteCompleted := Some true;
                   fin_deploymentReady := Some true;
                   fin_success := Some true |}.
Proof.
  intros w tpl report tr tr' out H. unfold webBuilderWorkflow in H.
  destruct (parseStage w report tr) as [tr1 [parsed|e]] eqn:H1;
    [rewrite (bind_returns _ _ _ _ _ _ _ H1) in H
    | rewrite (bind_throws _ _ _ _ _ _ _ H1) in H; discriminate].
  destruct (createRepository w parsed tr1) as [tr2 [repo|e]] eqn:H2;
    [rewrite (bind_returns _ _ _ _ _ _ _ H2) in H
    | rewrite (bind_throws _ _ _ _ _ _ _ H2) in H; discriminate].
  destruct (initializeFramework w tpl repo tr2) as [tr3 [framework|e]] eqn:H3;
    [rewrite (bind_returns _ _ _ _ _ _ _ H3) in H
    | rewrite (bind_throws _ _ _ _ _ _ _ H3) in H; discriminate].
  destruct (generateWebsiteStructure w tpl framework tr3) as [tr4 [structure|e]] eqn:H4;
    [rewrite (bind_returns _ _ _ _ _ _ _ H4) in H
    | rewrite (bind_throws _ _ _ _ _ _ _ H4) in H; discriminate].
  destruct (generateWebsiteContent w tpl structure tr4) as [tr5 [content|e]] eqn:H5;
    [rewrite (bind_returns _ _ _ _ _ _ _ H5) in H
    | rewrite (bind_throws _ _ _ _ _ _ _ H5) in H; discriminate].
  destruct (parseStage_returned _ _ _ _ _ H1) as [Hblank [Hparse [Hn1 _]]].
  destruct (parsed_name_nonblank _ _ _ Hparse) as [_ [_ [Hreq Hname]]].
  destruct (createRepository_returned _ _ _ _ _ H2) as [repoData [Hfirst [Hrepo [Hn2 _]]]].
  destruct (initializeFramework_returned _ _ _ _ _ _ H3) as [_ [Hok [Hfw _]]].
  destruct (generateWebsiteStructure_returned _ _ _ _ _ _ H4)
    as [_ [_ [Htoken [Su [Sn [Sp [Sr _]]]]]]].
  destruct (generateWebsiteContent_returned _ _ _ _ _ _ H5) as [_ [_ [_ [Hct _]]]].
  destruct (finalizeWebsite_returned _ _ _ _ _ _ H) as [_ [_ [_ [_ [Hfin _]]]]].
  split; [exact Hblank | split; [exact Htoken | split]].
  - intros i Hi. rewrite Hn2, Hn1 in Hok.
    replace (requestCount tr + i) with (S (requestCount tr) + (i - 1)) by lia.
    apply Hok. lia.
  - exists repoData. rewrite Hn1 in Hfirst. split; [exact Hfirst|].
    rewrite Hfin, Hct. cbn [ct_repositoryUrl ct_repositoryName ct_projectName ct_requirements].
    rewrite Su, Sn, Sp, Sr, Hfw.
    cbn [fw_repositoryUrl fw_repositoryName fw_projectName fw_requirements].
    rewrite Hrepo.
    cbn [repo_repositoryUrl repo_repositoryName repo_projectName repo_requirements].
    now rewrite Hreq, Hname.
Qed.

Lemma workflow_returned_witness :
  blank "Project name: Shoe Shop" = false
  /\ unset (GITHUB_TOKEN obligingWorld) = false
  /\ (forall i, 1 <= i <= 10 -> okAt obligingWorld (requestCount [] + i) = true)
  /\ exists repoData,
       okWith obligingWorld (requestCount []) repoData
       /\ {| fin_repositoryUrl := "https://github.com/Eima-M/demo";
             fin_repositoryName := "demo";
             fin_projectName := "shoe-shop";
             fin_requirements := "Project name: Shoe Shop";
             fin_frameworkInitialized := Some true;
             fin_websiteCompleted := Some true;
             fin_deploymentReady := Some true;
             fin_success := Some true |}
          = {| fin_repositoryUrl := json_html_url repoData;
               fin_repositoryName := json_name repoData;
               fin_projectName :=
                 sanitizeProjectName (clock obligingWorld)
                   (chooseName (clock obligingWorld) (fieldsOf "Project name: Shoe Shop"));
               fin_requirements := "Project name: Shoe Shop";
               fin_frameworkInitialized := Some true;
               fin_websiteCompleted := Some true;
               fin_deploymentReady := Some true;
               fin_success := Some true |}.
Proof.
  apply (workflow_returned obligingWorld sampleTemplates "Project name: Shoe Shop" []
           (fst (webBuilderWorkflow obligingWorld sampleTemplates
                   "Project name: Shoe Shop" []))).
  vm_compute. reflexivity.
Defined.

Lemma allOk_facts : forall w,
  allOk w ->
  answered w /\ (forall n, okAt w n = true) /\ (forall n, exists j, okWith w n j).
Proof.
  intros w H. split; [|split].
  - intros n. destruct (H n) as [r [j [Hr [_ Hj]]]]. now exists r, j.
  - intros n. destruct (H n) as [r [j [Hr [Hok _]]]]. unfold okAt. now rewrite Hr.
  - intros n. destruct (H n) as [r [j Hr]]. exists j, r. exact Hr.
Qed.

(** The run up to the end of the scaffolding stage. *)
Lemma scaffolded : forall w tpl report tr repoData,
  blank report = false ->
  okWith w (requestCount tr) repoData ->
  (forall i, 1 <= i <= 10 -> okAt w (requestCount tr + i) = true) ->
  exists tr3,
    (parsed <- parseStage w report ;;
     repo <- createRepository w parsed ;;
     initializeFramework w tpl repo) tr
    = (tr3,
       Return {| fw_repositoryUrl := json_html_url repoData;
                 fw_repositoryName := json_name repoData;
                 fw_projectName :=
                   sanitizeProjectName (clock w) (chooseName (clock w) (fieldsOf report));
                 fw_requirements := report;
                 fw_frameworkInitialized := Some true;
                 fw_success := Some true |})
    /\ requestCount tr3 = requestCount tr + 11
    /\ urlsOf POST tr3 = (urlsOf POST tr ++ [createUrl])%list
    /\ urlsOf PUT tr3
       = (urlsOf PUT tr
            ++ List.map (frameworkUrl (json_name repoData))
                 (frameworkFiles tpl (json_name repoData)))%list
    /\ urlsOf GET tr3 = urlsOf GET tr.
Proof.
  intros w tpl report tr repoData Hblank [response [Hhttp [Hok Hbody]]] Hten.
  destruct (parseStage_runs w report tr Hblank) as [quiet [parsed [H1 [Hparse Hquiet]]]].
  destruct (parsed_name_nonblank _ _ _ Hparse) as [Hname [Hflag [Hreq Hchosen]]].
  pose proof (requestCount_quiet tr quiet Hquiet) as Hn1.
  rewrite <- Hn1 in Hhttp.
  pose proof (createRepository_created w parsed _ _ _ Hname Hflag Hhttp Hok Hbody) as H2.
  destruct (createRepository_returned _ _ _ _ _ H2) as [_ [_ [_ [Hn2 [Hpost2 [Hput2 Hget2]]]]]].
  set (repo := {| repo_repositoryUrl := json_html_url repoData;
                  repo_repositoryName := json_name repoData;
                  repo_projectName := parsed_projectName parsed;
                  repo_requirements := parsed_requirements parsed;
                  repo_extractedInfo := parsed_extractedInfo parsed;
                  repo_success := Some true |}) in *.
  set (tr2 := ((tr ++ quiet) ++ _)%list) in *.
  destruct (initializeFramework_runs w tpl repo tr2 eq_refl)
    as [extra [H3 [E1 [E2 [E3 E4]]]]].
  { intros i Hi. rewrite Hn2, Hn1.
    replace (S (requestCount tr) + i) with (requestCount tr + S i) by lia.
    apply Hten. lia. }
  exists (tr2 ++ extra)%list. split.
  - rewrite (bind_returns _ _ _ _ _ _ _ H1), (bind_returns _ _ _ _ _ _ _ H2), H3.
    cbn [repo_repositoryUrl repo_repositoryName repo_projectName repo_requirements repo].
    now rewrite Hreq, Hchosen.
  - rewrite E4, Hn2, Hn1, !urlsOf_app, E1, E2, E3, !app_nil_r.
    rewrite Hpost2, Hput2, Hget2, !urlsOf_app, !(urlsOf_quiet _ quiet Hquiet).
    rewrite !app_nil_r. cbn [repo_repositoryName repo]. repeat split. lia.
Qed.

Lemma workflow_after_scaffold : forall w tpl report tr tr3 framework,
  (parsed <- parseStage w report ;;
   repo <- createRepository w parsed ;;
   initializeFramework w tpl repo) tr = (tr3, Return framework) ->
  webBuilderWorkflow w tpl report tr = fromStructure w tpl framework tr3.
Proof.
  intros w tpl report tr tr3 framework H.
  unfold webBuilderWorkflow, fromStructure, fromContent, fromFinalize.
  unfold bind at 1 in H. unfold bind at 1.
  destruct (parseStage w report tr) as [tr1 [parsed|e]]; [|discriminate].
  unfold bind at 1 in H. unfold bind at 1.
  destruct (createRepository w parsed tr1) as [tr2 [repo|e]]; [|discriminate].
  unfold bind at 1. now rewrite H.
Qed.

(** X19.  Without the hosting credential the run still creates the
    repository and writes the scaffold, when the hosting service answers
    these eleven requests with a success: the credential is first looked
    at by the structure stage, which throws.  The run ends with that error
    after exactly eleven requests, the POST that created the repository and
    the ten writes of the scaffold. *)
Theorem workflow_without_credential : forall w tpl report tr repoData,
  blank report = false ->
  unset (GITHUB_TOKEN w) = true ->
  okWith w (requestCount tr) repoData ->
  (forall i, 1 <= i <= 10 -> okAt w (requestCount tr + i) = true) ->
  exists tr',
    webBuilderWorkflow w tpl report tr = (tr', Throw credentialMissing)
    /\ requestCount tr' = requestCount tr + 11
    /\ urlsOf POST tr' = (urlsOf POST tr ++ [createUrl])%list
    /\ urlsOf PUT tr'
       = (urlsOf PUT tr
            ++ List.map (frameworkUrl (json_name repoData))
                 (frameworkFiles tpl (json_name repoData)))%list
    /\ urlsOf GET tr' = urlsOf GET tr.
Proof.
  intros w tpl report tr repoData Hblank Htoken Hfirst Hten.
  destruct (scaffolded w tpl report tr repoData Hblank Hfirst Hten)
    as [tr3 [Hrun [Hcount [Hpost [Hput Hget]]]]].
  rewrite (workflow_after_scaffold _ _ _ _ _ _ Hrun).
  match type of Hrun with _ = (_, Return ?f) => set (framework := f) in * end.
  destruct (generateWebsiteStructure_runs w tpl framework tr3 eq_refl) as [Hthrows _].
  destruct (Hthrows Htoken) as [extra [Hstage Hquiet]].
  exists (tr3 ++ extra)%list. split.
  - unfold fromStructure. apply bind_throws. exact Hstage.
  - rewrite (requestCount_quiet _ extra Hquiet), !urlsOf_app, !(urlsOf_quiet _ extra Hquiet),
      !app_nil_r.
    repeat split; assumption.
Qed.

Lemma workflow_without_credential_witness :
  exists tr',
    webBuilderWorkflow obligingWorldWithoutToken sampleTemplates "Project name: Shoe Shop" []
    = (tr', Throw credentialMissing)
    /\ requestCount tr' = requestCount [] + 11
    /\ urlsOf POST tr' = (urlsOf POST [] ++ [createUrl])%list
    /\ urlsOf PUT tr'
       = (urlsOf PUT []
            ++ List.map (frameworkUrl "demo") (frameworkFiles sampleTemplates "demo"))%list
    /\ urlsOf GET tr' = urlsOf GET [].
Proof.
  apply (workflow_without_credential obligingWorldWithoutToken sampleTemplates
           "Project name: Shoe Shop" []
           {| json_sha := Some "3b18e512"; json_message := None;
              json_html_url := "https://github.com/Eima-M/demo"; json_name := "demo" |}).
  - reflexivity.
  - reflexivity.
  - exists okResponse. repeat split.
  - intros i _. reflexivity.
Defined.

(** X20.  With the credential set and every request answered with a
    success, a report that is not blank takes the workflow to its end: it
    returns with all flags set, the URL and the name from the answer to
    the first request, and the report as requirements, after exactly 44
    requests: the one POST that creates the repository, 34 writes of files
    (ten of the scaffold, fifteen of the structure, four of the content and
    five of the final files) and nine reads (one before each write of the
    last two stages). *)
Theorem workflow_completes : forall w tpl report tr,
  blank report = false ->
  unset (GITHUB_TOKEN w) = false ->
  allOk w ->
  exists tr' repoData,
    okWith w (requestCount tr) repoData
    /\ webBuilderWorkflow w tpl report tr
       = (tr', Return {| fin_repositoryUrl := json_html_url repoData;
                         fin_repositoryName := json_name repoData;
                         fin_projectName :=
                           sanitizeProjectName (clock w)
                             (chooseName (clock w) (fieldsOf report));
                         fin_requirements := report;
                         fin_frameworkInitialized := Some true;
                         fin_websiteCompleted := Some true;
                         fin_deploymentReady := Some true;
                         fin_success := Some true |})
    /\ requestCount tr' = requestCount tr + 44
    /\ urlsOf POST tr' = (urlsOf POST tr ++ [createUrl])%list
    /\ List.length (urlsOf PUT tr') = List.length (urlsOf PUT tr) + 34
    /\ List.length (urlsOf GET tr') = List.length (urlsOf GET tr) + 9.
Proof.
  intros w tpl report tr Hblank Htoken Hall.
  destruct (allOk_facts w Hall) as [Hanswered [Hok Hbodies]].
  destruct (Hbodies (requestCount tr)) as [repoData Hfirst].
  destruct (scaffolded w tpl report tr repoData Hblank Hfirst (fun i _ => Hok _))
    as [tr3 [Hrun [Hcount [Hpost [Hput Hget]]]]].
  pose proof (workflow_after_scaffold _ _ _ _ _ _ Hrun) as Hflow.
  match type of Hrun with _ = (_, Return ?f) => set (framework := f) in * end.
  destruct (generateWebsiteStructure_runs w tpl framework tr3 eq_refl) as [_ Hruns4].
  destruct (Hruns4 Htoken) as [extra4 [structure [H4 _]]].
  destruct (generateWebsiteStructure_returned _ _ _ _ _ _ H4)
    as [_ [_ [_ [Su [Sn [Sp [Sr [Sg [Ss [C4 [P4 [G4 O4]]]]]]]]]]]].
  destruct (generateWebsiteContent_runs w tpl structure (tr3 ++ extra4)%list) as [_ Hruns5].
  { now rewrite Ss, Sg. }
  destruct (Hruns5 Htoken) as [extra5 [content [text [H5 _]]]].
  destruct (generateWebsiteContent_returned _ _ _ _ _ _ H5)
    as [_ [_ [_ [Hct [G5 Hmore5]]]]].
  destruct (Hmore5 Hanswered) as [C5 [P5 O5]].
  destruct (finalizeWebsite_runs w tpl content ((tr3 ++ extra4) ++ extra5)%list)
    as [_ Hruns6].
  { now rewrite Hct. }
  destruct (Hruns6 Htoken) as [extra6 [final [H6 _]]].
  destruct (finalizeWebsite_returned _ _ _ _ _ _ H6)
    as [_ [_ [_ [_ [Hfin [G6 Hmore6]]]]]].
  destruct (Hmore6 Hanswered) as [C6 [P6 O6]].
  exists ((((tr3 ++ extra4) ++ extra5) ++ extra6))%list, repoData.
  split; [exact Hfirst|]. split.
  - rewrite Hflow. unfold fromStructure, fromContent, fromFinalize.
    rewrite (bind_returns _ _ _ _ _ _ _ H4), (bind_returns _ _ _ _ _ _ _ H5), H6.
    rewrite Hfin, Hct.
    cbn [ct_repositoryUrl ct_repositoryName ct_projectName ct_requirements].
    now rewrite Su, Sn, Sp, Sr.
  - rewrite C6, C5, C4, Hcount, O6, O5, O4, Hpost, P6, P5, P4, Hput, G6, G5, G4, Hget.
    rewrite length_app, length_map.
    unfold frameworkFiles. rewrite length_map. cbn [List.length frameworkPaths].
    repeat split; lia.
Qed.

Lemma workflow_completes_witness :
  exists tr' repoData,
    okWith obligingWorld (requestCount []) repoData
    /\ webBuilderWorkflow obligingWorld sampleTemplates "Project name: Shoe Shop" []
       = (tr', Return {| fin_repositoryUrl := json_html_url repoData;
                         fin_repositoryName := json_name repoData;
                         fin_projectName :=
                           sanitizeProjectName (clock obligingWorld)
                             (chooseName (clock obligingWorld)
                                (fieldsOf "Project name: Shoe Shop"));
                         fin_requirements := "Project name: Shoe Shop";
                         fin_frameworkInitialized := Some true;
                         fin_websiteCompleted := Some true;
                         fin_deploymentReady := Some true;
                         fin_success := Some true |})
    /\ requestCount tr' = requestCount [] + 44
    /\ urlsOf POST tr' = (urlsOf POST [] ++ [createUrl])%list
    /\ List.length (urlsOf PUT tr') = List.length (urlsOf PUT []) + 34
    /\ List.length (urlsOf GET tr') = List.length (urlsOf GET []) + 9.
Proof.
  apply (workflow_completes obligingWorld sampleTemplates "Project name: Shoe Shop" []).
  - reflexivity.
  - reflexivity.
  - intros n. exists okResponse. eexists. repeat split.
Defined.

(** ** What the structure stage writes *)

Lemma createOne_requests : forall w base file acc tr,
  filter isRequest (fst (createOne w base file acc tr))
  = (filter isRequest tr ++ [creation base file])%list.
Proof.
  intros w base file acc tr.
  unfold createOne, tryCatch, bind, fetch, json, ret, throw, emit, creation, fileUrl.
  destruct (http w (requestCount tr)) as [|r]; [|destruct (ok r); [|destruct (body r)]];
    cbn [fst]; rewrite !filter_app; cbn; now rewrite ?app_nil_r.
Qed.

Lemma createEach_requests : forall w base files acc tr,
  filter isRequest (fst (createEach w base files acc tr))
  = (filter isRequest tr ++ List.map (creation base) files)%list.
Proof.
  intros w base. induction files as [|file rest IH]; intros acc tr.
  - simpl. now rewrite app_nil_r.
  - rewrite createEach_cons. unfold bind at 1.
    pose proof (createOne_requests w base file acc tr) as Hone.
    destruct (createOne_runs w base file acc tr) as [extra [Hrun _]].
    rewrite Hrun in *. cbn [fst] in Hone.
    rewrite IH, Hone, <- app_assoc. reflexivity.
Qed.

(** X21.  The requests of the structure stage do not depend on the agent:
    past its gate and with the credential set, whatever the agent answers
    and whatever the hosting service answers, the stage returns after
    sending exactly one PUT for each of the fifteen files of the site, in
    order, without a sha, and the content of each file is made from the
    requirements and the project name alone. *)
Theorem structure_requests : forall w tpl input tr,
  falsy (fw_success input) || falsy (fw_frameworkInitialized input) = false ->
  unset (GITHUB_TOKEN w) = false ->
  exists tr' out,
    generateWebsiteStructure w tpl input tr = (tr', Return out)
    /\ filter isRequest tr'
       = (filter isRequest tr
            ++ List.map (creation (baseApiUrl (fw_repositoryUrl input)
                                              (fw_repositoryName input)))
                 (generateWebsiteFiles tpl "" (fw_requirements input)
                                       (fw_projectName input)))%list
    /\ List.map path (generateWebsiteFiles tpl "" (fw_requirements input)
                                           (fw_projectName input))
       = structurePaths.
Proof.
  intros w tpl input tr Hgate Htoken.
  unfold generateWebsiteStructure. rewrite Hgate.
  set (hello := Log ("Generating website structure for: " ++ fw_projectName input)).
  destruct (askAgent_fallback w
              "Using AI agent to analyze requirements and generate website structure..."
              (render tpl "analysisPrompt" [fw_requirements input])
              "AI Analysis completed for website structure"
              (fallbackAnalysis (fw_projectName input) (fw_requirements input))
              "AI agent not available, using fallback analysis: "
              (tr ++ [hello])%list)
    as [quiet [text [Hask [Hquiet _]]]].
  set (base := baseApiUrl (fw_repositoryUrl input) (fw_repositoryName input)).
  set (files := generateWebsiteFiles tpl "" (fw_requirements input) (fw_projectName input)).
  destruct (createEach_runs w base files [] ((tr ++ [hello]) ++ quiet)%list)
    as [extra [E1 _]].
  pose proof (createEach_requests w base files [] ((tr ++ [hello]) ++ quiet)%list) as Hreq.
  rewrite E1 in Hreq. cbn [fst] in Hreq.
  eexists. eexists. split; [|split].
  - apply rethrowing_returns. rewrite bind_emit. fold hello.
    unfold structureAnalysisOf. rewrite (bind_returns _ _ _ _ _ _ _ Hask).
    unfold structureWith. rewrite Htoken.
    change (generateWebsiteFiles tpl text (fw_requirements input) (fw_projectName input))
      with files.
    fold base. rewrite (bind_returns _ _ _ _ _ _ _ E1). reflexivity.
  - rewrite Hreq, !filter_app, Hquiet. unfold hello. cbn [filter isRequest].
    now rewrite !app_nil_r.
  - unfold files, generateWebsiteFiles. rewrite map_map. cbn [path]. apply map_id.
Qed.

Lemma structure_requests_witness :
  exists tr' out,
    generateWebsiteStructure sampleWorld sampleTemplates
      (sampleFramework (Some true) (Some true)) [] = (tr', Return out)
    /\ filter isRequest tr'
       = (filter isRequest []
            ++ List.map (creation (baseApiUrl
                                     (fw_repositoryUrl (sampleFramework (Some true) (Some true)))
                                     (fw_repositoryName
                                        (sampleFramework (Some true) (Some true)))))
                 (generateWebsiteFiles sampleTemplates ""
                    (fw_requirements (sampleFramework (Some true) (Some true)))
                    (fw_projectName (sampleFramework (Some true) (Some true)))))%list
    /\ List.map path
         (generateWebsiteFiles sampleTemplates ""
            (fw_requirements (sampleFramework (Some true) (Some true)))
            (fw_projectName (sampleFramework (Some true) (Some true))))
       = structurePaths.
Proof.
  apply (structure_requests sampleWorld sampleTemplates
           (sampleFramework (Some true) (Some true)) []); reflexivity.
Defined.

Lemma createdFrom_components : forall w files n,
  (forall p, In p (createdFrom w n files) ->
             In p (filter (Str.includes "components/") (List.map path files)))
  /\ ((forall i, i < List.length files -> okAt w (n + i) = true) ->
      createdFrom w n files = filter (Str.includes "components/") (List.map path files))
  /\ ((forall i, i < List.length files -> okAt w (n + i) = false) ->
      createdFrom w n files = []).
Proof.
  intros w. induction files as [|file rest IH]; intros n.
  - split; [intros p [] | split; reflexivity].
  - destruct (IH (S n)) as [Hin [Hall Hnone]]. cbn [createdFrom List.map filter List.length].
    split; [|split].
    + intros p Hp. apply in_app_or in Hp as [Hp | Hp].
      * destruct (okAt w n); [|destruct Hp]. cbn [andb] in Hp.
        destruct (Str.includes "components/" (path file)); [|destruct Hp].
        destruct Hp as [<- | []]. now left.
      * specialize (Hin p Hp).
        destruct (Str.includes "components/" (path file)); [now right | assumption].
    + intros Hok. rewrite Hall.
      * pose proof (Hok 0 (Nat.lt_0_succ _)) as H0. rewrite Nat.add_0_r in H0. rewrite H0.
        cbn [andb]. now destruct (Str.includes "components/" (path file)).
      * intros i Hi. replace (S n + i) with (n + S i) by lia. apply Hok. lia.
    + intros Hbad. rewrite Hnone.
      * pose proof (Hbad 0 (Nat.lt_0_succ _)) as H0. rewrite Nat.add_0_r in H0. now rewrite H0.
      * intros i Hi. replace (S n + i) with (n + S i) by lia. apply Hbad. lia.
Qed.

Lemma createdFrom_app : forall w front back n,
  createdFrom w n (front ++ back)
  = (createdFrom w n front ++ createdFrom w (n + List.length front) back)%list.
Proof.
  intros w. induction front as [|file rest IH]; intros back n.
  - simpl. now rewrite Nat.add_0_r.
  - cbn [app createdFrom List.length]. rewrite IH, <- app_assoc.
    now replace (n + S (List.length rest)) with (S n + List.length rest) by lia.
Qed.

Lemma createdFrom_others : forall w files n,
  Forall (fun file => Str.includes "components/" (path file) = false) files ->
  createdFrom w n files = [].
Proof.
  intros w. induction files as [|file rest IH]; intros n Hall; [reflexivity|].
  cbn [createdFrom]. rewrite (Forall_inv Hall), andb_false_r.
  apply IH. exact (Forall_inv_tail Hall).
Qed.

Lemma createdFrom_written : forall w files n,
  Forall (fun file => Str.includes "components/" (path file) = true) files ->
  createdFrom w n files = writtenOk w n (List.map path files).
Proof.
  intros w. induction files as [|file rest IH]; intros n Hall; [reflexivity|].
  cbn [createdFrom List.map writtenOk]. rewrite (Forall_inv Hall), andb_true_r.
  f_equal. apply IH. exact (Forall_inv_tail Hall).
Qed.

Lemma writtenOk_sub : forall w paths n p, In p (writtenOk w n paths) -> In p paths.
Proof.
  intros w. induction paths as [|q rest IH]; intros n p Hin; [destruct Hin|].
  cbn [writtenOk] in Hin. apply in_app_or in Hin as [Hin | Hin].
  - destruct (okAt w n); [|destruct Hin]. destruct Hin as [<- | []]. now left.
  - right. exact (IH _ _ Hin).
Qed.

(** With no path listed twice, a path is kept exactly when the write at
    its own position succeeded. *)
Lemma writtenOk_In : forall w paths n i p,
  NoDup paths ->
  nth_error paths i = Some p ->
  In p (writtenOk w n paths) <-> okAt w (n + i) = true.
Proof.
  intros w. induction paths as [|q rest IH]; intros n i p Hnd Hnth.
  - destruct i; discriminate.
  - apply NoDup_cons_iff in Hnd as [Hfresh Hnd]. cbn [writtenOk].
    rewrite in_app_iff. destruct i as [|i].
    + injection Hnth as ->. rewrite Nat.add_0_r. split.
      * intros [Hin | Hin].
        -- destruct (okAt w n); [reflexivity | destruct Hin].
        -- apply writtenOk_sub in Hin. contradiction.
      * intros ->. left. now left.
    + cbn [nth_error] in Hnth.
      replace (n + S i) with (S n + i) by lia.
      rewrite <- (IH (S n) i p Hnd Hnth). split.
      * intros [Hin | Hin]; [|exact Hin].
        destruct (okAt w n); [|destruct Hin]. destruct Hin as [<- | []].
        apply nth_error_In in Hnth. contradiction.
      * intros Hin. now right.
Qed.

Lemma componentPaths_NoDup : NoDup componentPaths.
Proof.
  unfold componentPaths.
  repeat (apply NoDup_cons; [cbn [In]; intuition discriminate|]). apply NoDup_nil.
Qed.

(** The files of the structure stage: three, then the six components,
    then six images. *)
Lemma structurePaths_parts :
  structurePaths = (firstn 3 structurePaths ++ componentPaths ++ skipn 9 structurePaths)%list.
Proof. reflexivity. Qed.

Lemma createdFrom_structure : forall w tpl analysis requirements projectName n,
  createdFrom w n (generateWebsiteFiles tpl analysis requirements projectName)
  = writtenOk w (n + 3) componentPaths.
Proof.
  intros w tpl analysis requirements projectName n.
  unfold generateWebsiteFiles. rewrite structurePaths_parts, !map_app, !createdFrom_app.
  rewrite (createdFrom_others w (List.map _ (firstn 3 structurePaths))).
  2:{ apply Forall_map. cbn [path]. vm_compute. repeat constructor. }
  rewrite (createdFrom_others w (List.map _ (skipn 9 structurePaths))).
  2:{ apply Forall_map. cbn [path]. vm_compute. repeat constructor. }
  rewrite createdFrom_written.
  2:{ apply Forall_map. cbn [path]. vm_compute. repeat constructor. }
  rewrite map_map. cbn [path]. rewrite map_id, app_nil_r, length_map. reflexivity.
Qed.

(** X22.  The components the structure stage reports as created are
    exactly the component files whose own write was answered with a
    success, in the order written.  The six component files are the fourth
    to ninth of the fifteen writes, so a component file is reported exactly
    when the write three places further than its place among the
    components succeeded, whatever happens to the other writes.  Hence the
    report holds component files only, never a stylesheet or an image; all
    six when every write succeeds, and none when every write fails. *)
Theorem componentsCreated_components : forall w tpl input tr,
  falsy (fw_success input) || falsy (fw_frameworkInitialized input) = false ->
  unset (GITHUB_TOKEN w) = false ->
  exists tr' out,
    generateWebsiteStructure w tpl input tr = (tr', Return out)
    /\ st_componentsCreated out = writtenOk w (requestCount tr + 3) componentPaths
    /\ (forall i p,
          nth_error componentPaths i = Some p ->
          In p (st_componentsCreated out) <-> okAt w (requestCount tr + 3 + i) = true)
    /\ (forall p, In p (st_componentsCreated out) -> In p componentPaths)
    /\ ((forall i, i < 15 -> okAt w (requestCount tr + i) = true) ->
        st_componentsCreated out = componentPaths)
    /\ ((forall i, i < 15 -> okAt w (requestCount tr + i) = false) ->
        st_componentsCreated out = []).
Proof.
  intros w tpl input tr Hgate Htoken.
  destruct (generateWebsiteStructure_runs w tpl input tr Hgate) as [_ Hruns].
  destruct (Hruns Htoken) as [extra [out [Hrun [_ [_ [_ [Hcreated _]]]]]]].
  exists (tr ++ extra)%list, out. split; [exact Hrun|].
  split; [rewrite Hcreated; apply createdFrom_structure|].
  split.
  { intros i p Hnth. rewrite Hcreated, createdFrom_structure.
    apply writtenOk_In; [apply componentPaths_NoDup | exact Hnth]. }
  rewrite Hcreated.
  set (files := generateWebsiteFiles tpl "" (fw_requirements input) (fw_projectName input)).
  assert (Hpaths : filter (Str.includes "components/") (List.map path files)
                   = componentPaths).
  { unfold files, generateWebsiteFiles. rewrite map_map. cbn [path]. rewrite map_id.
    reflexivity. }
  assert (Hlen : List.length files = 15)
    by (unfold files, generateWebsiteFiles; now rewrite length_map).
  destruct (createdFrom_components w files (requestCount tr)) as [Hin [Hall Hnone]].
  rewrite Hpaths, Hlen in *. split; [exact Hin | split; assumption].
Qed.

Lemma componentsCreated_components_witness :
  exists tr' out,
    generateWebsiteStructure fifthRefused sampleTemplates
      (sampleFramework (Some true) (Some true)) [] = (tr', Return out)
    /\ st_componentsCreated out
       = [ "src/components/Header.tsx"; "src/components/About.tsx";
           "src/components/Services.tsx"; "src/components/Contact.tsx";
           "src/components/Footer.tsx" ].
Proof.
  destruct (componentsCreated_components fifthRefused sampleTemplates
              (sampleFramework (Some true) (Some true)) [] eq_refl eq_refl)
    as [tr' [out [Hrun [Hcreated _]]]].
  exists tr', out. split; [exact Hrun | exact Hcreated].
Defined.

(** ** Reading before writing *)

(** X23.  In the content and the finalize stage a file is read before it
    is written, and the write carries the sha that was read: when the read
    is answered with a success the write sends the sha of the answer (the
    finalize stage sends none when that sha is empty or missing); when the
    read is answered without success, as for a file that does not exist
    yet, the write is sent without a sha; and when the read itself throws,
    or its answer to a success cannot be parsed, the file is not written at
    all. *)
Theorem write_carries_sha_read : forall w base file tr,
  (forall response fileData,
      http w (requestCount tr) = Responded response ->
      ok response = true -> body response = Some fileData ->
      In (Request PUT (fileUrl base file) (Some (content file)) (json_sha fileData))
         (fst (updateOne w base file tr))
      /\ In (Request PUT (fileUrl base file) (Some (content file))
               (if unset (json_sha fileData) then None else json_sha fileData))
            (fst (finishOne w base file tr)))
  /\ (forall response,
        http w (requestCount tr) = Responded response ->
        ok response = false ->
        In (creation base file) (fst (updateOne w base file tr))
        /\ In (creation base file) (fst (finishOne w base file tr)))
  /\ (readFails w (requestCount tr) = true ->
      urlsOf PUT (fst (updateOne w base file tr)) = urlsOf PUT tr
      /\ urlsOf PUT (fst (finishOne w base file tr)) = urlsOf PUT tr).
Proof.
  intros w base file tr. split; [|split].
  - intros response fileData Hhttp Hok Hbody.
    unfold updateOne, finishOne, tryCatch, bind, fetch, json, ret, throw, emit, fileUrl.
    rewrite Hhttp, Hok, Hbody, requestCount_request.
    split.
    + destruct (http w (S (requestCount tr))) as [|r]; [|destruct (ok r); [|destruct (body r)]];
        cbn [fst]; rewrite <- ?app_assoc; apply in_or_app; right; cbn; tauto.
    + destruct (http w (S (requestCount tr))) as [|r]; [|destruct (ok r); [|destruct (body r)]];
        cbn [fst]; rewrite <- ?app_assoc; apply in_or_app; right; cbn; tauto.
  - intros response Hhttp Hok.
    unfold updateOne, finishOne, tryCatch, bind, fetch, json, ret, throw, emit, creation,
      fileUrl.
    rewrite Hhttp, Hok, requestCount_request. cbn [unset].
    split;
      (destruct (http w (S (requestCount tr))) as [|r]; [|destruct (ok r); [|destruct (body r)]];
       cbn [fst]; rewrite <- ?app_assoc; apply in_or_app; right; cbn; tauto).
  - intros Hfails.
    destruct (updateOne_runs w base file tr) as [extra [Hrun [_ [Hput _]]]].
    destruct (finishOne_runs w base file tr) as [extra' [Hrun' [_ [Hput' _]]]].
    rewrite Hrun, Hrun'. cbn [fst]. rewrite !urlsOf_app, Hput, Hput', Hfails.
    now rewrite !app_nil_r.
Qed.

Lemma write_carries_sha_read_witness :
  In (Request PUT (fileUrl "https://api.github.com/repos/Eima-M/demo/contents"
                     {| path := "README.md"; content := "# demo" |})
        (Some (content {| path := "README.md"; content := "# demo" |}))
        (json_sha {| json_sha := Some "3b18e512"; json_message := None;
                     json_html_url := "https://github.com/Eima-M/demo";
                     json_name := "demo" |}))
     (fst (updateOne obligingWorld "https://api.github.com/repos/Eima-M/demo/contents"
             {| path := "README.md"; content := "# demo" |} []))
  /\ (readFails sampleWorld (requestCount []) = true ->
      urlsOf PUT (fst (updateOne sampleWorld "https://api.github.com/repos/Eima-M/demo/contents"
                         {| path := "README.md"; content := "# demo" |} []))
      = urlsOf PUT []).
Proof.
  destruct (write_carries_sha_read obligingWorld
              "https://api.github.com/repos/Eima-M/demo/contents"
              {| path := "README.md"; content := "# demo" |} []) as [Hsha _].
  destruct (write_carries_sha_read sampleWorld
              "https://api.github.com/repos/Eima-M/demo/contents"
              {| path := "README.md"; content := "# demo" |} []) as [_ [_ Hnone]].
  split.
  - exact (proj1 (Hsha okResponse _ eq_refl eq_refl eq_refl)).
  - intros H. exact (proj1 (Hnone H)).
Defined.

(** ** The description of the repository *)

(** X24.  The description sent with the request that creates the
    repository starts with the repository name and takes at most the first
    hundred code units of the purpose: for what the parse stage returns it
    is never longer than 145 code units, and without a purpose it is the
    name alone after [Website project: ]. *)
Theorem repositoryDescription_bounded : forall t report out,
  parseRequirements t report = Return out ->
  let repoName := Str.trim (parsed_projectName out) in
  String.length (repositoryDescription repoName (parsed_extractedInfo out)) <= 145
  /\ Str.startsWith ("Website project: " ++ repoName)
       (repositoryDescription repoName (parsed_extractedInfo out)) = true
  /\ (purpose (parsed_extractedInfo out) = None ->
      repositoryDescription repoName (parsed_extractedInfo out)
      = "Website project: " ++ repoName).
Proof.
  intros t report out H repoName.
  assert (Hname : String.length repoName <= 25).
  { unfold repoName. rewrite parseRequirements_result in H.
    destruct (blank report); [discriminate|]. injection H as <-.
    cbn [parsed_projectName].
    destruct (sanitizeProjectName_slug t (chooseName t (fieldsOf report))) as [Hs Hl].
    now rewrite (slug_trim _ Hs). }
  unfold repositoryDescription. split; [|split].
  - rewrite !length_append. change (String.length "Website project: ") with 17.
    destruct (purpose (parsed_extractedInfo out)) as [p|]; [destruct (Str.truthy p)|].
    + rewrite length_append. change (String.length " - ") with 3.
      pose proof (substring0_length 100 p). lia.
    + simpl. lia.
    + simpl. lia.
  - rewrite <- append_assoc. apply startsWith_append.
  - intros ->. now rewrite append_nil_r.
Qed.

Lemma repositoryDescription_bounded_witness :
  let out := {| parsed_projectName := "shoe-shop";
                parsed_requirements := "Project name: Shoe Shop";
                parsed_extractedInfo := noInfo;
                parsed_success := Some true |} in
  let repoName := Str.trim (parsed_projectName out) in
  String.length (repositoryDescription repoName (parsed_extractedInfo out)) <= 145
  /\ Str.startsWith ("Website project: " ++ repoName)
       (repositoryDescription repoName (parsed_extractedInfo out)) = true
  /\ (purpose (parsed_extractedInfo out) = None ->
      repositoryDescription repoName (parsed_extractedInfo out)
      = "Website project: " ++ repoName).
Proof.
  apply (repositoryDescription_bounded sampleClock "Project name: Shoe Shop").
  vm_compute. reflexivity.
Defined.

(** ** The e-mail tool *)





(** ** A purpose without key terms *)

(** X27.  When no line names the project and the purpose has no key term
    (it is empty, or made of stop words, short words and over-long words
    only), the parse stage falls back to the dated name: [website-]
    followed by the date as YYYYMMDD, for a date of the calendar with a
    year of at most four digits. *)
Theorem purpose_without_key_terms : forall t report,
  (year t <= 9999)%N -> (month t <= 12)%N -> (day t <= 31)%N ->
  blank report = false ->
  lastExplicitName (linesOf report) = "" ->
  extractKeyTerms (lastValue "Main purpose/goal:" (linesOf report)) = [] ->
  exists out,
    parseRequirements t report = Return out
    /\ parsed_projectName out = "website-" ++ yyyymmdd t.
Proof.
  intros t report Hy Hm Hd Hblank Hname Hterms.
  rewrite parseRequirements_result, Hblank. eexists. split; [reflexivity|].
  cbn [parsed_projectName]. unfold fieldsOf. rewrite Hname.
  assert (Hchoose : chooseName t
                      (Build_Scan "" (lastValue "Main purpose/goal:" (linesOf report))
                         (lastValue "Target audience:" (linesOf report))
                         (lastValue "Business objectives:" (linesOf report)))
                    = "website-" ++ dateStamp t).
  { unfold chooseName. cbn [v_projectName v_purpose v_targetAudience Str.truthy String.eqb negb
                             andb].
    unfold generateConciseProjectName. rewrite Hterms. cbn [List.length Nat.ltb Nat.leb].
    now destruct (Str.truthy (lastValue "Main purpose/goal:" (linesOf report))). }
  rewrite Hchoose, (dateStamp_digits t Hy).
  destruct (dated_name_slug t Hy Hm Hd) as [Hs Hlen].
  now apply sanitizeProjectName_fixed.
Qed.

Lemma purpose_without_key_terms_witness :
  exists out,
    parseRequirements sampleClock "Main purpose/goal: Create a website" = Return out
    /\ parsed_projectName out = "website-" ++ yyyymmdd sampleClock.
Proof.
  apply (purpose_without_key_terms sampleClock "Main purpose/goal: Create a website");
    vm_compute; first [reflexivity | discriminate].
Defined.
